(** * qgis_geonode: the network fetch task, the client facade and the
      data-source widget, embedded in Rocq

    The development follows the Python sources

    - [src/qgis_geonode/apiclient/base.py]  (module [Base] below),
    - [src/qgis_geonode/gui/geonode_source_select_provider.py]
      (module [Gui] below).

    Qt objects are modelled by records holding the fields the code reads
    and writes.  Signals are modelled by the list of emissions a call
    produces, in order.  Python exceptions are values of [exn]; a call
    that can raise returns [py A]. *)

From Stdlib Require Import ZArith Bool Ascii String List Lia.
From stdpp Require Import base option list strings gmap pretty.

Local Open Scope string_scope.
Local Open Scope Z_scope.

(** ** Python values and exceptions *)

(** The exceptions raised by the modelled code. *)
Inductive exn : Type :=
| AttributeError
| TypeError
| ZeroDivisionError
| OverflowError
| RuntimeError (message : string).

(** The outcome of a call that may raise. *)
Definition py (A : Type) : Type := (exn + A)%type.

Definition ret {A : Type} (a : A) : py A := inr a.
Definition raise {A : Type} (e : exn) : py A := inl e.

Definition bind {A B : Type} (m : py A) (k : A -> py B) : py B :=
  match m with
  | inl e => inl e
  | inr a => k a
  end.

Notation "'let*' x ':=' m 'in' k" := (bind m (fun x => k))
  (at level 10, x name, m at level 100, k at level 200, only parsing).

(** [try: m except AttributeError: h] *)
Definition try_except_AttributeError {A : Type} (m : py A) (h : A) : py A :=
  match m with
  | inl AttributeError => inr h
  | other => other
  end.

(** Reading an attribute of (or calling a method on) a reference that may
    be [None]. *)
Definition deref {A : Type} (o : option A) : py A :=
  match o with
  | Some a => ret a
  | None => raise AttributeError
  end.

(** [x or d] on an optional string: [None] and the empty string are falsy. *)
Definition str_or (x : option string) (d : string) : string :=
  match x with
  | None => d
  | Some s => if String.eqb s "" then d else s
  end.

(** [s.rstrip(c)] for a one-character set: the characters equal to [c] at
    the right end of [s] are dropped. *)
Fixpoint rstrip (c : ascii) (s : string) : string :=
  match s with
  | EmptyString => EmptyString
  | String a rest =>
      match rstrip c rest with
      | EmptyString => if Ascii.eqb a c then EmptyString else String a EmptyString
      | kept => String a kept
      end
  end.

(** [n] copies of the character [c]. *)
Fixpoint replicate_char (n : nat) (c : ascii) : string :=
  match n with
  | O => EmptyString
  | S k => String c (replicate_char k c)
  end.

(** The last character of a string, if any. *)
Fixpoint last_char (s : string) : option ascii :=
  match s with
  | EmptyString => None
  | String a EmptyString => Some a
  | String _ rest => last_char rest
  end.

(** ** The blocking event-loop adapter ([wait_for_signal]) *)

Section EventLoop.

(** [St] is the state the connected slots act on, [Ev] the events that
    the nested loop takes from its queue. *)
Context {St Ev : Type}.

(** Delivering one queued event runs the slots connected to it.  The
    boolean tells whether the awaited signal was emitted meanwhile, that
    is whether [loop.quit] (connected to it at line 34) was called. *)
Variable dispatch : Ev -> St -> St * bool.

(** Why [loop.exec_()] returned, and when (milliseconds after it was
    entered). *)
Inductive loop_exit : Type :=
| SignalEmitted (at_ms : Z)
| TimerExpired (at_ms : Z).

Definition exit_time (x : loop_exit) : Z :=
  match x with
  | SignalEmitted t => t
  | TimerExpired t => t
  end.

(** [loop.exec_()], with [QTimer.singleShot(timeout, loop.quit)] armed.
    The queue holds the events in the order in which they fall due, each
    with its due time; an event due at or after [timeout] comes after the
    timer's own event. *)
Fixpoint exec_ (timeout : Z) (queue : list (Z * Ev)) (s : St)
  : loop_exit * St :=
  match queue with
  | [] => (TimerExpired timeout, s)
  | (t, ev) :: later =>
      if timeout <=? t then (TimerExpired timeout, s)
      else
        let '(s', quit) := dispatch ev s in
        if quit then (SignalEmitted t, s') else exec_ timeout later s'
  end.

(** The events of a stretch of the queue are dispatched in order, taking
    the state from [s] to [s'], and none of them has the awaited signal
    emitted. *)
Inductive quiet : list (Z * Ev) -> St -> St -> Prop :=
| quiet_nil (s : St) : quiet [] s s
| quiet_cons (due : Z) (ev : Ev) (rest : list (Z * Ev)) (s s1 s2 : St) :
    dispatch ev s = (s1, false) ->
    quiet rest s1 s2 ->
    quiet ((due, ev) :: rest) s s2.

(** What one wait amounts to.  Either the loop was left at the first
    event, due before the timeout, whose dispatch had the awaited signal
    emitted; or it was left at the timeout, after the events due before
    it were dispatched without the signal being emitted. *)
Definition left_on_signal_or_timeout (timeout : Z) (queue : list (Z * Ev))
    (s : St) (exit : loop_exit) (s' : St) : Prop :=
  match exit with
  | SignalEmitted due =>
      due < timeout
      /\ exists pre ev post s1,
          queue = (pre ++ (due, ev) :: post)%list
          /\ Forall (fun e => fst e < timeout) pre
          /\ quiet pre s s1
          /\ dispatch ev s1 = (s', true)
  | TimerExpired at_ms =>
      at_ms = timeout
      /\ exists pre post,
          queue = (pre ++ post)%list
          /\ Forall (fun e => fst e < timeout) pre
          /\ quiet pre s s'
          /\ match post with
             | [] => True
             | (due, _) :: _ => timeout <= due
             end
  end.

(** The default of the [timeout] parameter. *)
Definition default_timeout : Z := 10000.

(** [with wait_for_signal(signal, timeout): body] followed by the rest of
    the caller: the body runs first (at the [yield]), then the timer is
    armed and the nested loop entered. *)
Definition wait_for_signal (timeout : Z) (body : St -> St)
    (queue : list (Z * Ev)) (s : St) : loop_exit * St :=
  exec_ timeout queue (body s).

End EventLoop.

(** ** Further exceptions, and indexing *)

(** The exceptions of the code beyond the claims' functions: those of
    [exn], and three more. *)
Inductive error : Type :=
| Raised (e : exn)
| NotImplementedError
| IndexError
| KeyError (key : string).

Definition fallible (A : Type) : Type := (error + A)%type.

Definition and_then {A B : Type} (m : fallible A) (k : A -> fallible B)
  : fallible B :=
  match m with
  | inl e => inl e
  | inr a => k a
  end.

Notation "'let+' x ':=' m 'in' k" := (and_then m (fun x => k))
  (at level 10, x name, m at level 100, k at level 200, only parsing).

(** A call that raises one of the exceptions of [exn]. *)
Definition of_py {A : Type} (m : py A) : fallible A :=
  match m with
  | inl e => inl (Raised e)
  | inr a => inr a
  end.

(** [l[i]] on a Python list: a negative index counts from the end, an
    index outside the list raises [IndexError]. *)
Definition list_index {A : Type} (l : list A) (i : Z) : fallible A :=
  let n := Z.of_nat (length l) in
  let j := if i <? 0 then i + n else i in
  if (j <? 0) || (n <=? j) then inl IndexError
  else
    match nth_error l (Z.to_nat j) with
    | Some a => inr a
    | None => inl IndexError
    end.

(** [d[key]] on a Python dict with string keys. *)
Definition dict_item {A : Type} (d : gmap string A) (key : string)
  : fallible A :=
  match d !! key with
  | Some v => inr v
  | None => inl (KeyError key)
  end.

(** [f"{x}"] for an optional string and for an optional integer. *)
Definition format_optional_str (x : option string) : string :=
  match x with
  | Some s => s
  | None => "None"
  end.

Definition format_optional_int (x : option Z) : string :=
  match x with
  | Some z => pretty z
  | None => "None"
  end.

(** ** apiclient/base.py *)

Module Base.

(** *** Qt and QGIS objects used by the module *)

Definition QByteArray : Type := string.

(** [QNetworkRequest.RedirectPolicy] *)
Inductive RedirectPolicy : Type :=
| ManualRedirectPolicy
| NoLessSafeRedirectPolicy
| SameOriginRedirectPolicy
| UserVerifiedRedirectPolicy.

(** The URL schemes that the policies tell apart. *)
Inductive scheme : Type :=
| http
| https.

(** Whether Qt follows, on its own, a redirect from a request of scheme
    [origin] to a target of scheme [target], as the documentation of
    [QNetworkRequest.RedirectPolicy] has it: never under the manual policy;
    under [NoLessSafeRedirectPolicy] unless the redirect leads from https
    to http; under the same-origin policy if scheme, host and port are
    kept; under the user-verified policy if the client accepts. *)
Definition redirect_followed (policy : RedirectPolicy)
    (origin target : scheme) (same_origin user_accepts : bool) : bool :=
  match policy with
  | ManualRedirectPolicy => false
  | NoLessSafeRedirectPolicy =>
      match origin, target with
      | https, http => false
      | _, _ => true
      end
  | SameOriginRedirectPolicy => same_origin
  | UserVerifiedRedirectPolicy => user_accepts
  end.

Record QNetworkRequest : Type := {
  url : string;
  rawHeaders : list (string * string)
}.

(** [utils.ParsedNetworkReply], with the fields that base.py reads. *)
Record ParsedNetworkReply : Type := {
  http_status_code : option Z;
  http_status_reason : option string;
  qt_error : option string
}.

(** [QgsNetworkReplyContent], the argument of the shared [finished]
    signal: the id of the completed request, its HTTP status attributes
    and, when the transport failed, a description of the failure. *)
Record QgsNetworkReplyContent : Type := {
  requestId : Z;
  content_request : QNetworkRequest;
  attribute_HttpStatusCode : option Z;
  attribute_HttpReasonPhrase : option string;
  transport_failure : option string
}.

Inductive Operation : Type :=
| GetOperation
| PostOperation (data : QByteArray).

(** [QNetworkReply], the handle that [get] and [post] return.  The shared
    layer stores the id of the request in the property ["requestId"]. *)
Record QNetworkReply : Type := {
  property_requestId : Z;
  operation : Operation;
  request_of_reply : QNetworkRequest
}.

(** [parsed_reply.qt_error is None] *)
Definition no_transport_error (pr : ParsedNetworkReply) : bool :=
  match qt_error pr with
  | None => true
  | Some _ => false
  end.

(** The process-wide [QgsNetworkAccessManager.instance()]: its redirect
    policy, the tasks whose [_request_done] is connected to its [finished]
    signal, and the number of requests it has created (requests are
    numbered as they are created). *)
Record QgsNetworkAccessManager : Type := {
  redirectPolicy : RedirectPolicy;
  finished_receivers : list nat;
  requests_created : Z
}.

Definition setRedirectPolicy (p : RedirectPolicy)
    (nam : QgsNetworkAccessManager) : QgsNetworkAccessManager :=
  {| redirectPolicy := p;
     finished_receivers := finished_receivers nam;
     requests_created := requests_created nam |}.

Definition finished_connect (receiver : nat)
    (nam : QgsNetworkAccessManager) : QgsNetworkAccessManager :=
  {| redirectPolicy := redirectPolicy nam;
     finished_receivers := (finished_receivers nam ++ [receiver])%list;
     requests_created := requests_created nam |}.

Definition is_connected (receiver : nat) (nam : QgsNetworkAccessManager)
  : bool :=
  existsb (Nat.eqb receiver) (finished_receivers nam).

(** [finished.disconnect(slot)] raises [TypeError] when the slot is not
    connected. *)
Definition finished_disconnect (receiver : nat)
    (nam : QgsNetworkAccessManager) : py QgsNetworkAccessManager :=
  if is_connected receiver nam then
    ret {| redirectPolicy := redirectPolicy nam;
           finished_receivers :=
             List.filter (fun r => negb (Nat.eqb receiver r))
                    (finished_receivers nam);
           requests_created := requests_created nam |}
  else raise TypeError.

Definition create_request (op : Operation) (req : QNetworkRequest)
    (nam : QgsNetworkAccessManager)
  : QNetworkReply * QgsNetworkAccessManager :=
  ({| property_requestId := requests_created nam;
      operation := op;
      request_of_reply := req |},
   {| redirectPolicy := redirectPolicy nam;
      finished_receivers := finished_receivers nam;
      requests_created := requests_created nam + 1 |}).

Definition get (req : QNetworkRequest) (nam : QgsNetworkAccessManager)
  : QNetworkReply * QgsNetworkAccessManager :=
  create_request GetOperation req nam.

Definition post (req : QNetworkRequest) (data : QByteArray)
    (nam : QgsNetworkAccessManager)
  : QNetworkReply * QgsNetworkAccessManager :=
  create_request (PostOperation data) req nam.

(** *** [reply_matches] (lines 42-46) *)

Definition reply_matches (qgis_reply : QgsNetworkReplyContent)
    (qt_reply : QNetworkReply) : bool :=
  let reply_id := property_requestId qt_reply in
  requestId qgis_reply =? reply_id.

(** *** [MyNetworkFetcherTask] (lines 49-139) *)

Module MyNetworkFetcherTask.

(** The two signals of the class. *)
Inductive signal : Type :=
| request_finished
| request_parsed.

Definition signal_eqb (a b : signal) : bool :=
  match a, b with
  | request_finished, request_finished => true
  | request_parsed, request_parsed => true
  | _, _ => false
  end.

(** The attributes of an instance; [self] is the identity of the object,
    under which its slot is connected to the shared [finished] signal. *)
Record state : Type := {
  self : nat;
  authcfg : option string;
  description : string;
  request : QNetworkRequest;
  request_payload : option string;
  reply_content : option QByteArray;
  parsed_reply : option ParsedNetworkReply;
  redirect_policy : RedirectPolicy;
  _reply : option QNetworkReply
}.

Definition with_request (r : QNetworkRequest) (t : state) : state :=
  {| self := self t; authcfg := authcfg t; description := description t;
     request := r; request_payload := request_payload t;
     reply_content := reply_content t; parsed_reply := parsed_reply t;
     redirect_policy := redirect_policy t; _reply := _reply t |}.

Definition with_reply (r : option QNetworkReply) (t : state) : state :=
  {| self := self t; authcfg := authcfg t; description := description t;
     request := request t; request_payload := request_payload t;
     reply_content := reply_content t; parsed_reply := parsed_reply t;
     redirect_policy := redirect_policy t; _reply := r |}.

Definition with_parsed (c : QByteArray) (p : ParsedNetworkReply)
    (t : state) : state :=
  {| self := self t; authcfg := authcfg t; description := description t;
     request := request t; request_payload := request_payload t;
     reply_content := Some c; parsed_reply := Some p;
     redirect_policy := redirect_policy t; _reply := _reply t |}.

(** The defaults of the keyword parameters of [__init__]. *)
Definition default_description : string := "MyNetworkfetcherTask".
Definition default_redirect_policy : RedirectPolicy :=
  NoLessSafeRedirectPolicy.

(** [__init__] (lines 62-101).  The shared manager is part of the state
    that the constructor changes. *)
Definition __init__ (self_id : nat) (request_arg : QNetworkRequest)
    (request_payload_arg : option string) (authcfg_arg : option string)
    (description_arg : string) (redirect_policy_arg : RedirectPolicy)
    (nam : QgsNetworkAccessManager) : state * QgsNetworkAccessManager :=
  let t :=
    {| self := self_id;
       authcfg := authcfg_arg;
       description := description_arg;
       request := request_arg;
       request_payload := request_payload_arg;
       reply_content := None;
       parsed_reply := None;
       redirect_policy := redirect_policy_arg;
       _reply := None |} in
  let nam1 := setRedirectPolicy (redirect_policy t) nam in
  let nam2 := finished_connect (self t) nam1 in
  (t, nam2).

(** The arguments of one call of the constructor. *)
Record arguments : Type := {
  arg_self : nat;
  arg_request : QNetworkRequest;
  arg_request_payload : option string;
  arg_authcfg : option string;
  arg_description : string;
  arg_redirect_policy : RedirectPolicy
}.

Definition construct (a : arguments) (nam : QgsNetworkAccessManager)
  : state * QgsNetworkAccessManager :=
  __init__ (arg_self a) (arg_request a) (arg_request_payload a)
           (arg_authcfg a) (arg_description a) (arg_redirect_policy a) nam.

(** Several tasks constructed one after the other: the shared manager
    afterwards. *)
Definition construct_all (calls : list arguments)
    (nam : QgsNetworkAccessManager) : QgsNetworkAccessManager :=
  fold_left (fun m a => snd (construct a m)) calls nam.

(** The number of emissions of one signal. *)
Definition emissions (s : signal) (trace : list signal) : nat :=
  length (List.filter (signal_eqb s) trace).

(** The lifecycle of the spec (4.3): each of the two signals is emitted
    exactly once, [request_parsed] before [request_finished]. *)
Definition once_each_in_order (trace : list signal) : Prop :=
  emissions request_parsed trace = 1%nat
  /\ emissions request_finished trace = 1%nat
  /\ exists pre mid post,
      trace = (pre ++ request_parsed :: mid ++ request_finished :: post)%list.

(** Whether the completion of the request with the given id is delivered
    before the wait ends: it is in the queue, due before the timeout, and
    nothing due at or after the timeout comes before it in the queue. *)
Fixpoint own_completion_due (timeout id : Z)
    (queue : list (Z * QgsNetworkReplyContent)) : bool :=
  match queue with
  | [] => false
  | (due, qgis_reply) :: later =>
      if timeout <=? due then false
      else if requestId qgis_reply =? id then true
      else own_completion_due timeout id later
  end.

(** A completion that is not the task's own: the task has no reply bound,
    or the id of the completed request differs from the id of the reply
    that the task holds. *)
Definition foreign (t : state) (qgis_reply : QgsNetworkReplyContent) : Prop :=
  match _reply t with
  | None => True
  | Some r => requestId qgis_reply <> property_requestId r
  end.

Section WithEnvironment.

(** Collaborators outside the module: [utils.parse_network_reply], the
    data [QNetworkReply.readAll()] yields, and the authentication
    manager's [updateNetworkRequest]. *)
Variable parse_network_reply : QgsNetworkReplyContent -> ParsedNetworkReply.
Variable readAll : QNetworkReply -> QByteArray.
Variable updateNetworkRequest : QNetworkRequest -> string -> QNetworkRequest.

(** [_request_done] (lines 125-139): the new attributes and the signals
    emitted.  The calls to [log] are left out. *)
Definition _request_done (t : state) (qgis_reply : QgsNetworkReplyContent)
  : state * list signal :=
  match _reply t with
  | None => (t, [])
  | Some r =>
      if reply_matches qgis_reply r then
        (with_parsed (readAll r) (parse_network_reply qgis_reply) t,
         [request_parsed])
      else (t, [])
  end.

(** What the nested loop of [run] acts on: the task, the shared manager
    and the signals emitted so far. *)
Definition loop_state : Type :=
  (state * QgsNetworkAccessManager * list signal)%type.

(** One emission of the manager's [finished] signal reaches the task's
    slot if it is connected; the loop is told to quit when
    [request_parsed] is emitted. *)
Definition deliver (qgis_reply : QgsNetworkReplyContent) (s : loop_state)
  : loop_state * bool :=
  let '(t, nam, trace) := s in
  if is_connected (self t) nam then
    let '(t', emitted) := _request_done t qgis_reply in
    ((t', nam, (trace ++ emitted)%list),
     existsb (signal_eqb request_parsed) emitted)
  else (s, false).

(** The body of the [with] statement (lines 108-114). *)
Definition issue_request (s : loop_state) : loop_state :=
  let '(t, nam, trace) := s in
  let '(r, nam') :=
    match request_payload t with
    | None => get (request t) nam
    | Some payload => post (request t) payload nam
    end in
  (with_reply (Some r) t, nam', trace).

(** The [try] block (lines 115-118). *)
Definition check_result (t : state) : py (bool * state) :=
  let* pr := deref (parsed_reply t) in
  let result := no_transport_error pr in
  let* _ := deref (_reply t) in   (* self._reply.deleteLater() *)
  ret (result, with_reply None t).

Record outcome : Type := {
  returned : py bool;
  task_after : state;
  manager_after : QgsNetworkAccessManager;
  emitted : list signal;
  left_loop : loop_exit
}.

(** The task once the authentication manager has updated its request
    (lines 104-106). *)
Definition authenticated (t : state) : state :=
  match authcfg t with
  | Some cfg => with_request (updateNetworkRequest (request t) cfg) t
  | None => t
  end.

(** [run] (lines 103-123).  [queue] holds the emissions of the shared
    [finished] signal that fall due while the nested loop runs. *)
Definition run (t : state) (nam : QgsNetworkAccessManager)
    (queue : list (Z * QgsNetworkReplyContent)) : outcome :=
  let t1 := authenticated t in
  let '(exit, (t2, nam2, trace)) :=
    wait_for_signal deliver default_timeout issue_request queue
                    (t1, nam, []) in
  match try_except_AttributeError (check_result t2) (false, t2) with
  | inl e =>
      {| returned := raise e; task_after := t2; manager_after := nam2;
         emitted := trace; left_loop := exit |}
  | inr (result, t3) =>
      match finished_disconnect (self t3) nam2 with
      | inl e =>
          {| returned := raise e; task_after := t3; manager_after := nam2;
             emitted := trace; left_loop := exit |}
      | inr nam3 =>
          {| returned := ret result; task_after := t3;
             manager_after := nam3;
             emitted := (trace ++ [request_finished])%list; left_loop := exit |}
      end
  end.

End WithEnvironment.

End MyNetworkFetcherTask.

(** *** The XML documents of [QtXml] *)

Inductive QDomNode : Type :=
| ElementNode (tagName : string) (children : list QDomNode)
| TextNode (data : string).

(** A [QDomElement] is a reference to an element of a document, or the
    null element. *)
Definition QDomElement : Type := option (string * list QDomNode).

Definition isNull (e : QDomElement) : bool :=
  match e with
  | None => true
  | Some _ => false
  end.

(** The first child that is an element with the given tag name. *)
Fixpoint first_element_named (tag : string) (nodes : list QDomNode)
  : QDomElement :=
  match nodes with
  | [] => None
  | ElementNode name children :: rest =>
      if String.eqb name tag then Some (name, children)
      else first_element_named tag rest
  | TextNode _ :: rest => first_element_named tag rest
  end.

(** [QDomElement.firstChildElement(tagName)]; null if there is none. *)
Definition firstChildElement (tag : string) (e : QDomElement) : QDomElement :=
  match e with
  | None => None
  | Some (_, children) => first_element_named tag children
  end.

Record QDomDocument : Type := {
  documentElement : QDomElement
}.

(** *** [BaseGeonodeClient] (lines 210-380) *)

Module BaseGeonodeClient.

Record state : Type := {
  auth_config : string;
  base_url : string;
  network_fetcher_task : option MyNetworkFetcherTask.state
}.

(** The signals of the class that the modelled methods emit or that the
    specification names, with the argument types of their declarations
    (lines 218 and 221). *)
Inductive signal : Type :=
| style_detail_received (named_layer : QDomElement)
| error_received (message : string) (http_status : Z)
                 (transport_error : string).

(** Code that emits signals and may raise: the signals emitted so far,
    and the value or the exception. *)
Definition emitting (A : Type) : Type := (list signal * py A)%type.

Definition pure {A : Type} (a : A) : emitting A := ([], ret a).
Definition throw {A : Type} (e : exn) : emitting A := ([], raise e).
Definition emit (s : signal) : emitting unit := ([s], ret tt).
Definition lift {A : Type} (m : py A) : emitting A := ([], m).

Definition then_ {A B : Type} (m : emitting A) (k : A -> emitting B)
  : emitting B :=
  match m with
  | (out, inl e) => (out, inl e)
  | (out, inr a) => let '(out', r) := k a in ((out ++ out')%list, r)
  end.

Notation "'run*' x ':=' m 'in' k" := (then_ m (fun x => k))
  (at level 10, x name, m at level 100, k at level 200, only parsing).

(** [__init__] (lines 223-229). *)
Definition __init__ (base_url_arg : string) (auth_config_arg : option string)
  : state :=
  {| auth_config := str_or auth_config_arg "";
     base_url := rstrip "/" base_url_arg;
     network_fetcher_task := None |}.

Section WithQtXml.

(** [QDomDocument.setContent(data, namespaceProcessing)] on a fresh
    document: the truth value of what the call returns, which
    [if not sld_loaded] tests, and the document afterwards.  The data is
    what the task's [reply_content] holds.  The Python binding of Qt 5
    returns a tuple (the success flag, the error message, the line and the
    column), and a tuple of four is true in a test whatever the flag is:
    with that binding the first component is always [true], and data that
    cannot be loaded show as a document without a root element. *)
Variable setContent : option QByteArray -> bool -> bool * QDomDocument.

(** [deserialize_sld_style] (lines 281-288). *)
Definition deserialize_sld_style (raw_sld : option QByteArray)
  : py QDomDocument :=
  let '(sld_loaded, sld_doc) := setContent raw_sld true in
  if negb sld_loaded then
    raise (RuntimeError "Could not load downloaded SLD document")
  else ret sld_doc.

(** [handle_layer_style_detail] (lines 296-307). *)
Definition handle_layer_style_detail (c : state) : emitting unit :=
  run* task := lift (deref (network_fetcher_task c)) in
  run* deserialized :=
    lift (deserialize_sld_style (MyNetworkFetcherTask.reply_content task)) in
  let sld_root := documentElement deserialized in
  let error_message := "Could not parse downloaded SLD document" in
  if isNull sld_root then throw (RuntimeError error_message)
  else
    let sld_named_layer := firstChildElement "NamedLayer" sld_root in
    if isNull sld_named_layer then throw (RuntimeError error_message)
    else emit (style_detail_received sld_named_layer).

(** The document that [setContent] leaves for the content of a task has
    no root element, or a root without a [NamedLayer] child. *)
Definition unusable (task : MyNetworkFetcherTask.state) : Prop :=
  let root :=
    documentElement
      (snd (setContent (MyNetworkFetcherTask.reply_content task) true)) in
  isNull root = true \/ isNull (firstChildElement "NamedLayer" root) = true.

End WithQtXml.

End BaseGeonodeClient.

(** Modelled from the spec: [utils.parse_network_reply], which base.py
    imports and which is not part of the sources at hand.  The spec (4.1)
    distinguishes a transport-level failure (the error string is kept, no
    HTTP status) from the replies that carry an HTTP status, be it a 4xx
    or 5xx failure or a success (status code and reason are kept, no
    transport error). *)
Definition parse_network_reply_spec (reply : QgsNetworkReplyContent)
  : ParsedNetworkReply :=
  match transport_failure reply with
  | Some description =>
      {| http_status_code := None;
         http_status_reason := None;
         qt_error := Some description |}
  | None =>
      {| http_status_code := attribute_HttpStatusCode reply;
         http_status_reason := attribute_HttpReasonPhrase reply;
         qt_error := None |}
  end.

(** *** Request headers *)

Section HeaderNames.

(** Qt's comparison of two header names, which disregards case. *)
Variable same_header_name : string -> string -> bool.

(** [QNetworkRequest.setHeader] for the header of the given name: the
    headers that Qt takes to have that name are removed and the header is
    added with the given value. *)
Definition setHeader (name value : string) (req : QNetworkRequest)
  : QNetworkRequest :=
  {| url := url req;
     rawHeaders :=
       (List.filter (fun h => negb (same_header_name (fst h) name))
                    (rawHeaders req)
        ++ [(name, value)])%list |}.

(** [QNetworkRequest.rawHeader]: the value of the first header that Qt
    takes to have the given name. *)
Definition rawHeader (name : string) (req : QNetworkRequest) : option string :=
  match List.find (fun h => same_header_name (fst h) name) (rawHeaders req) with
  | Some h => Some (snd h)
  | None => None
  end.

End HeaderNames.

Definition ContentTypeHeader : string := "Content-Type".

(** *** [NetworkFetcherTask] (lines 142-207) *)

Module NetworkFetcherTask.

Record state : Type := {
  authcfg : option string;
  request : QNetworkRequest;
  request_payload : option string;
  reply_content : option QByteArray;
  http_status_code : option Z;
  http_status_reason : option string;
  qt_error : option string;
  progress : Z
}.

(** What [finished] does to the outside: a call of the [reply_handler]
    given to the constructor, or a line written by [log]. *)
Inductive effect : Type :=
| reply_handler_called (reply_content : option QByteArray)
| logged (message : string).

(** [__init__] (lines 152-167); the progress of a new [QgsTask] is 0.  The
    [reply_handler] argument is the function whose calls
    [reply_handler_called] records. *)
Definition __init__ (request_arg : QNetworkRequest)
    (request_payload_arg : option string) (authcfg_arg : option string)
  : state :=
  {| authcfg := authcfg_arg;
     request := request_arg;
     request_payload := request_payload_arg;
     reply_content := None;
     http_status_code := None;
     http_status_reason := None;
     qt_error := None;
     progress := 0 |}.

Definition with_request (r : QNetworkRequest) (t : state) : state :=
  {| authcfg := authcfg t; request := r;
     request_payload := request_payload t;
     reply_content := reply_content t;
     http_status_code := http_status_code t;
     http_status_reason := http_status_reason t;
     qt_error := qt_error t; progress := progress t |}.

Section WithBlockingNetwork.

(** Collaborators outside the module: [utils.parse_network_reply], the
    blocking calls of the shared manager, [content()] of the reply they
    return, and Qt's comparison of header names. *)
Variable parse_network_reply : QgsNetworkReplyContent -> ParsedNetworkReply.
Variable same_header_name : string -> string -> bool.
Variable blockingGet :
  QNetworkRequest -> option string -> QgsNetworkReplyContent.
Variable blockingPost :
  QNetworkRequest -> QByteArray -> option string -> QgsNetworkReplyContent.
Variable content : QgsNetworkReplyContent -> QByteArray.

(** [_perform_get_request] (lines 193-195) *)
Definition _perform_get_request (t : state) : QgsNetworkReplyContent * state :=
  (blockingGet (request t) (authcfg t), t).

(** [_perform_post_request] (lines 197-207): the header is set on the
    task's own request. *)
Definition _perform_post_request (t : state)
  : py (QgsNetworkReplyContent * state) :=
  let t1 :=
    with_request
      (setHeader same_header_name ContentTypeHeader
                 "application/x-www-form-urlencoded" (request t)) t in
  let* payload := deref (request_payload t1) in
  ret (blockingPost (request t1) payload (authcfg t1), t1).

(** [run] (lines 169-181) *)
Definition run (t : state) : py (bool * state) :=
  let* performed :=
    match request_payload t with
    | None => ret (_perform_get_request t)
    | Some _ => _perform_post_request t
    end in
  let '(reply, t1) := performed in
  let parsed_reply := parse_network_reply reply in
  let t2 :=
    {| authcfg := authcfg t1; request := request t1;
       request_payload := request_payload t1;
       reply_content := Some (content reply);
       http_status_code := Base.http_status_code parsed_reply;
       http_status_reason := Base.http_status_reason parsed_reply;
       qt_error := Base.qt_error parsed_reply;
       progress := 100 |} in
  ret (match qt_error t2 with None => true | Some _ => false end, t2).

(** [finished] (lines 183-191) *)
Definition finished (t : state) (result : bool) : list effect :=
  if result then [reply_handler_called (reply_content t)]
  else
    [logged ("requested url: " +:+ url (request t));
     logged ("received error: " +:+ format_optional_str (qt_error t)
             +:+ " http_status: " +:+ format_optional_int (http_status_code t)
             +:+ " - " +:+ format_optional_str (http_status_reason t))].

(** The task manager runs the task and then calls [finished] with what
    [run] returned. *)
Definition run_and_finish (t : state) : py (bool * state * list effect) :=
  let* ran := run t in
  let '(result, t') := ran in
  ret (result, t', finished t' result).

End WithBlockingNetwork.

End NetworkFetcherTask.

(** *** The settings of a connection, and the resources, as base.py and
    the widgets read them *)

Module ConnectionSettings.

Record t : Type := {
  id : Z;
  name : string;
  base_url : string;
  auth_config : option string
}.

End ConnectionSettings.

Module Style.

Record t : Type := {
  name : string;
  sld_url : string
}.

End Style.

Module GeonodeResource.

Record t : Type := {
  default_style : Style.t;
  styles : list Style.t
}.

End GeonodeResource.

(** *** The requests of [BaseGeonodeClient] (lines 231-380) *)

Module Requests.

(** [from_connection_settings] (lines 231-236) *)
Definition from_connection_settings (connection_settings : ConnectionSettings.t)
  : BaseGeonodeClient.state :=
  BaseGeonodeClient.__init__
    (ConnectionSettings.base_url connection_settings)
    (ConnectionSettings.auth_config connection_settings).

Section WithHooks.

(** [models.GeonodeApiSearchParameters], with the value that its
    constructor gives without arguments. *)
Variable GeonodeApiSearchParameters : Type.
Variable default_search_parameters : GeonodeApiSearchParameters.

(** The methods that a concrete client overrides. *)
Variable get_layers_url_endpoint : GeonodeApiSearchParameters -> fallible string.
Variable get_layers_request_payload :
  GeonodeApiSearchParameters -> fallible (option string).
Variable get_layer_detail_url_endpoint : Z -> fallible string.
Variable get_layer_styles_url_endpoint : Z -> fallible string.
Variable get_maps_url_endpoint : GeonodeApiSearchParameters -> fallible string.
Variable get_maps_request_payload :
  GeonodeApiSearchParameters -> fallible (option string).

(** The slot connected to the [request_finished] signal of a task. *)
Inductive slot : Type :=
| on_layer_list (original_search_params : GeonodeApiSearchParameters)
| on_layer_detail
| on_layer_style_list
| on_layer_style_detail
| on_map_list.

(** The client among the objects it works with.  The client refers to its
    latest task ([network_fetcher_task]); the task objects live in [tasks],
    under their identities, so that the task manager, the signal
    connections and the client all see the same object. *)
Record application : Type := {
  auth_config : string;
  base_url : string;
  network_fetcher_task : option nat;
  tasks : gmap nat MyNetworkFetcherTask.state;
  manager : QgsNetworkAccessManager;
  request_finished_slots : list (nat * slot);
  task_manager : list nat
}.

(** The client as its methods see it. *)
Definition client (w : application) : BaseGeonodeClient.state :=
  {| BaseGeonodeClient.auth_config := auth_config w;
     BaseGeonodeClient.base_url := base_url w;
     BaseGeonodeClient.network_fetcher_task :=
       match network_fetcher_task w with
       | Some task_id => tasks w !! task_id
       | None => None
       end |}.

(** The statements that every [get_] method ends with: the task is
    constructed with the client's [auth_config] and the defaults of the
    other keyword parameters, stored in [network_fetcher_task], the slot
    is connected to its [request_finished] and the task is handed to the
    task manager.  [new_task] is the identity of the new object. *)
Definition submit (new_task : nat) (req : QNetworkRequest)
    (payload : option string) (handler : slot) (w : application)
  : application :=
  let '(t, manager') :=
    MyNetworkFetcherTask.__init__ new_task req payload (Some (auth_config w))
      MyNetworkFetcherTask.default_description
      MyNetworkFetcherTask.default_redirect_policy (manager w) in
  {| auth_config := auth_config w;
     base_url := base_url w;
     network_fetcher_task := Some new_task;
     tasks := <[new_task := t]> (tasks w);
     manager := manager';
     request_finished_slots :=
       (request_finished_slots w ++ [(new_task, handler)])%list;
     task_manager := (task_manager w ++ [new_task])%list |}.

(** [QNetworkRequest(QUrl(...))] *)
Definition request_for (target : string) : QNetworkRequest :=
  {| url := target; rawHeaders := [] |}.

(** [get_layers] (lines 315-329) *)
Definition get_layers (new_task : nat)
    (search_params : option GeonodeApiSearchParameters) (w : application)
  : fallible application :=
  let params :=
    match search_params with
    | Some p => p
    | None => default_search_parameters
    end in
  let+ endpoint := get_layers_url_endpoint params in
  let+ payload := get_layers_request_payload params in
  inr (submit new_task (request_for endpoint) payload (on_layer_list params) w).

(** [get_layer_detail] (lines 336-342) *)
Definition get_layer_detail (new_task : nat) (id_ : Z) (w : application)
  : fallible application :=
  let+ endpoint := get_layer_detail_url_endpoint id_ in
  inr (submit new_task (request_for endpoint) None on_layer_detail w).

(** [get_layer_styles] (lines 344-352) *)
Definition get_layer_styles (new_task : nat) (layer_id : Z) (w : application)
  : fallible application :=
  let+ endpoint := get_layer_styles_url_endpoint layer_id in
  inr (submit new_task (request_for endpoint) None on_layer_style_list w).

(** The style that [get_layer_style] asks for: the default style of the
    layer, or the first style of the layer that has the wanted name. *)
Definition chosen_style (layer : GeonodeResource.t)
    (style_name : option string) (style : Style.t) : Prop :=
  match style_name with
  | None => style = GeonodeResource.default_style layer
  | Some wanted =>
      exists pre post,
        GeonodeResource.styles layer = (pre ++ style :: post)%list
        /\ Style.name style = wanted
        /\ Forall (fun i => Style.name i <> wanted) pre
  end.

(** [get_layer_style] (lines 354-368) *)
Definition get_layer_style (new_task : nat) (layer : GeonodeResource.t)
    (style_name : option string) (w : application) : fallible application :=
  let+ style_url :=
    match style_name with
    | None => inr (Style.sld_url (GeonodeResource.default_style layer))
    | Some wanted =>
        let+ style_details :=
          list_index
            (List.filter (fun i => String.eqb (Style.name i) wanted)
                         (GeonodeResource.styles layer)) 0 in
        inr (Style.sld_url style_details)
    end in
  inr (submit new_task (request_for style_url) None on_layer_style_detail w).

(** [get_maps] (lines 370-380) *)
Definition get_maps (new_task : nat)
    (search_params : GeonodeApiSearchParameters) (w : application)
  : fallible application :=
  let+ endpoint := get_maps_url_endpoint search_params in
  let+ request_payload := get_maps_request_payload search_params in
  inr (submit new_task (request_for endpoint) request_payload on_map_list w).

Section WithNetwork.

Variable parse_network_reply : QgsNetworkReplyContent -> ParsedNetworkReply.
Variable readAll : QNetworkReply -> QByteArray.
Variable updateNetworkRequest : QNetworkRequest -> string -> QNetworkRequest.
Variable setContent : option QByteArray -> bool -> bool * QDomDocument.

(** The task manager runs one of its tasks: [run] changes the task object
    and the shared manager. *)
Definition run_task (task_id : nat) (queue : list (Z * QgsNetworkReplyContent))
    (w : application) : option (MyNetworkFetcherTask.outcome * application) :=
  match tasks w !! task_id with
  | None => None
  | Some t =>
      let o :=
        MyNetworkFetcherTask.run parse_network_reply readAll
          updateNetworkRequest t (manager w) queue in
      Some (o,
            {| auth_config := auth_config w;
               base_url := base_url w;
               network_fetcher_task := network_fetcher_task w;
               tasks := <[task_id := MyNetworkFetcherTask.task_after o]> (tasks w);
               manager := MyNetworkFetcherTask.manager_after o;
               request_finished_slots := request_finished_slots w;
               task_manager := task_manager w |})
  end.

(** The emission of [request_finished] by a task whose slot is
    [handle_layer_style_detail]: the slot runs on the client as it then
    is. *)
Definition style_request_finished (w : application)
  : BaseGeonodeClient.emitting unit :=
  BaseGeonodeClient.handle_layer_style_detail setContent (client w).

End WithNetwork.

End WithHooks.

(** The methods of [BaseGeonodeClient] itself that a concrete client
    overrides (lines 250-276). *)
Definition base_url_endpoint {A : Type} (argument : A) : fallible string :=
  inl NotImplementedError.

Definition base_request_payload {A : Type} (search_params : A)
  : fallible (option string) :=
  inr None.

End Requests.

End Base.

(** ** gui/geonode_source_select_provider.py *)

Module Gui.

(** The Python values found in a decoded layer-list payload.  Numbers are
    integers, as the counts and page numbers of the API are: a payload
    that holds floats is outside the model. *)
Inductive pyvalue : Type :=
| PyNone
| PyInt (z : Z)
| PyStr (s : string)
| PyList (items : list pyvalue).

(** Operands of an arithmetic operator or of a comparison with a number. *)
Definition as_number (v : pyvalue) : py Z :=
  match v with
  | PyInt z => ret z
  | _ => raise TypeError
  end.

(** The ceiling of the quotient [a / b], for [b] other than zero. *)
Definition ceil_div (a b : Z) : Z := - ((- a) / b).

(** The bound below which Python's floats hold every integer. *)
Definition float_exact : Z := 2 ^ 53.

(** A finite float of Python, [mantissa * 2 ^ exponent]: a binary64 number,
    with a mantissa of at most 53 bits and an exponent of -1074 at
    least. *)
Record pyfloat : Type := {
  mantissa : Z;
  exponent : Z
}.

(** The [k] with [2 ^ k <= a / b < 2 ^ (k + 1)], for positive [a] and
    [b]. *)
Definition quotient_exponent (a b : Z) : Z :=
  let d := Z.log2 a - Z.log2 b in
  if a * 2 ^ Z.log2 b <? b * 2 ^ Z.log2 a then d - 1 else d.

(** The integer nearest to [numerator / denominator], the even one when
    two are equally near. *)
Definition round_half_even (numerator denominator : Z) : Z :=
  let m := numerator / denominator in
  let r := numerator mod denominator in
  if (denominator <? 2 * r) || ((2 * r =? denominator) && Z.odd m)
  then m + 1 else m.

(** [a / b] of Python for integers, [b] not zero: the float nearest to the
    quotient, the one with the even mantissa when two are equally near,
    and [OverflowError] when the quotient is too large for a float.  The
    quotient is rounded to 53 bits, or to a multiple of [2 ^ -1074] when it
    is smaller than [2 ^ -1022]. *)
Definition int_true_divide (a b : Z) : py pyfloat :=
  if a =? 0 then ret {| mantissa := 0; exponent := 0 |}
  else
    let e := Z.max (quotient_exponent (Z.abs a) (Z.abs b) - 52) (-1074) in
    let m :=
      round_half_even (Z.abs a * 2 ^ Z.max 0 (- e))
                      (Z.abs b * 2 ^ Z.max 0 e) in
    if 2 ^ 1024 <=? m * 2 ^ Z.max 0 e then raise OverflowError
    else ret {| mantissa := Z.sgn a * Z.sgn b * m; exponent := e |}.

(** [math.ceil] of a finite float, an integer. *)
Definition math_ceil (x : pyfloat) : Z :=
  ceil_div (mantissa x * 2 ^ Z.max 0 (exponent x))
           (2 ^ Z.max 0 (- exponent x)).

(** [math.ceil(a / b)]: the operands must be numbers and the divisor not
    zero.  Python divides in floating point, so that the result is the
    ceiling of the rounded quotient: for integers of magnitude below
    [float_exact] that is the ceiling of the quotient, for larger ones it
    can differ from it. *)
Definition ceil_truediv (a b : pyvalue) : py Z :=
  let* x := as_number a in
  let* y := as_number b in
  if y =? 0 then raise ZeroDivisionError
  else
    let* quotient := int_true_divide x y in
    ret (math_ceil quotient).

(** [dict.get(key, default)] *)
Definition dict_get (d : gmap string pyvalue) (key : string)
    (default : pyvalue) : pyvalue :=
  match d !! key with
  | Some v => v
  | None => default
  end.

(** *** [GeonodeDataSourceWidget] (lines 65-228) *)

Module GeonodeDataSourceWidget.

(** The attributes and child widgets that the paging code reads and
    writes; [searches] lists the pages asked of the client by
    [client.get_layers(page=...)], oldest first. *)
Record state : Type := {
  current_page : Z;
  search_btn_enabled : bool;
  next_btn_enabled : bool;
  previous_btn_enabled : bool;
  message_bar : list string;
  resultsLabel : string;
  searches : list Z
}.

Section WithTranslation.

(** [utils.tr], the translation of user-visible text. *)
Variable tr : string -> string.

(** The state at the end of [__init__] (lines 66-97): the first page, no
    paging buttons; the search button is enabled if a connection
    exists. *)
Definition __init__ (connections_exist : bool) : state :=
  {| current_page := 1;
     search_btn_enabled := connections_exist;
     next_btn_enabled := false;
     previous_btn_enabled := false;
     message_bar := [];
     resultsLabel := "";
     searches := [] |}.

(** [search_geonode] (lines 161-175). *)
Definition search_geonode (w : state) : state :=
  {| current_page := current_page w;
     search_btn_enabled := false;
     next_btn_enabled := false;
     previous_btn_enabled := false;
     message_bar := (message_bar w ++ [tr "Searching..."])%list;
     resultsLabel := resultsLabel w;
     searches := (searches w ++ [current_page w])%list |}.

Definition with_current_page (p : Z) (w : state) : state :=
  {| current_page := p;
     search_btn_enabled := search_btn_enabled w;
     next_btn_enabled := next_btn_enabled w;
     previous_btn_enabled := previous_btn_enabled w;
     message_bar := message_bar w;
     resultsLabel := resultsLabel w;
     searches := searches w |}.

(** [request_next_page] (lines 153-155). *)
Definition request_next_page (w : state) : state :=
  search_geonode (with_current_page (current_page w + 1) w).

(** [request_previous_page] (lines 157-159). *)
Definition request_previous_page (w : state) : state :=
  search_geonode (with_current_page (Z.max (current_page w - 1) 1) w).

(** The text of the results label (lines 199-208). *)
Definition results_text (page total_pages total_results : Z) : string :=
  if 0 <? total_results then
    tr ("Showing page " +:+ pretty page +:+ " of " +:+ pretty total_pages
        +:+ " (" +:+ pretty total_results +:+ " results)")
  else tr "No results found".

(** [handle_pagination] (lines 192-208).  When the call raises, the
    attributes written before the exception are not tracked. *)
Definition handle_pagination (w : state)
    (layer_list_payload : gmap string pyvalue) : py state :=
  let page := dict_get layer_list_payload "page" (PyInt 1) in
  let total_results := dict_get layer_list_payload "total" (PyInt 0) in
  let page_size := dict_get layer_list_payload "page_size" (PyInt 10) in
  let* total_pages := ceil_truediv total_results page_size in
  let* page_number := as_number page in
  let* total_number := as_number total_results in
  ret {| current_page := page_number;
         search_btn_enabled := search_btn_enabled w;
         next_btn_enabled := page_number <? total_pages;
         previous_btn_enabled := 1 <? page_number;
         message_bar := message_bar w;
         resultsLabel := results_text page_number total_pages total_number;
         searches := searches w |}.

(** The clicks on the two paging buttons. *)
Inductive paging : Type :=
| NextPage
| PreviousPage.

Definition click (w : state) (c : paging) : state :=
  match c with
  | NextPage => request_next_page w
  | PreviousPage => request_previous_page w
  end.

Definition clicks (w : state) (cs : list paging) : state :=
  fold_left click cs w.

End WithTranslation.

End GeonodeDataSourceWidget.

(** *** [GeonodeDataSourceWidget.delete_connection] (lines 109-123) *)

Module Connections.

(** The calls made on [connections_manager] that change it. *)
Inductive command : Type :=
| delete_connection_called (id : Z)
| set_current_connection_called (id : Z).

(** The connection that becomes the current one (lines 115-120). *)
Definition next_current_connection
    (existing_connections : list Base.ConnectionSettings.t) (current_index : Z)
  : fallible (option Base.ConnectionSettings.t) :=
  if 0 <? current_index then
    let+ c := list_index existing_connections (current_index - 1) in
    inr (Some c)
  else if (current_index =? 0)
          && (1 <? Z.of_nat (length existing_connections)) then
    let+ c := list_index existing_connections (current_index + 1) in
    inr (Some c)
  else inr None.

(** [delete_connection].  [current_connection] is what
    [find_connection_by_name] returned for the text of the combo box,
    [confirmed] the answer to the confirmation dialog,
    [existing_connections] what [list_connections] returned and
    [current_index] the index of the combo box. *)
Definition delete_connection
    (current_connection : option Base.ConnectionSettings.t) (confirmed : bool)
    (existing_connections : list Base.ConnectionSettings.t) (current_index : Z)
  : fallible (list command) :=
  if confirmed then
    let+ next := next_current_connection existing_connections current_index in
    let+ current := of_py (deref current_connection) in
    inr (delete_connection_called (Base.ConnectionSettings.id current)
         :: match next with
            | Some c =>
                [set_current_connection_called (Base.ConnectionSettings.id c)]
            | None => []
            end)
  else inr [].

End Connections.

End Gui.

(** ** gui/search_result_widget.py *)

Module SearchResult.

(** [BriefGeonodeResource], with the fields that the widget reads. *)
Record BriefGeonodeResource : Type := {
  title : string;
  abstract : string;
  name : string;
  pk : Z;
  service_urls : gmap string string
}.

(** The layers that the widget constructs. *)
Inductive layer : Type :=
| QgsRasterLayer (uri base_name provider : string)
| QgsVectorLayer (uri base_name provider : string).

Inductive button : Type :=
| wms_btn
| wcs_btn
| wfs_btn.

(** The widget: its resource, its three buttons, the message bar, and the
    resources whose details were asked of a client with
    [client.get_layer_detail(pk)], oldest first. *)
Record state : Type := {
  geonode_resource : BriefGeonodeResource;
  wms_btn_enabled : bool;
  wcs_btn_enabled : bool;
  wfs_btn_enabled : bool;
  message_bar : list string;
  layer_details_requested : list Z
}.

Definition setEnabled (b : button) (enabled : bool) (w : state) : state :=
  {| geonode_resource := geonode_resource w;
     wms_btn_enabled :=
       match b with wms_btn => enabled | _ => wms_btn_enabled w end;
     wcs_btn_enabled :=
       match b with wcs_btn => enabled | _ => wcs_btn_enabled w end;
     wfs_btn_enabled :=
       match b with wfs_btn => enabled | _ => wfs_btn_enabled w end;
     message_bar := message_bar w;
     layer_details_requested := layer_details_requested w |}.

Definition isEnabled (b : button) (w : state) : bool :=
  match b with
  | wms_btn => wms_btn_enabled w
  | wcs_btn => wcs_btn_enabled w
  | wfs_btn => wfs_btn_enabled w
  end.

Section WithQgis.

Variable tr : string -> string.

(** [layer.isValid()] *)
Variable isValid : layer -> bool.

(** [get_layer] (lines 96-102) *)
Definition get_layer (w : state) (l : layer) (pk_arg : Z) : state :=
  {| geonode_resource := geonode_resource w;
     wms_btn_enabled := wms_btn_enabled w;
     wcs_btn_enabled := wcs_btn_enabled w;
     wfs_btn_enabled := wfs_btn_enabled w;
     message_bar := message_bar w;
     layer_details_requested := (layer_details_requested w ++ [pk_arg])%list |}.

(** [load_layer] (lines 86-94) *)
Definition load_layer (w : state) (l : layer) : state :=
  if negb (isValid l) then
    {| geonode_resource := geonode_resource w;
       wms_btn_enabled := wms_btn_enabled w;
       wcs_btn_enabled := wcs_btn_enabled w;
       wfs_btn_enabled := wfs_btn_enabled w;
       message_bar :=
         (message_bar w
          ++ [tr "Problem loading layer, couldn't add an invalid layer"])%list;
       layer_details_requested := layer_details_requested w |}
  else get_layer w l (pk (geonode_resource w)).

(** The common shape of the three loaders: the button is disabled, the
    layer is made from the service URL and loaded, the button is enabled
    again.  The result is the widget afterwards and the exception, if one
    was raised. *)
Definition load_with (b : button) (service : string)
    (make : string -> string -> layer) (w : state) : state * option error :=
  let w1 := setEnabled b false w in
  match dict_item (service_urls (geonode_resource w1)) service with
  | inl e => (w1, Some e)
  | inr uri =>
      let l := make uri (name (geonode_resource w1)) in
      let w2 := load_layer w1 l in
      (setEnabled b true w2, None)
  end.

(** [load_map_resource] (lines 58-66) *)
Definition load_map_resource (w : state) : state * option error :=
  load_with wms_btn "wms" (fun uri n => QgsRasterLayer uri n "wms") w.

(** [load_raster_layer] (lines 68-75) *)
Definition load_raster_layer (w : state) : state * option error :=
  load_with wcs_btn "wcs" (fun uri n => QgsRasterLayer uri n "wcs") w.

(** [load_vector_layer] (lines 77-84) *)
Definition load_vector_layer (w : state) : state * option error :=
  load_with wfs_btn "wfs" (fun uri n => QgsVectorLayer uri n "WFS") w.

(** The three loaders, each with its button and with the key of its
    service URL. *)
Definition loaders
  : list (button * string * (state -> state * option error)) :=
  [(wms_btn, "wms", load_map_resource);
   (wcs_btn, "wcs", load_raster_layer);
   (wfs_btn, "wfs", load_vector_layer)].

End WithQgis.

End SearchResult.

(** ** Concrete inputs *)

Module Sample.

Import Base.

(** The shared manager before any task exists. *)
Definition manager : QgsNetworkAccessManager :=
  {| redirectPolicy := ManualRedirectPolicy;
     finished_receivers := [];
     requests_created := 0 |}.

Definition layers_request : QNetworkRequest :=
  {| url := "https://geonode.example.org/api/v2/layers/";
     rawHeaders := [] |}.

(** A task constructed with the defaults of the keyword parameters. *)
Definition constructed
  : MyNetworkFetcherTask.state * QgsNetworkAccessManager :=
  MyNetworkFetcherTask.__init__ 1%nat layers_request None None
    MyNetworkFetcherTask.default_description
    MyNetworkFetcherTask.default_redirect_policy manager.

Definition task : MyNetworkFetcherTask.state := fst constructed.
Definition manager1 : QgsNetworkAccessManager := snd constructed.

(** The task once it has issued its request, which gets the id 0. *)
Definition waiting_task : MyNetworkFetcherTask.state :=
  MyNetworkFetcherTask.with_reply
    (Some {| property_requestId := 0;
             operation := GetOperation;
             request_of_reply := layers_request |})
    task.

Definition readAll (r : QNetworkReply) : QByteArray := "Not Found".

Definition updateNetworkRequest (r : QNetworkRequest) (cfg : string)
  : QNetworkRequest := r.

(** The completion of the task's request with an HTTP 404 response. *)
Definition not_found : QgsNetworkReplyContent :=
  {| requestId := 0;
     content_request := layers_request;
     attribute_HttpStatusCode := Some 404;
     attribute_HttpReasonPhrase := Some "Not Found";
     transport_failure := None |}.

(** The completion of some other request of the shared manager. *)
Definition other_completion : QgsNetworkReplyContent :=
  {| requestId := 41;
     content_request :=
       {| url := "https://geonode.example.org/o/token/"; rawHeaders := [] |};
     attribute_HttpStatusCode := Some 200;
     attribute_HttpReasonPhrase := Some "OK";
     transport_failure := None |}.

(** A stand-in for the XML parser that knows two documents.  What the
    call returns is true in a test, as the tuple of the Python binding is;
    data that it cannot load leave the document empty. *)
Definition setContent (data : option QByteArray) (namespaceProcessing : bool)
  : bool * QDomDocument :=
  match data with
  | Some "<StyledLayerDescriptor><NamedLayer/></StyledLayerDescriptor>" =>
      (true,
       {| documentElement :=
            Some ("StyledLayerDescriptor", [ElementNode "NamedLayer" []]) |})
  | Some "<StyledLayerDescriptor/>" =>
      (true, {| documentElement := Some ("StyledLayerDescriptor", []) |})
  | _ => (true, {| documentElement := None |})
  end.

(** A client whose task holds the given body. *)
Definition client_with_body (body : QByteArray) : BaseGeonodeClient.state :=
  {| BaseGeonodeClient.auth_config := "";
     BaseGeonodeClient.base_url := "https://geonode.example.org";
     BaseGeonodeClient.network_fetcher_task :=
       Some (MyNetworkFetcherTask.with_parsed body
               {| http_status_code := Some 200;
                  http_status_reason := Some "OK";
                  qt_error := None |}
               task) |}.

(** A payload with page 2, total 25, page_size 10 and two layers. *)
Definition payload : gmap string Gui.pyvalue :=
  <["layers" := Gui.PyList [Gui.PyStr "roads"; Gui.PyStr "rivers"]]>
    (<["page" := Gui.PyInt 2]>
       (<["total" := Gui.PyInt 25]>
          (<["page_size" := Gui.PyInt 10]> ∅))).

End Sample.

(** ** Concrete inputs for the further properties *)

Module Scenario.

Import Base.

(** A client made for a connection without authentication, before any
    request; the search parameters play no part. *)
Definition application : Requests.application unit :=
  {| Requests.auth_config := "";
     Requests.base_url := "https://geonode.example.org";
     Requests.network_fetcher_task := None;
     Requests.tasks := ∅;
     Requests.manager := Sample.manager;
     Requests.request_finished_slots := [];
     Requests.task_manager := [] |}.

Definition day : Style.t :=
  {| Style.name := "roads";
     Style.sld_url := "https://geonode.example.org/styles/roads.sld" |}.

Definition night : Style.t :=
  {| Style.name := "roads_night";
     Style.sld_url := "https://geonode.example.org/styles/roads_night.sld" |}.

Definition roads : GeonodeResource.t :=
  {| GeonodeResource.default_style := day;
     GeonodeResource.styles := [day; night] |}.

Definition rivers : GeonodeResource.t :=
  {| GeonodeResource.default_style := night;
     GeonodeResource.styles := [night] |}.

Definition connection (n : Z) (label : string) : ConnectionSettings.t :=
  {| ConnectionSettings.id := n;
     ConnectionSettings.name := label;
     ConnectionSettings.base_url := "https://geonode.example.org/";
     ConnectionSettings.auth_config := None |}.

Definition connections : list ConnectionSettings.t :=
  [connection 11 "demo"; connection 12 "staging"; connection 13 "production"].

(** The widget of a search result that has a WMS endpoint only. *)
Definition result_widget : SearchResult.state :=
  {| SearchResult.geonode_resource :=
       {| SearchResult.title := "Roads";
          SearchResult.abstract := "Road network";
          SearchResult.name := "geonode:roads";
          SearchResult.pk := 7;
          SearchResult.service_urls :=
            {["wms" := "https://geonode.example.org/geoserver/ows"]} |};
     SearchResult.wms_btn_enabled := true;
     SearchResult.wcs_btn_enabled := false;
     SearchResult.wfs_btn_enabled := true;
     SearchResult.message_bar := [];
     SearchResult.layer_details_requested := [] |}.

Definition isValid (l : SearchResult.layer) : bool :=
  match l with
  | SearchResult.QgsRasterLayer _ _ _ => true
  | SearchResult.QgsVectorLayer _ _ _ => false
  end.

(** A comparison of header names that disregards the case of the letters
    A to Z. *)
Definition lower (c : ascii) : ascii :=
  let n := nat_of_ascii c in
  if (65 <=? n)%nat && (n <=? 90)%nat then ascii_of_nat (n + 32) else c.

Fixpoint lower_string (s : string) : string :=
  match s with
  | EmptyString => EmptyString
  | String c rest => String (lower c) (lower_string rest)
  end.

Definition same_header_name (a b : string) : bool :=
  String.eqb (lower_string a) (lower_string b).

(** A request with a content type written in lower case. *)
Definition json_request : QNetworkRequest :=
  {| url := "https://geonode.example.org/api/v2/maps/";
     rawHeaders :=
       [("accept", "*/*"); ("content-type", "application/json")] |}.

(** Two style documents: one with a [NamedLayer], one without. *)
Definition sld_with_named_layer : QByteArray :=
  "<StyledLayerDescriptor><NamedLayer/></StyledLayerDescriptor>".

Definition sld_without_named_layer : QByteArray :=
  "<StyledLayerDescriptor/>".

(** The reply to the request with id 0 holds the document without a
    [NamedLayer], the other replies the one with it. *)
Definition readAll (r : QNetworkReply) : QByteArray :=
  if property_requestId r =? 0 then sld_without_named_layer
  else sld_with_named_layer.

(** The completion of the request with the given id, with status 200. *)
Definition completed (id : Z) : QgsNetworkReplyContent :=
  {| requestId := id;
     content_request := Sample.layers_request;
     attribute_HttpStatusCode := Some 200;
     attribute_HttpReasonPhrase := Some "OK";
     transport_failure := None |}.

(** The completion of the request with id 0 with an HTTP 404 response, as
    Qt reports it: with the status attributes and with the reply error
    [ContentNotFoundError]. *)
Definition content_not_found : QgsNetworkReplyContent :=
  {| requestId := 0;
     content_request := Sample.layers_request;
     attribute_HttpStatusCode := Some 404;
     attribute_HttpReasonPhrase := Some "Not Found";
     transport_failure := Some "ContentNotFoundError" |}.

(** A stand-in for [utils.parse_network_reply] that keeps the status, the
    reason and the error of the reply. *)
Definition parse_network_reply (reply : QgsNetworkReplyContent)
  : ParsedNetworkReply :=
  {| http_status_code := attribute_HttpStatusCode reply;
     http_status_reason := attribute_HttpReasonPhrase reply;
     qt_error := transport_failure reply |}.

(** The client of [application] when it refers to the given task. *)
Definition client_referring_to (t : MyNetworkFetcherTask.state)
  : BaseGeonodeClient.state :=
  {| BaseGeonodeClient.auth_config := "";
     BaseGeonodeClient.base_url := "https://geonode.example.org";
     BaseGeonodeClient.network_fetcher_task := Some t |}.

End Scenario.

(** * Properties *)

(** ** Strings *)

Lemma rstrip_splits (c : ascii) (s : string) :
  exists n : nat, s = rstrip c s +:+ replicate_char n c.
Proof.
  induction s as [|a rest [n IH]]; simpl.
  - exists O. reflexivity.
  - destruct (rstrip c rest) as [|b kept] eqn:Hrest.
    + simpl in IH. destruct (Ascii.eqb_spec a c) as [->|Hne].
      * exists (S n). simpl. now rewrite IH at 1.
      * exists n. simpl. now rewrite IH at 1.
    + exists n. simpl. rewrite IH at 1. reflexivity.
Qed.

Lemma rstrip_last (c : ascii) (s : string) :
  last_char (rstrip c s) <> Some c.
Proof.
  induction s as [|a rest IH]; simpl.
  - discriminate.
  - destruct (rstrip c rest) as [|b kept] eqn:Hrest.
    + destruct (Ascii.eqb_spec a c) as [->|Hne]; simpl; congruence.
    + exact IH.
Qed.

Lemma rstrip_replicate (c : ascii) (n : nat) :
  rstrip c (replicate_char n c) = "".
Proof.
  induction n as [|k IHk]; simpl; [reflexivity|].
  rewrite IHk. now rewrite Ascii.eqb_refl.
Qed.

Lemma append_String (a : ascii) (s r : string) :
  String a s +:+ r = String a (s +:+ r).
Proof. reflexivity. Qed.

Lemma append_empty (r : string) : "" +:+ r = r.
Proof. reflexivity. Qed.

Lemma rstrip_app_replicate (c : ascii) (r : string) (n : nat) :
  last_char r <> Some c -> rstrip c (r +:+ replicate_char n c) = r.
Proof.
  induction r as [|a rest IH]; intros Hlast.
  - rewrite append_empty. apply rstrip_replicate.
  - rewrite append_String. cbn [rstrip]. destruct rest as [|b rest'].
    + rewrite append_empty, rstrip_replicate.
      destruct (Ascii.eqb_spec a c) as [->|Hne];
        [simpl in Hlast; congruence|reflexivity].
    + rewrite IH by exact Hlast. reflexivity.
Qed.

(** [rstrip] is the only way to split off a run of [c] at the right end
    and keep a string that does not end with [c]. *)
Lemma rstrip_unique (c : ascii) (s r : string) (n : nat) :
  s = r +:+ replicate_char n c -> last_char r <> Some c -> rstrip c s = r.
Proof. intros -> Hlast. now apply rstrip_app_replicate. Qed.

(** ** The client's constructor *)

(** C10.  [BaseGeonodeClient.__init__] stores the base URL with every
    trailing ['/'] removed: the input is the stored URL followed by a run
    of ['/'], and the stored URL does not end with ['/'].  The stored
    [auth_config] is the empty string when the argument is [None] or the
    empty string, and the argument itself otherwise. *)
Theorem client_init_normalises_settings :
  forall (base_url_arg : string) (auth_config_arg : option string),
    let c := Base.BaseGeonodeClient.__init__ base_url_arg auth_config_arg in
    (exists n : nat,
        base_url_arg
        = Base.BaseGeonodeClient.base_url c +:+ replicate_char n "/"%char)
    /\ last_char (Base.BaseGeonodeClient.base_url c) <> Some "/"%char
    /\ match auth_config_arg with
       | None => Base.BaseGeonodeClient.auth_config c = ""
       | Some s =>
           (s = "" /\ Base.BaseGeonodeClient.auth_config c = "")
           \/ (s <> "" /\ Base.BaseGeonodeClient.auth_config c = s)
       end
    /\ Base.BaseGeonodeClient.network_fetcher_task c = None.
Proof.
  intros base_url_arg auth_config_arg c. subst c.
  unfold Base.BaseGeonodeClient.__init__; cbn.
  split; [apply rstrip_splits|].
  split; [apply rstrip_last|].
  split; [|reflexivity].
  destruct auth_config_arg as [s|]; cbn; [|reflexivity].
  destruct (String.eqb_spec s "") as [->|Hne]; [left|right]; split; auto.
Qed.

(** ** Paging in the data-source widget *)

Lemma ceil_div_bounds (a b : Z) :
  0 < b ->
  (Gui.ceil_div a b - 1) * b < a <= Gui.ceil_div a b * b.
Proof.
  intros Hb. unfold Gui.ceil_div.
  pose proof (Z.div_mod (- a) b ltac:(lia)) as Hdm.
  pose proof (Z.mod_pos_bound (- a) b Hb) as Hr.
  nia.
Qed.

Lemma ceil_div_unique (a b c : Z) :
  0 < b -> (c - 1) * b < a <= c * b -> Gui.ceil_div a b = c.
Proof.
  intros Hb Hc. pose proof (ceil_div_bounds a b Hb). nia.
Qed.

Lemma floor_div_unique (a b n : Z) :
  0 < b -> n * b <= a < (n + 1) * b -> a / b = n.
Proof.
  intros Hb Hn.
  pose proof (Z.div_mod a b ltac:(lia)) as Hdm.
  pose proof (Z.mod_pos_bound a b Hb) as Hr.
  nia.
Qed.

Lemma quotient_exponent_bounds (a b : Z) :
  0 < a < Gui.float_exact -> 0 < b < Gui.float_exact ->
  let k := Gui.quotient_exponent a b in
  -53 <= k <= 52
  /\ 2 ^ 52 * b <= a * 2 ^ (52 - k) < 2 ^ 53 * b.
Proof.
  intros Ha Hb. unfold Gui.float_exact in Ha, Hb. cbv zeta.
  set (k := Gui.quotient_exponent a b).
  pose proof (Z.log2_spec a ltac:(lia)) as Hla.
  pose proof (Z.log2_spec b ltac:(lia)) as Hlb.
  pose proof (Z.log2_nonneg a) as Hla0.
  pose proof (Z.log2_nonneg b) as Hlb0.
  assert (Hla1 : Z.log2 a < 53) by (apply Z.log2_lt_pow2; lia).
  assert (Hlb1 : Z.log2 b < 53) by (apply Z.log2_lt_pow2; lia).
  rewrite !Z.pow_succ_r in Hla, Hlb by lia.
  assert (Hu : 2 ^ Z.log2 a * 2 ^ (52 - Z.log2 a) = 2 ^ 52).
  { rewrite <- Z.pow_add_r by lia. f_equal. lia. }
  assert (Hu0 : 0 < 2 ^ (52 - Z.log2 a)) by (apply Z.pow_pos_nonneg; lia).
  subst k. unfold Gui.quotient_exponent.
  set (la := Z.log2 a) in *. set (lb := Z.log2 b) in *.
  set (pa := 2 ^ la) in *. set (pb := 2 ^ lb) in *.
  set (u := 2 ^ (52 - la)) in *.
  destruct (Z.ltb_spec (a * pb) (b * pa)) as [Hlt|Hge].
  - split; [lia|].
    replace (52 - (la - lb - 1)) with (Z.succ ((52 - la) + lb)) by lia.
    rewrite Z.pow_succ_r, Z.pow_add_r by lia.
    fold u pb. change (2 ^ 53) with (2 * 2 ^ 52). rewrite <- Hu.
    split; nia.
  - split; [lia|].
    replace (52 - (la - lb)) with ((52 - la) + lb) by lia.
    rewrite Z.pow_add_r by lia.
    fold u pb. change (2 ^ 53) with (2 * 2 ^ 52). rewrite <- Hu.
    split; nia.
Qed.

Lemma round_half_even_cases (n d : Z) :
  0 < d ->
  let m := n / d in
  let r := n mod d in
  n = d * m + r /\ 0 <= r < d
  /\ ((Gui.round_half_even n d = m /\ 2 * r <= d)
      \/ (Gui.round_half_even n d = m + 1 /\ d <= 2 * r)).
Proof.
  intros Hd. cbv zeta. unfold Gui.round_half_even.
  pose proof (Z.div_mod n d ltac:(lia)) as Hdm.
  pose proof (Z.mod_pos_bound n d Hd) as Hr.
  split; [exact Hdm|]. split; [exact Hr|].
  destruct (Z.ltb_spec d (2 * (n mod d))) as [Hlt|Hge]; cbn [orb andb].
  - right. split; [reflexivity|lia].
  - destruct (Z.eqb_spec (2 * (n mod d)) d) as [Heq|Hne]; cbn [orb andb].
    + destruct (Z.odd (n / d)); [right|left]; split; try reflexivity; lia.
    + left. split; [reflexivity|lia].
Qed.

(** The quotient rounded to 53 bits lies on the same side of every
    integer as the quotient itself. *)
Lemma rounded_quotient_between (a b p : Z) :
  0 < a < Gui.float_exact -> 0 < b ->
  0 < p -> 2 ^ 52 * b <= a * p ->
  let m := Gui.round_half_even (a * p) b in
  Gui.ceil_div m p = Gui.ceil_div a b /\ m / p = a / b.
Proof.
  intros Ha Hb Hp Hlow. unfold Gui.float_exact in Ha. cbv zeta.
  assert (Hbp : b < 2 * p).
  { assert (a * p < 2 ^ 53 * p) by (apply Z.mul_lt_mono_pos_r; lia). lia. }
  destruct (round_half_even_cases (a * p) b Hb) as (Hdm & Hr & Hm).
  set (m0 := a * p / b) in *. set (r := (a * p) mod b) in *.
  set (m := Gui.round_half_even (a * p) b) in *.
  split.
  - pose proof (ceil_div_bounds a b Hb) as Hc.
    set (c := Gui.ceil_div a b) in *.
    apply ceil_div_unique; [exact Hp|].
    assert (Hup : m0 <= c * p) by nia.
    assert (Hlo : (c - 1) * p <= m0) by nia.
    destruct Hm as [[-> Hhalf]|[-> Hhalf]].
    + split; [|exact Hup].
      destruct (Z.eq_dec m0 ((c - 1) * p)) as [Heq|Hne]; [|lia].
      exfalso. assert (r = (a - (c - 1) * b) * p) by nia. nia.
    + split; [lia|].
      destruct (Z.eq_dec m0 (c * p)) as [Heq|Hne]; [|lia].
      exfalso. assert (r = 0) by nia. lia.
  - pose proof (Z.div_mod a b ltac:(lia)) as Hn.
    pose proof (Z.mod_pos_bound a b Hb) as Hrho.
    set (n := a / b) in *. set (rho := a mod b) in *.
    apply floor_div_unique; [exact Hp|].
    assert (Hlo : n * p <= m0) by nia.
    assert (Hup : m0 < (n + 1) * p) by nia.
    destruct Hm as [[-> Hhalf]|[-> Hhalf]]; [lia|].
    split; [lia|].
    destruct (Z.eq_dec m0 ((n + 1) * p - 1)) as [Heq|Hne]; [|lia].
    exfalso. assert (r = b - (b - rho) * p) by nia. nia.
Qed.

Lemma ceil_div_signs (a b : Z) :
  b <> 0 ->
  Gui.ceil_div a b
  = if 0 <=? Z.sgn a * Z.sgn b
    then Gui.ceil_div (Z.abs a) (Z.abs b)
    else - (Z.abs a / Z.abs b).
Proof.
  intros Hb. unfold Gui.ceil_div.
  destruct (Z.lt_trichotomy a 0) as [Ha|[->|Ha]];
    destruct (Z.lt_trichotomy b 0) as [Hb'|[->|Hb']]; try contradiction.
  - rewrite (Z.sgn_neg a), (Z.sgn_neg b), (Z.abs_neq a), (Z.abs_neq b) by lia.
    cbn. rewrite <- (Z.div_opp_opp (- - a) (- b)) by lia.
    now rewrite !Z.opp_involutive.
  - rewrite (Z.sgn_neg a), (Z.sgn_pos b), (Z.abs_neq a), (Z.abs_eq b) by lia.
    reflexivity.
  - destruct b; [contradiction|reflexivity|reflexivity].
  - destruct b; [contradiction|reflexivity|reflexivity].
  - rewrite (Z.sgn_pos a), (Z.sgn_neg b), (Z.abs_eq a), (Z.abs_neq b) by lia.
    cbn. rewrite <- (Z.div_opp_opp (- a) b) by lia.
    now rewrite Z.opp_involutive.
  - rewrite (Z.sgn_pos a), (Z.sgn_pos b), (Z.abs_eq a), (Z.abs_eq b) by lia.
    reflexivity.
Qed.

(** For operands below [Gui.float_exact] the ceiling of the float quotient is
    the ceiling of the quotient. *)
Lemma ceil_of_float_quotient (a b : Z) :
  - Gui.float_exact < a < Gui.float_exact -> - Gui.float_exact < b < Gui.float_exact ->
  b <> 0 ->
  exists x : Gui.pyfloat,
    Gui.int_true_divide a b = inr x /\ Gui.math_ceil x = Gui.ceil_div a b.
Proof.
  intros Ha Hb Hb0. unfold Gui.int_true_divide.
  destruct (Z.eqb_spec a 0) as [->|Ha0].
  - eexists. split; [reflexivity|]. unfold Gui.math_ceil, Gui.ceil_div. cbn.
    destruct b; reflexivity.
  - assert (HA : 0 < Z.abs a < Gui.float_exact) by lia.
    assert (HB : 0 < Z.abs b < Gui.float_exact) by lia.
    destruct (quotient_exponent_bounds (Z.abs a) (Z.abs b) HA HB)
      as (Hk & Hlow & Hhigh).
    set (k := Gui.quotient_exponent (Z.abs a) (Z.abs b)) in *.
    rewrite (Z.max_l (k - 52) (-1074)) by lia.
    rewrite (Z.max_l 0 (k - 52)) by lia.
    rewrite (Z.max_r 0 (- (k - 52))) by lia.
    replace (- (k - 52)) with (52 - k) by lia.
    change (2 ^ 0) with 1. rewrite !Z.mul_1_r.
    assert (Hp : 0 < 2 ^ (52 - k)) by (apply Z.pow_pos_nonneg; lia).
    set (p := 2 ^ (52 - k)) in *.
    destruct (rounded_quotient_between (Z.abs a) (Z.abs b) p HA
                ltac:(lia) Hp Hlow) as (Hceil & Hfloor).
    destruct (round_half_even_cases (Z.abs a * p) (Z.abs b) ltac:(lia))
      as (Hdm & Hr & Hm).
    set (m := Gui.round_half_even (Z.abs a * p) (Z.abs b)) in *.
    assert (Hm53 : 0 <= m <= 2 ^ 53).
    { assert (0 <= Z.abs a * p / Z.abs b < 2 ^ 53).
      { split; [apply Z.div_pos; lia|].
        apply Z.div_lt_upper_bound; lia. }
      destruct Hm as [[-> _]|[-> _]]; lia. }
    destruct (Z.leb_spec (2 ^ 1024) m) as [Hbig|_].
    { exfalso. assert (2 ^ 53 < 2 ^ 1024) by (apply Z.pow_lt_mono_r; lia).
      lia. }
    eexists. split; [reflexivity|]. unfold Gui.math_ceil.
    cbn [Gui.mantissa Gui.exponent].
    rewrite (Z.max_l 0 (k - 52)) by lia.
    rewrite (Z.max_r 0 (- (k - 52))) by lia.
    replace (- (k - 52)) with (52 - k) by lia.
    change (2 ^ 0) with 1. rewrite Z.mul_1_r. fold p.
    rewrite (ceil_div_signs a b Hb0).
    destruct (Z.leb_spec 0 (Z.sgn a * Z.sgn b)) as [Hs|Hs].
    + assert (Hone : Z.sgn a * Z.sgn b = 1) by lia.
      rewrite Hone, Z.mul_1_l. exact Hceil.
    + assert (Hone : Z.sgn a * Z.sgn b = -1) by lia.
      rewrite Hone. unfold Gui.ceil_div.
      replace (- (-1 * m)) with m by lia. now rewrite Hfloor.
Qed.

(** Beyond [float_exact] the result is that of the float quotient: the
    quotient of [2 ^ 53 + 1] by 1 rounds to [2 ^ 53], a quotient beyond
    the largest float raises [OverflowError], and one below the smallest
    float is zero. *)
Lemma ceil_truediv_rounds_as_floats :
  Gui.ceil_truediv (Gui.PyInt (2 ^ 53 + 1)) (Gui.PyInt 1) = inr (2 ^ 53)
  /\ Gui.ceil_truediv (Gui.PyInt (10 ^ 400)) (Gui.PyInt 1)
     = inl OverflowError
  /\ Gui.ceil_truediv (Gui.PyInt 1) (Gui.PyInt (10 ^ 400)) = inr 0.
Proof. repeat split; vm_compute; reflexivity. Qed.

Section Paging.

Variable tr : string -> string.

Import Gui.GeonodeDataSourceWidget.

Lemma search_geonode_page (w : state) :
  current_page (search_geonode tr w) = current_page w.
Proof. reflexivity. Qed.

Lemma click_keeps_page_positive (w : state) (c : paging) :
  1 <= current_page w -> 1 <= current_page (click tr w c).
Proof.
  intros Hw. destruct c; cbn; lia.
Qed.

Lemma clicks_keep_page_positive (cs : list paging) :
  forall w : state, 1 <= current_page w -> 1 <= current_page (clicks tr w cs).
Proof.
  induction cs as [|c cs IH]; intros w Hw; cbn.
  - exact Hw.
  - apply IH. now apply click_keeps_page_positive.
Qed.

(** C9.  Whatever sequence of clicks on the next-page and previous-page
    buttons follows the construction of the widget, [current_page] stays
    at least 1; and [request_previous_page] on page 1 stays on page 1. *)
Theorem current_page_at_least_one :
  forall (connections_exist : bool) (cs : list paging) (w : state),
    1 <= current_page (clicks tr (__init__ connections_exist) cs)
    /\ current_page (request_previous_page tr (__init__ connections_exist))
       = 1
    /\ current_page (request_previous_page tr (with_current_page 1 w)) = 1.
Proof.
  intros connections_exist cs w. split; [|split; reflexivity].
  apply clicks_keep_page_positive. cbn. lia.
Qed.

(** C8.  A payload with page 2, total 25 and page_size 10 puts the widget
    on page 2 of 3 pages, 3 being the ceiling of 25 / 10, with both
    paging buttons enabled. *)
Theorem pagination_page_2_of_3 :
  forall (w : state) (layer_list_payload : gmap string Gui.pyvalue),
    layer_list_payload !! "page" = Some (Gui.PyInt 2) ->
    layer_list_payload !! "total" = Some (Gui.PyInt 25) ->
    layer_list_payload !! "page_size" = Some (Gui.PyInt 10) ->
    exists w' : state,
      handle_pagination tr w layer_list_payload = inr w'
      /\ current_page w' = 2
      /\ Gui.ceil_truediv (Gui.PyInt 25) (Gui.PyInt 10) = inr 3
      /\ (3 - 1) * 10 < 25 <= 3 * 10
      /\ previous_btn_enabled w' = true
      /\ next_btn_enabled w' = true
      /\ resultsLabel w' = tr "Showing page 2 of 3 (25 results)".
Proof.
  intros w payload Hpage Htotal Hsize.
  unfold handle_pagination, Gui.dict_get.
  rewrite Hpage, Htotal, Hsize.
  eexists. split; [reflexivity|].
  cbn. repeat split; try reflexivity; lia.
Qed.

End Paging.

Lemma pagination_page_2_of_3_witness :
  exists w' : Gui.GeonodeDataSourceWidget.state,
    Gui.GeonodeDataSourceWidget.handle_pagination
      (fun s => s) (Gui.GeonodeDataSourceWidget.__init__ true) Sample.payload
    = inr w'
    /\ Gui.GeonodeDataSourceWidget.current_page w' = 2
    /\ Gui.ceil_truediv (Gui.PyInt 25) (Gui.PyInt 10) = inr 3
    /\ (3 - 1) * 10 < 25 <= 3 * 10
    /\ Gui.GeonodeDataSourceWidget.previous_btn_enabled w' = true
    /\ Gui.GeonodeDataSourceWidget.next_btn_enabled w' = true
    /\ Gui.GeonodeDataSourceWidget.resultsLabel w'
       = "Showing page 2 of 3 (25 results)".
Proof.
  apply (pagination_page_2_of_3 (fun s => s)
           (Gui.GeonodeDataSourceWidget.__init__ true) Sample.payload);
    vm_compute; reflexivity.
Defined.

(** ** The network fetch task *)

Section Task.

Import Base Base.MyNetworkFetcherTask.

Variable parse_network_reply : QgsNetworkReplyContent -> ParsedNetworkReply.
Variable readAll : QNetworkReply -> QByteArray.
Variable updateNetworkRequest : QNetworkRequest -> string -> QNetworkRequest.

Abbreviation request_done := (_request_done parse_network_reply readAll).
Abbreviation deliver_ := (deliver parse_network_reply readAll).
Abbreviation run_ := (run parse_network_reply readAll updateNetworkRequest).

Lemma request_done_foreign t qgis_reply :
  foreign t qgis_reply -> request_done t qgis_reply = (t, []).
Proof.
  unfold foreign, _request_done, reply_matches.
  destruct (_reply t) as [r|]; [|reflexivity].
  intros Hne. destruct (Z.eqb_spec (requestId qgis_reply) (property_requestId r));
    [contradiction|reflexivity].
Qed.

Lemma deliver_foreign t nam trace qgis_reply :
  foreign t qgis_reply ->
  deliver_ qgis_reply (t, nam, trace) = ((t, nam, trace), false).
Proof.
  intros Hf. unfold deliver.
  destruct (is_connected (self t) nam); [|reflexivity].
  rewrite (request_done_foreign _ _ Hf). cbn.
  now rewrite app_nil_r.
Qed.

(** A delivery either leaves everything as it was and does not stop the
    loop, or it is the task's own completion. *)
Lemma deliver_cases qgis_reply t nam trace :
  deliver_ qgis_reply (t, nam, trace) = ((t, nam, trace), false)
  \/ exists r,
      _reply t = Some r
      /\ reply_matches qgis_reply r = true
      /\ is_connected (self t) nam = true
      /\ deliver_ qgis_reply (t, nam, trace)
         = ((with_parsed (readAll r) (parse_network_reply qgis_reply) t,
             nam, (trace ++ [request_parsed])%list), true).
Proof.
  unfold deliver, _request_done.
  destruct (is_connected (self t) nam) eqn:Hc; [|now left].
  destruct (_reply t) as [r|] eqn:Hr; [|left; cbn; now rewrite app_nil_r].
  destruct (reply_matches qgis_reply r) eqn:Hm.
  - right. exists r. repeat split; auto.
  - left. cbn. now rewrite app_nil_r.
Qed.

Lemma exec_deliver_cases timeout queue :
  forall t nam trace,
    (exec_ deliver_ timeout queue (t, nam, trace)
     = (TimerExpired timeout, (t, nam, trace)))
    \/ exists due qgis_reply r,
        In (due, qgis_reply) queue
        /\ due < timeout
        /\ _reply t = Some r
        /\ reply_matches qgis_reply r = true
        /\ is_connected (self t) nam = true
        /\ exec_ deliver_ timeout queue (t, nam, trace)
           = (SignalEmitted due,
              (with_parsed (readAll r) (parse_network_reply qgis_reply) t,
               nam, (trace ++ [request_parsed])%list)).
Proof.
  induction queue as [|[due qgis_reply] later IH]; intros t nam trace.
  - left. reflexivity.
  - cbn [exec_]. destruct (Z.leb_spec timeout due) as [Hle|Hlt].
    + left. reflexivity.
    + destruct (deliver_cases qgis_reply t nam trace)
        as [Hsame|(r & Hr & Hm & Hc & Hown)].
      * rewrite Hsame.
        destruct (IH t nam trace)
          as [Hexp|(due' & q' & r' & Hin & Hlt' & Hr' & Hm' & Hc' & Hsig)].
        -- left. exact Hexp.
        -- right. exists due', q', r'. repeat split; auto. now right.
      * right. exists due, qgis_reply, r. rewrite Hown.
        repeat split; auto. now left.
Qed.

(** Completions of other requests that fall due before the timeout are
    passed over. *)
Lemma exec_skips_foreign timeout pre later :
  forall t nam trace,
    Forall (fun e => fst e < timeout /\ foreign t (snd e)) pre ->
    exec_ deliver_ timeout (pre ++ later) (t, nam, trace)
    = exec_ deliver_ timeout later (t, nam, trace).
Proof.
  induction pre as [|[due q] pre IH]; intros t nam trace Hpre.
  - reflexivity.
  - inversion Hpre as [|e l [Hdue Hf] Hrest]; subst. cbn in Hdue, Hf.
    cbn [app exec_]. destruct (Z.leb_spec timeout due); [lia|].
    rewrite (deliver_foreign _ _ _ _ Hf). now apply IH.
Qed.


Lemma is_connected_receivers receiver nam nam' :
  finished_receivers nam' = finished_receivers nam ->
  is_connected receiver nam' = is_connected receiver nam.
Proof. unfold is_connected. now intros ->. Qed.

(** The body of the [with] statement binds a reply that carries the next
    request id, and leaves the connections alone. *)
Lemma issue_request_binds t nam trace :
  exists r nam',
    issue_request (t, nam, trace) = (with_reply (Some r) t, nam', trace)
    /\ property_requestId r = requests_created nam
    /\ finished_receivers nam' = finished_receivers nam
    /\ redirectPolicy nam' = redirectPolicy nam.
Proof.
  unfold issue_request, get, post, create_request.
  destruct (request_payload t); eexists; eexists; repeat split.
Qed.

Abbreviation authenticated_ := (authenticated updateNetworkRequest).

Lemma authenticated_frame t :
  self (authenticated_ t) = self t
  /\ parsed_reply (authenticated_ t) = parsed_reply t
  /\ reply_content (authenticated_ t) = reply_content t
  /\ request_payload (authenticated_ t) = request_payload t.
Proof. unfold authenticated. destruct (authcfg t); repeat split. Qed.

(** The two ways [run] can go for a task whose slot is connected. *)
Lemma run_cases t nam queue :
  is_connected (self t) nam = true ->
  let o := run_ t nam queue in
  (left_loop o = TimerExpired default_timeout
   /\ parsed_reply (task_after o) = parsed_reply t
   /\ reply_content (task_after o) = reply_content t
   /\ emitted o = [request_finished]
   /\ returned o
      = inr match parsed_reply t with
            | Some pr => no_transport_error pr
            | None => false
            end)
  \/ exists due qgis_reply,
      left_loop o = SignalEmitted due
      /\ due < default_timeout
      /\ In (due, qgis_reply) queue
      /\ requestId qgis_reply = requests_created nam
      /\ parsed_reply (task_after o) = Some (parse_network_reply qgis_reply)
      /\ _reply (task_after o) = None
      /\ emitted o = [request_parsed; request_finished]
      /\ returned o = inr (no_transport_error (parse_network_reply qgis_reply)).
Proof.
  intros Hc o. subst o. unfold run, wait_for_signal.
  destruct (authenticated_frame t) as (Hself & Hparsed & Hcontent & _).
  destruct (issue_request_binds (authenticated_ t) nam [])
    as (r & nam' & -> & Hid & Hrecv & _).
  assert (Hc' : is_connected (self t) nam' = true)
    by now rewrite (is_connected_receivers _ _ _ Hrecv).
  destruct (exec_deliver_cases default_timeout queue
              (with_reply (Some r) (authenticated_ t)) nam' [])
    as [->|(due & q & r' & Hin & Hdue & Hr' & Hm & _ & ->)].
  - left. unfold check_result, finished_disconnect.
    cbn [parsed_reply with_reply _reply].
    rewrite Hparsed. destruct (parsed_reply t) as [pr|]; cbn;
      rewrite Hself, Hc'; cbn; rewrite Hparsed, Hcontent; now repeat split.
  - right. exists due, q. cbn in Hr'. injection Hr' as <-.
    unfold reply_matches in Hm. apply Z.eqb_eq in Hm.
    unfold finished_disconnect. cbn. rewrite Hself, Hc'. cbn.
    repeat split; auto; congruence.
Qed.

(** The task's own completion, due before the timeout and preceded only
    by completions of other requests, ends the wait. *)
Lemma run_own_completion t nam pre due qgis_reply post :
  is_connected (self t) nam = true ->
  Forall (fun e => fst e < default_timeout
                   /\ requestId (snd e) <> requests_created nam) pre ->
  due < default_timeout ->
  requestId qgis_reply = requests_created nam ->
  let o := run_ t nam (pre ++ (due, qgis_reply) :: post) in
  left_loop o = SignalEmitted due
  /\ parsed_reply (task_after o) = Some (parse_network_reply qgis_reply)
  /\ emitted o = [request_parsed; request_finished]
  /\ returned o = inr (no_transport_error (parse_network_reply qgis_reply)).
Proof.
  intros Hc Hpre Hdue Hown o. subst o. unfold run, wait_for_signal.
  destruct (authenticated_frame t) as (Hself & _).
  destruct (issue_request_binds (authenticated_ t) nam [])
    as (r & nam' & -> & Hid & Hrecv & _).
  assert (Hc' : is_connected (self t) nam' = true)
    by now rewrite (is_connected_receivers _ _ _ Hrecv).
  rewrite exec_skips_foreign.
  2:{ eapply Forall_impl; [exact Hpre|]. intros [d q] [Hd Hq]; cbn in *.
      split; [exact Hd|]. unfold foreign; cbn. congruence. }
  cbn [exec_]. destruct (Z.leb_spec default_timeout due); [lia|].
  unfold deliver. cbn [self with_reply]. rewrite Hself, Hc'.
  unfold _request_done, reply_matches. cbn [_reply with_reply].
  rewrite Hown, Hid, Z.eqb_refl. unfold finished_disconnect. cbn.
  rewrite Hself, Hc'. cbn. repeat split.
Qed.

(** C1.  For a task whose slot is connected, [run] returns normally, and
    it returns [True] exactly when the parsed reply is bound and its
    [qt_error] is [None]; with no parsed reply bound it returns
    [False]. *)
Theorem run_true_iff_reply_parsed_without_error :
  forall (t : state) (nam : QgsNetworkAccessManager)
         (queue : list (Z * QgsNetworkReplyContent)),
    is_connected (self t) nam = true ->
    let o := run_ t nam queue in
    exists b : bool,
      returned o = inr b
      /\ (b = true <->
          exists pr, parsed_reply (task_after o) = Some pr
                     /\ qt_error pr = None)
      /\ (parsed_reply (task_after o) = None -> b = false).
Proof.
  intros t nam queue Hc o.
  destruct (run_cases t nam queue Hc)
    as [(_ & Hp & _ & _ & Hret)|(due & q & _ & _ & _ & _ & Hp & _ & _ & Hret)];
    fold o in Hp, Hret; rewrite Hret, Hp.
  - destruct (parsed_reply t) as [pr|];
      [exists (no_transport_error pr)|exists false].
    + unfold no_transport_error. split; [reflexivity|]. split; [|discriminate].
      split.
      * intros Hb. exists pr. split; [reflexivity|].
        destruct (qt_error pr); [discriminate|reflexivity].
      * intros (pr' & [= <-] & ->). reflexivity.
    + split; [reflexivity|]. split; [|reflexivity].
      split; [discriminate|]. intros (pr' & Hpr' & _). discriminate.
  - exists (no_transport_error (parse_network_reply q)).
    unfold no_transport_error. split; [reflexivity|]. split; [|discriminate].
    split.
    + intros Hb. eexists. split; [reflexivity|].
      destruct (qt_error (parse_network_reply q)); [discriminate|reflexivity].
    + intros (pr' & [= <-] & ->). reflexivity.
Qed.

(** C2.  A completion that is not the task's own (no reply bound, or a
    different request id) changes no attribute of the task, has no signal
    emitted, and does not end the wait: the nested loop goes on with the
    rest of its queue. *)
Theorem foreign_completion_is_ignored :
  forall (t : state) (qgis_reply : QgsNetworkReplyContent)
         (nam : QgsNetworkAccessManager) (trace : list signal)
         (timeout due : Z) (later : list (Z * QgsNetworkReplyContent)),
    foreign t qgis_reply ->
    due < timeout ->
    request_done t qgis_reply = (t, [])
    /\ reply_content (fst (request_done t qgis_reply)) = reply_content t
    /\ parsed_reply (fst (request_done t qgis_reply)) = parsed_reply t
    /\ emissions request_parsed (snd (request_done t qgis_reply)) = 0%nat
    /\ deliver_ qgis_reply (t, nam, trace) = ((t, nam, trace), false)
    /\ exec_ deliver_ timeout ((due, qgis_reply) :: later) (t, nam, trace)
       = exec_ deliver_ timeout later (t, nam, trace).
Proof.
  intros t qgis_reply nam trace timeout due later Hf Hdue.
  rewrite (request_done_foreign _ _ Hf).
  repeat split; try reflexivity.
  - now apply deliver_foreign.
  - apply (exec_skips_foreign timeout [(due, qgis_reply)] later).
    constructor; [|constructor]. split; [exact Hdue|exact Hf].
Qed.

(** The nested loop is left by the signal exactly when the completion of
    the task's request is delivered before the wait ends. *)
Lemma exec_by_own_completion timeout queue t nam trace r :
  _reply t = Some r ->
  is_connected (self t) nam = true ->
  if own_completion_due timeout (property_requestId r) queue
  then exists due qgis_reply,
      In (due, qgis_reply) queue
      /\ requestId qgis_reply = property_requestId r
      /\ due < timeout
      /\ exec_ deliver_ timeout queue (t, nam, trace)
         = (SignalEmitted due,
            (with_parsed (readAll r) (parse_network_reply qgis_reply) t,
             nam, (trace ++ [request_parsed])%list))
  else exec_ deliver_ timeout queue (t, nam, trace)
       = (TimerExpired timeout, (t, nam, trace)).
Proof.
  intros Hr Hc. induction queue as [|[due q] later IH].
  - reflexivity.
  - cbn [own_completion_due exec_].
    destruct (Z.leb_spec timeout due) as [Hle|Hlt]; [reflexivity|].
    unfold deliver at 1 3. rewrite Hc. unfold _request_done, reply_matches.
    rewrite Hr.
    destruct (Z.eqb_spec (requestId q) (property_requestId r)) as [Hown|Hne].
    + exists due, q. split; [now left|]. repeat split; auto.
    + cbn. rewrite app_nil_r.
      destruct (own_completion_due timeout (property_requestId r) later).
      * destruct IH as (due' & q' & Hin & Hid & Hdue & Hexec).
        exists due', q'. split; [now right|]. repeat split; auto.
      * exact IH.
Qed.

Lemma run_by_own_completion t nam queue :
  is_connected (self t) nam = true ->
  let o := run_ t nam queue in
  if own_completion_due default_timeout (requests_created nam) queue
  then (exists due, left_loop o = SignalEmitted due)
       /\ emitted o = [request_parsed; request_finished]
  else left_loop o = TimerExpired default_timeout
       /\ emitted o = [request_finished].
Proof.
  intros Hc o. subst o. unfold run, wait_for_signal.
  destruct (authenticated_frame t) as (Hself & Hparsed & _).
  destruct (issue_request_binds
              (MyNetworkFetcherTask.authenticated updateNetworkRequest t)
              nam [])
    as (r & nam' & -> & Hid & Hrecv & _).
  assert (Hc' : is_connected (self t) nam' = true)
    by now rewrite (is_connected_receivers _ _ _ Hrecv).
  pose proof (exec_by_own_completion default_timeout queue
                (with_reply (Some r)
                   (MyNetworkFetcherTask.authenticated updateNetworkRequest t))
                nam' [] r eq_refl) as Hloop.
  cbn [self with_reply] in Hloop. rewrite Hself in Hloop.
  specialize (Hloop Hc'). rewrite Hid in Hloop.
  destruct (own_completion_due default_timeout (requests_created nam) queue).
  - destruct Hloop as (due & q & _ & _ & _ & ->).
    unfold finished_disconnect. cbn. rewrite Hself, Hc'. cbn.
    split; [exists due|]; reflexivity.
  - rewrite Hloop. unfold check_result, finished_disconnect.
    cbn [parsed_reply with_reply _reply]. rewrite Hparsed.
    destruct (parsed_reply t) as [pr|]; cbn; rewrite Hself, Hc'; cbn;
      split; reflexivity.
Qed.

(** C3, as amended.  For a task whose slot is connected, one execution of
    [run] emits [request_finished] exactly once, as the last signal.  When
    the completion of the task's request is delivered before the wait
    ends, [run] emits [request_parsed] exactly once, before
    [request_finished]; otherwise it does not emit [request_parsed]. *)
Theorem run_emits_finished_once_parsed_at_most_once :
  forall (t : state) (nam : QgsNetworkAccessManager)
         (queue : list (Z * QgsNetworkReplyContent)),
    is_connected (self t) nam = true ->
    let o := run_ t nam queue in
    emissions request_finished (emitted o) = 1%nat
    /\ last (emitted o) = Some request_finished
    /\ if own_completion_due default_timeout (requests_created nam) queue
       then emitted o = [request_parsed; request_finished]
            /\ once_each_in_order (emitted o)
       else emitted o = [request_finished]
            /\ emissions request_parsed (emitted o) = 0%nat.
Proof.
  intros t nam queue Hc o.
  pose proof (run_by_own_completion t nam queue Hc) as Hrun.
  fold o in Hrun.
  destruct (own_completion_due default_timeout (requests_created nam) queue);
    destruct Hrun as [_ Hem]; rewrite Hem.
  - repeat split. exists [], [], []. reflexivity.
  - repeat split.
Qed.

(** Whatever the parser, [run] does not return [False] for a parsed reply
    that carries no transport error. *)
Lemma run_false_excludes_clean_reply t nam queue :
  is_connected (self t) nam = true ->
  returned (run_ t nam queue) = inr false ->
  forall pr, parsed_reply (task_after (run_ t nam queue)) = Some pr ->
             qt_error pr <> None.
Proof.
  intros Hc Hret pr Hpr Herr.
  destruct (run_cases t nam queue Hc)
    as [(_ & Hp & _ & _ & Hr)|(due & q & _ & _ & _ & _ & Hp & _ & _ & Hr)];
    rewrite Hr in Hret; rewrite Hp in Hpr.
  - rewrite Hpr in Hret. unfold no_transport_error in Hret.
    rewrite Herr in Hret. discriminate.
  - injection Hpr as <-. unfold no_transport_error in Hret.
    rewrite Herr in Hret. discriminate.
Qed.

End Task.

(** ** The blocking event-loop adapter *)

Section Waiting.

Context {St Ev : Type}.
Variable dispatch : Ev -> St -> St * bool.

Lemma exec_left_on_signal_or_timeout (timeout : Z) (queue : list (Z * Ev)) :
  forall (s : St) (exit : loop_exit) (s' : St),
    exec_ dispatch timeout queue s = (exit, s') ->
    exit_time exit <= timeout
    /\ left_on_signal_or_timeout dispatch timeout queue s exit s'.
Proof.
  induction queue as [|[due ev] later IH]; intros s exit s' Hexec.
  - cbn in Hexec. injection Hexec as <- <-. cbn. split; [lia|].
    split; [reflexivity|]. exists [], []. repeat split; constructor.
  - cbn [exec_] in Hexec. destruct (Z.leb_spec timeout due) as [Hle|Hlt].
    + injection Hexec as <- <-. cbn. split; [lia|].
      split; [reflexivity|]. exists [], ((due, ev) :: later).
      repeat split; try constructor. exact Hle.
    + destruct (dispatch ev s) as [s1 quit] eqn:Hd. destruct quit.
      * injection Hexec as <- <-. cbn. split; [lia|]. split; [exact Hlt|].
        exists [], ev, later, s. repeat split; try constructor. exact Hd.
      * destruct (IH s1 exit s' Hexec) as [Htime Hleft]. split; [exact Htime|].
        destruct exit as [due'|at_ms]; cbn in Hleft |- *.
        -- destruct Hleft as (Hdue' & pre & ev' & post & s2 & -> & Hpre & Hq & Hd').
           split; [exact Hdue'|].
           exists ((due, ev) :: pre), ev', post, s2. repeat split; auto.
           econstructor; eassumption.
        -- destruct Hleft as (-> & pre & post & -> & Hpre & Hq & Hpost).
           split; [reflexivity|].
           exists ((due, ev) :: pre), post. repeat split; auto.
           econstructor; eassumption.
Qed.

End Waiting.

Lemma constructed_task_is_connected self_id req payload auth descr policy nam :
  let '(t, nam') :=
    Base.MyNetworkFetcherTask.__init__ self_id req payload auth descr policy nam in
  Base.is_connected (Base.MyNetworkFetcherTask.self t) nam' = true
  /\ Base.MyNetworkFetcherTask.parsed_reply t = None.
Proof.
  cbn. split; [|reflexivity]. unfold Base.is_connected; cbn.
  rewrite existsb_app. cbn. rewrite Nat.eqb_refl. apply orb_true_iff.
  right. reflexivity.
Qed.

(** C4.  Every wait returns: either at the first event, due before the
    timeout, whose dispatch has the awaited signal emitted, or at the
    timeout, and never later than the timeout.  The default timeout is
    10000 ms.  When the wait of [run] on a newly constructed task ends by
    the timer, [run] returns [False] without raising. *)
Theorem wait_returns_on_signal_or_timeout :
  (forall (St Ev : Type) (dispatch : Ev -> St -> St * bool) (timeout : Z)
          (body : St -> St) (queue : list (Z * Ev)) (s : St),
      exists (exit : loop_exit) (s' : St),
        wait_for_signal dispatch timeout body queue s = (exit, s')
        /\ exit_time exit <= timeout
        /\ left_on_signal_or_timeout dispatch timeout queue (body s) exit s')
  /\ default_timeout = 10000
  /\ forall (parse_network_reply :
               Base.QgsNetworkReplyContent -> Base.ParsedNetworkReply)
            (readAll : Base.QNetworkReply -> Base.QByteArray)
            (updateNetworkRequest :
               Base.QNetworkRequest -> string -> Base.QNetworkRequest)
            (a : Base.MyNetworkFetcherTask.arguments)
            (nam : Base.QgsNetworkAccessManager)
            (queue : list (Z * Base.QgsNetworkReplyContent)),
      let o :=
        Base.MyNetworkFetcherTask.run parse_network_reply readAll
          updateNetworkRequest
          (fst (Base.MyNetworkFetcherTask.construct a nam))
          (snd (Base.MyNetworkFetcherTask.construct a nam)) queue in
      exit_time (Base.MyNetworkFetcherTask.left_loop o) <= 10000
      /\ match Base.MyNetworkFetcherTask.left_loop o with
         | TimerExpired at_ms =>
             at_ms = 10000
             /\ Base.MyNetworkFetcherTask.returned o = inr false
             /\ Base.MyNetworkFetcherTask.parsed_reply
                  (Base.MyNetworkFetcherTask.task_after o) = None
         | SignalEmitted due =>
             due < 10000
             /\ exists b, Base.MyNetworkFetcherTask.returned o = inr b
         end.
Proof.
  split; [|split; [reflexivity|]].
  - intros St Ev dispatch timeout body queue s. unfold wait_for_signal.
    destruct (exec_ dispatch timeout queue (body s)) as [exit s'] eqn:Hexec.
    exists exit, s'. split; [reflexivity|].
    now apply exec_left_on_signal_or_timeout.
  - intros parse readAll upd a nam queue o.
    pose proof (constructed_task_is_connected
                  (Base.MyNetworkFetcherTask.arg_self a)
                  (Base.MyNetworkFetcherTask.arg_request a)
                  (Base.MyNetworkFetcherTask.arg_request_payload a)
                  (Base.MyNetworkFetcherTask.arg_authcfg a)
                  (Base.MyNetworkFetcherTask.arg_description a)
                  (Base.MyNetworkFetcherTask.arg_redirect_policy a) nam)
      as Hnew.
    fold (Base.MyNetworkFetcherTask.construct a nam) in Hnew.
    destruct (Base.MyNetworkFetcherTask.construct a nam) as [t nam'] eqn:Hcons.
    destruct Hnew as [Hc Hnone]. cbn [fst snd] in o.
    destruct (run_cases parse readAll upd t nam' queue Hc)
      as [(Hexit & Hp & _ & _ & Hret)
         |(due & q & Hexit & Hdue & _ & _ & _ & _ & _ & Hret)];
      fold o in Hexit, Hret; rewrite Hexit; cbn.
    + fold o in Hp. rewrite Hret, Hp, Hnone. unfold default_timeout.
      repeat split; lia.
    + unfold default_timeout in Hdue. split; [lia|]. split; [exact Hdue|].
      eexists. exact Hret.
Qed.

(** ** HTTP failures *)

(** C5, the claim as stated fails: for the completion of the task's
    request with a 404 response, no way of parsing the reply makes [run]
    return [False] while the parsed reply has no transport error. *)
Lemma no_parser_gives_false_without_transport_error :
  Base.attribute_HttpStatusCode Scenario.content_not_found = Some 404
  /\ ~ exists parse_network_reply :
           Base.QgsNetworkReplyContent -> Base.ParsedNetworkReply,
         let o :=
           Base.MyNetworkFetcherTask.run parse_network_reply
             Sample.readAll Sample.updateNetworkRequest Sample.task
             Sample.manager1 [(120, Scenario.content_not_found)] in
         Base.MyNetworkFetcherTask.returned o = inr false
         /\ exists pr,
             Base.MyNetworkFetcherTask.parsed_reply
               (Base.MyNetworkFetcherTask.task_after o) = Some pr
             /\ Base.qt_error pr = None.
Proof.
  split; [reflexivity|].
  intros (parse & Hret & pr & Hpr & Herr).
  exact (run_false_excludes_clean_reply parse Sample.readAll
           Sample.updateNetworkRequest Sample.task Sample.manager1
           [(120, Scenario.content_not_found)] eq_refl Hret pr Hpr Herr).
Qed.

(** C5, as amended.  When the completion of the task's request is
    delivered before the timeout, after completions of other requests
    only, then, whatever the HTTP status of the response (404 included)
    and however the reply is parsed, the task holds the parsed reply, and
    [run] returns [False] exactly when the parsed reply has a transport
    error and [True] exactly when it has none: a result of [False] never
    comes with a transport-error field of [None]. *)
Theorem run_is_false_exactly_on_transport_error :
  forall (parse_network_reply :
            Base.QgsNetworkReplyContent -> Base.ParsedNetworkReply)
         (readAll : Base.QNetworkReply -> Base.QByteArray)
         (updateNetworkRequest :
            Base.QNetworkRequest -> string -> Base.QNetworkRequest)
         (t : Base.MyNetworkFetcherTask.state)
         (nam : Base.QgsNetworkAccessManager)
         (pre post : list (Z * Base.QgsNetworkReplyContent))
         (due : Z) (qgis_reply : Base.QgsNetworkReplyContent),
    Base.is_connected (Base.MyNetworkFetcherTask.self t) nam = true ->
    Forall (fun e => fst e < default_timeout
                     /\ Base.requestId (snd e) <> Base.requests_created nam)
           pre ->
    due < default_timeout ->
    Base.requestId qgis_reply = Base.requests_created nam ->
    let o :=
      Base.MyNetworkFetcherTask.run parse_network_reply readAll
        updateNetworkRequest t nam (pre ++ (due, qgis_reply) :: post) in
    let pr := parse_network_reply qgis_reply in
    Base.MyNetworkFetcherTask.parsed_reply
      (Base.MyNetworkFetcherTask.task_after o) = Some pr
    /\ (Base.MyNetworkFetcherTask.returned o = inr false
        <-> Base.qt_error pr <> None)
    /\ (Base.MyNetworkFetcherTask.returned o = inr true
        <-> Base.qt_error pr = None)
    /\ ~ (Base.MyNetworkFetcherTask.returned o = inr false
          /\ Base.qt_error pr = None).
Proof.
  intros parse readAll upd t nam pre post due q Hc Hpre Hdue Hown o pr.
  destruct (run_own_completion parse readAll upd t nam pre due q post
              Hc Hpre Hdue Hown)
    as (_ & Hp & _ & Hret).
  fold o in Hp, Hret. fold pr in Hp, Hret. rewrite Hret.
  unfold Base.no_transport_error.
  split; [exact Hp|].
  destruct (Base.qt_error pr) as [e|]; repeat split;
    try discriminate; try congruence; intros H; try (now destruct H);
    try (now exfalso; apply H).
Qed.

Lemma run_is_false_exactly_on_transport_error_witness :
  Base.is_connected (Base.MyNetworkFetcherTask.self Sample.task)
    Sample.manager1 = true
  /\ Base.requestId Scenario.content_not_found
     = Base.requests_created Sample.manager1
  /\ Base.attribute_HttpStatusCode Scenario.content_not_found = Some 404
  /\ let o :=
       Base.MyNetworkFetcherTask.run Scenario.parse_network_reply
         Sample.readAll Sample.updateNetworkRequest Sample.task
         Sample.manager1
         ([(50, Sample.other_completion)]
          ++ (120, Scenario.content_not_found) :: []) in
     let pr := Scenario.parse_network_reply Scenario.content_not_found in
     Base.MyNetworkFetcherTask.returned o = inr false
     /\ Base.http_status_code pr = Some 404
     /\ Base.qt_error pr = Some "ContentNotFoundError"
     /\ Base.MyNetworkFetcherTask.parsed_reply
          (Base.MyNetworkFetcherTask.task_after o) = Some pr
     /\ (Base.MyNetworkFetcherTask.returned o = inr false
         <-> Base.qt_error pr <> None)
     /\ (Base.MyNetworkFetcherTask.returned o = inr true
         <-> Base.qt_error pr = None)
     /\ ~ (Base.MyNetworkFetcherTask.returned o = inr false
           /\ Base.qt_error pr = None).
Proof.
  split; [reflexivity|]. split; [reflexivity|]. split; [reflexivity|].
  assert (Hpre :
    Forall (fun e => fst e < default_timeout
                     /\ Base.requestId (snd e)
                        <> Base.requests_created Sample.manager1)
           [(50, Sample.other_completion)]).
  { constructor; [|constructor]. cbn. unfold default_timeout. split; lia. }
  assert (Hdue : 120 < default_timeout) by (unfold default_timeout; lia).
  pose proof (run_is_false_exactly_on_transport_error
                Scenario.parse_network_reply Sample.readAll
                Sample.updateNetworkRequest Sample.task Sample.manager1
                [(50, Sample.other_completion)] [] 120
                Scenario.content_not_found eq_refl Hpre Hdue eq_refl)
    as Hrun.
  cbv zeta in Hrun |- *.
  split; [apply (proj1 (proj2 Hrun)); discriminate|].
  split; [reflexivity|]. split; [reflexivity|]. exact Hrun.
Defined.

(** ** Style documents *)

Section Styles.

Import Base Base.BaseGeonodeClient.

Variable setContent : option QByteArray -> bool -> bool * QDomDocument.

(** A body the handler can use: it loads, the document has a root
    element, and the root has a [NamedLayer] child. *)
Lemma well_formed_sld_is_emitted (c : state) (task : MyNetworkFetcherTask.state)
    (named_layer : string * list QDomNode) :
  network_fetcher_task c = Some task ->
  fst (setContent (MyNetworkFetcherTask.reply_content task) true) = true ->
  firstChildElement "NamedLayer"
    (documentElement
       (snd (setContent (MyNetworkFetcherTask.reply_content task) true)))
  = Some named_layer ->
  handle_layer_style_detail setContent c
  = ([style_detail_received (Some named_layer)], inr tt).
Proof.
  intros Htask Hloaded Hchild.
  unfold handle_layer_style_detail, deserialize_sld_style.
  rewrite Htask. cbn.
  destruct (setContent (MyNetworkFetcherTask.reply_content task) true)
    as [loaded doc]. cbn in Hloaded, Hchild. subst loaded. cbn.
  destruct (documentElement doc) as [root|]; [|discriminate]. cbn.
  cbn in Hchild. rewrite Hchild. reflexivity.
Qed.

(** A document without a root element, or whose root has no
    [NamedLayer] child: the handler raises and emits nothing. *)
Lemma style_handler_fails_on_malformed (c : state)
    (task : MyNetworkFetcherTask.state) :
  network_fetcher_task c = Some task ->
  let loaded :=
    fst (setContent (MyNetworkFetcherTask.reply_content task) true) in
  let root :=
    documentElement
      (snd (setContent (MyNetworkFetcherTask.reply_content task) true)) in
  isNull root = true
  \/ isNull (firstChildElement "NamedLayer" root) = true ->
  (exists message : string,
      handle_layer_style_detail setContent c
      = ([], inl (RuntimeError message)))
  /\ (loaded = true ->
      handle_layer_style_detail setContent c
      = ([], inl (RuntimeError "Could not parse downloaded SLD document"))).
Proof.
  intros Htask loaded root Hbad. subst loaded root.
  unfold handle_layer_style_detail, deserialize_sld_style.
  rewrite Htask. cbn.
  destruct (setContent (MyNetworkFetcherTask.reply_content task) true)
    as [loaded doc]. cbn in Hbad |- *.
  split.
  - destruct loaded; cbn; [|eexists; reflexivity].
    destruct Hbad as [Hbad|Hbad].
    + rewrite Hbad. eexists; reflexivity.
    + destruct (isNull (documentElement doc)); [eexists; reflexivity|].
      rewrite Hbad. eexists; reflexivity.
  - intros ->. cbn. destruct Hbad as [Hbad|Hbad].
    + now rewrite Hbad.
    + destruct (isNull (documentElement doc)); [reflexivity|].
      now rewrite Hbad.
Qed.

End Styles.

(** ** The shared redirect policy *)

Lemma construct_all_snoc calls a nam :
  Base.MyNetworkFetcherTask.construct_all (calls ++ [a]) nam
  = snd (Base.MyNetworkFetcherTask.construct a
           (Base.MyNetworkFetcherTask.construct_all calls nam)).
Proof.
  unfold Base.MyNetworkFetcherTask.construct_all.
  now rewrite fold_left_app.
Qed.

(** C7.  Constructing a task sets the redirect policy of the shared
    manager to the policy of that task; after several constructions the
    manager has the policy of the task constructed last.  The default
    policy is [NoLessSafeRedirectPolicy], under which a redirect from https
    to http is not followed while the other redirects are. *)
Theorem construction_sets_shared_redirect_policy :
  forall (earlier : list Base.MyNetworkFetcherTask.arguments)
         (a : Base.MyNetworkFetcherTask.arguments)
         (nam : Base.QgsNetworkAccessManager) (same_origin user_accepts : bool),
    Base.redirectPolicy (snd (Base.MyNetworkFetcherTask.construct a nam))
    = Base.MyNetworkFetcherTask.arg_redirect_policy a
    /\ Base.MyNetworkFetcherTask.redirect_policy
         (fst (Base.MyNetworkFetcherTask.construct a nam))
       = Base.MyNetworkFetcherTask.arg_redirect_policy a
    /\ Base.redirectPolicy
         (Base.MyNetworkFetcherTask.construct_all (earlier ++ [a]) nam)
       = Base.MyNetworkFetcherTask.arg_redirect_policy a
    /\ Base.MyNetworkFetcherTask.default_redirect_policy
       = Base.NoLessSafeRedirectPolicy
    /\ Base.redirect_followed Base.MyNetworkFetcherTask.default_redirect_policy
         Base.https Base.http same_origin user_accepts = false
    /\ Base.redirect_followed Base.MyNetworkFetcherTask.default_redirect_policy
         Base.https Base.https same_origin user_accepts = true
    /\ Base.redirect_followed Base.MyNetworkFetcherTask.default_redirect_policy
         Base.http Base.https same_origin user_accepts = true
    /\ Base.redirect_followed Base.MyNetworkFetcherTask.default_redirect_policy
         Base.http Base.http same_origin user_accepts = true.
Proof.
  intros earlier a nam same_origin user_accepts.
  rewrite construct_all_snoc. repeat split.
Qed.

(** ** Lifecycle signals on a timeout *)

(** C3, the claim as stated fails: a newly constructed task whose request
    is not completed before the timeout emits [request_finished] only. *)
Lemma timed_out_run_emits_no_request_parsed :
  let o :=
    Base.MyNetworkFetcherTask.run Base.parse_network_reply_spec
      Sample.readAll Sample.updateNetworkRequest Sample.task Sample.manager1
      [(50, Sample.other_completion)] in
  Base.MyNetworkFetcherTask.emitted o
  = [Base.MyNetworkFetcherTask.request_finished]
  /\ ~ Base.MyNetworkFetcherTask.once_each_in_order
         (Base.MyNetworkFetcherTask.emitted o).
Proof.
  cbv zeta. split; [vm_compute; reflexivity|].
  intros [Hparsed _]. vm_compute in Hparsed. discriminate.
Qed.

Lemma run_emits_finished_once_parsed_at_most_once_witness :
  Base.is_connected (Base.MyNetworkFetcherTask.self Sample.task)
    Sample.manager1 = true
  /\ Base.MyNetworkFetcherTask.own_completion_due default_timeout
       (Base.requests_created Sample.manager1)
       [(50, Sample.other_completion); (120, Sample.not_found)] = true
  /\ let o :=
       Base.MyNetworkFetcherTask.run Base.parse_network_reply_spec
         Sample.readAll Sample.updateNetworkRequest Sample.task
         Sample.manager1 [(50, Sample.other_completion); (120, Sample.not_found)] in
     Base.MyNetworkFetcherTask.emissions
       Base.MyNetworkFetcherTask.request_finished
       (Base.MyNetworkFetcherTask.emitted o) = 1%nat
     /\ last (Base.MyNetworkFetcherTask.emitted o)
        = Some Base.MyNetworkFetcherTask.request_finished
     /\ Base.MyNetworkFetcherTask.emitted o
        = [Base.MyNetworkFetcherTask.request_parsed;
           Base.MyNetworkFetcherTask.request_finished]
     /\ Base.MyNetworkFetcherTask.once_each_in_order
          (Base.MyNetworkFetcherTask.emitted o).
Proof.
  split; [reflexivity|]. split; [reflexivity|].
  exact (run_emits_finished_once_parsed_at_most_once
           Base.parse_network_reply_spec Sample.readAll
           Sample.updateNetworkRequest Sample.task Sample.manager1
           [(50, Sample.other_completion); (120, Sample.not_found)] eq_refl).
Defined.

Lemma run_true_iff_reply_parsed_without_error_witness :
  Base.is_connected (Base.MyNetworkFetcherTask.self Sample.task)
    Sample.manager1 = true
  /\ let o :=
       Base.MyNetworkFetcherTask.run Base.parse_network_reply_spec
         Sample.readAll Sample.updateNetworkRequest Sample.task
         Sample.manager1 [(120, Sample.not_found)] in
     exists b : bool,
       Base.MyNetworkFetcherTask.returned o = inr b
       /\ (b = true <->
           exists pr,
             Base.MyNetworkFetcherTask.parsed_reply
               (Base.MyNetworkFetcherTask.task_after o) = Some pr
             /\ Base.qt_error pr = None)
       /\ (Base.MyNetworkFetcherTask.parsed_reply
             (Base.MyNetworkFetcherTask.task_after o) = None -> b = false).
Proof.
  split; [reflexivity|].
  apply (run_true_iff_reply_parsed_without_error
           Base.parse_network_reply_spec Sample.readAll
           Sample.updateNetworkRequest Sample.task Sample.manager1
           [(120, Sample.not_found)]).
  reflexivity.
Defined.

Lemma foreign_completion_is_ignored_witness :
  Base.MyNetworkFetcherTask.foreign Sample.waiting_task Sample.other_completion
  /\ 50 < default_timeout
  /\ Base.MyNetworkFetcherTask._request_done Base.parse_network_reply_spec
       Sample.readAll Sample.waiting_task Sample.other_completion
     = (Sample.waiting_task, []).
Proof.
  assert (Hf : Base.MyNetworkFetcherTask.foreign Sample.waiting_task
                 Sample.other_completion) by (cbn; lia).
  assert (Hdue : 50 < default_timeout) by (unfold default_timeout; lia).
  split; [exact Hf|]. split; [exact Hdue|].
  exact (proj1 (foreign_completion_is_ignored Base.parse_network_reply_spec
                  Sample.readAll Sample.waiting_task Sample.other_completion
                  Sample.manager1 [] default_timeout 50 [] Hf Hdue)).
Defined.

(** * Further properties *)

(** ** The nested loop, for any slots *)

Section WaitingMore.

Context {St Ev : Type}.
Variable dispatch : Ev -> St -> St * bool.

(** Nothing that falls due at or after the timeout is dispatched. *)
Lemma exec_stops_at_timeout (timeout due : Z) (ev : Ev)
    (pre rest : list (Z * Ev)) :
  timeout <= due ->
  forall s : St,
    exec_ dispatch timeout (pre ++ (due, ev) :: rest) s
    = exec_ dispatch timeout pre s.
Proof.
  intros Hlate. induction pre as [|[d e] pre IH]; intros s.
  - cbn. destruct (Z.leb_spec timeout due); [reflexivity|lia].
  - cbn [app exec_]. destruct (timeout <=? d); [reflexivity|].
    destruct (dispatch e s) as [s1 quit]. destruct quit; [reflexivity|].
    apply IH.
Qed.

End WaitingMore.

(** ** The network fetch task: what [run] consumes and what it leaves *)

Section TaskMore.

Import Base Base.MyNetworkFetcherTask.

Variable parse_network_reply : QgsNetworkReplyContent -> ParsedNetworkReply.
Variable readAll : QNetworkReply -> QByteArray.
Variable updateNetworkRequest : QNetworkRequest -> string -> QNetworkRequest.

Abbreviation deliver' := (deliver parse_network_reply readAll).
Abbreviation run' := (run parse_network_reply readAll updateNetworkRequest).
Abbreviation authenticated' := (authenticated updateNetworkRequest).

(** [run] sees its queue through the nested loop only. *)
Lemma run_depends_on_loop t nam queue1 queue2 :
  exec_ deliver' default_timeout queue1
        (issue_request (authenticated' t, nam, []))
  = exec_ deliver' default_timeout queue2
          (issue_request (authenticated' t, nam, [])) ->
  run' t nam queue1 = run' t nam queue2.
Proof.
  intros Hloop. unfold run, wait_for_signal. now rewrite Hloop.
Qed.

Lemma exec_all_foreign timeout queue t nam trace :
  Forall (fun e => foreign t (snd e)) queue ->
  exec_ deliver' timeout queue (t, nam, trace)
  = (TimerExpired timeout, (t, nam, trace)).
Proof.
  induction queue as [|[due q] queue IH]; intros Hall.
  - reflexivity.
  - inversion Hall as [|e l Hf Hrest]; subst. cbn in Hf.
    cbn [exec_]. destruct (timeout <=? due); [reflexivity|].
    rewrite (deliver_foreign _ _ _ _ _ _ Hf). now apply IH.
Qed.

Lemma exec_not_connected timeout queue t nam trace :
  is_connected (self t) nam = false ->
  exec_ deliver' timeout queue (t, nam, trace)
  = (TimerExpired timeout, (t, nam, trace)).
Proof.
  intros Hnc. induction queue as [|[due q] queue IH].
  - reflexivity.
  - cbn [exec_]. destruct (timeout <=? due); [reflexivity|].
    unfold deliver at 1. rewrite Hnc. exact IH.
Qed.

Lemma exec_own_completion_ends timeout pre due q post t nam r :
  _reply t = Some r ->
  requestId q = property_requestId r ->
  is_connected (self t) nam = true ->
  forall trace,
    exec_ deliver' timeout (pre ++ (due, q) :: post) (t, nam, trace)
    = exec_ deliver' timeout (pre ++ [(due, q)]) (t, nam, trace).
Proof.
  intros Hr Hid Hc. induction pre as [|[d e] pre IH]; intros trace.
  - cbn [app exec_]. destruct (timeout <=? due); [reflexivity|].
    unfold deliver, _request_done, reply_matches.
    rewrite Hc, Hr, Hid, Z.eqb_refl. reflexivity.
  - cbn [app exec_]. destruct (timeout <=? d); [reflexivity|].
    destruct (deliver_cases parse_network_reply readAll e t nam trace)
      as [Hsame|(r' & _ & _ & _ & Hquit)].
    + rewrite Hsame. apply IH.
    + rewrite Hquit. reflexivity.
Qed.

(** X6.  A completion that falls due at or after the timeout is not
    consumed, and neither is anything behind it in the queue: [run] goes as
    if the queue ended before it. *)
Theorem run_leaves_late_completions :
  forall (t : state) (nam : QgsNetworkAccessManager)
         (pre rest : list (Z * QgsNetworkReplyContent)) (due : Z)
         (qgis_reply : QgsNetworkReplyContent),
    default_timeout <= due ->
    run' t nam (pre ++ (due, qgis_reply) :: rest) = run' t nam pre.
Proof.
  intros t nam pre rest due q Hlate. apply run_depends_on_loop.
  now apply exec_stops_at_timeout.
Qed.

(** X5.  When every completion in the queue belongs to another request,
    [run] goes as with an empty queue: it waits until the timeout. *)
Theorem run_with_foreign_completions_only :
  forall (t : state) (nam : QgsNetworkAccessManager)
         (queue : list (Z * QgsNetworkReplyContent)),
    Forall (fun e => requestId (snd e) <> requests_created nam) queue ->
    run' t nam queue = run' t nam []
    /\ left_loop (run' t nam queue) = TimerExpired default_timeout.
Proof.
  intros t nam queue Hall.
  destruct (issue_request_binds (authenticated' t) nam [])
    as (r & nam' & Hbody & Hid & _).
  assert (Hloop :
    exec_ deliver' default_timeout queue
          (issue_request (authenticated' t, nam, []))
    = (TimerExpired default_timeout,
       (with_reply (Some r) (authenticated' t), nam', []))).
  { rewrite Hbody. apply exec_all_foreign.
    eapply Forall_impl; [exact Hall|]. intros [d q] Hq. cbn in *.
    unfold foreign. cbn. congruence. }
  split.
  - apply run_depends_on_loop. rewrite Hloop, Hbody. reflexivity.
  - unfold run, wait_for_signal. rewrite Hloop.
    destruct (try_except_AttributeError _ _) as [e|[result t3]];
      [reflexivity|].
    destruct (finished_disconnect _ _); reflexivity.
Qed.

(** X4.  Once the task's own completion has been reached, nothing behind
    it in the queue matters to [run]. *)
Theorem run_stops_at_own_completion :
  forall (t : state) (nam : QgsNetworkAccessManager)
         (pre post : list (Z * QgsNetworkReplyContent)) (due : Z)
         (qgis_reply : QgsNetworkReplyContent),
    is_connected (self t) nam = true ->
    requestId qgis_reply = requests_created nam ->
    run' t nam (pre ++ (due, qgis_reply) :: post)
    = run' t nam (pre ++ [(due, qgis_reply)]).
Proof.
  intros t nam pre post due q Hc Hown. apply run_depends_on_loop.
  destruct (authenticated_frame updateNetworkRequest t) as (Hself & _).
  destruct (issue_request_binds (authenticated' t) nam [])
    as (r & nam' & -> & Hid & Hrecv & _).
  apply exec_own_completion_ends with (r := r).
  - reflexivity.
  - congruence.
  - cbn [self with_reply]. rewrite Hself.
    now rewrite (is_connected_receivers _ _ _ Hrecv).
Qed.

End TaskMore.

(** ** The network fetch task and the shared manager *)

Lemma existsb_eqb_filter_other (own other : nat) (l : list nat) :
  own <> other ->
  existsb (Nat.eqb other) (List.filter (fun r => negb (Nat.eqb own r)) l)
  = existsb (Nat.eqb other) l.
Proof.
  intros Hne. induction l as [|r l IH]; [reflexivity|]. cbn.
  destruct (Nat.eqb_spec own r) as [->|Hr]; cbn.
  - destruct (Nat.eqb_spec other r) as [->|_]; [contradiction|exact IH].
  - now rewrite IH.
Qed.

Lemma existsb_eqb_filter_own (own : nat) (l : list nat) :
  existsb (Nat.eqb own) (List.filter (fun r => negb (Nat.eqb own r)) l) = false.
Proof.
  induction l as [|r l IH]; [reflexivity|]. cbn.
  destruct (Nat.eqb_spec own r) as [->|Hr]; cbn; [exact IH|].
  destruct (Nat.eqb_spec own r); [contradiction|exact IH].
Qed.

Section TaskFrame.

Import Base Base.MyNetworkFetcherTask.

Variable parse_network_reply : QgsNetworkReplyContent -> ParsedNetworkReply.
Variable readAll : QNetworkReply -> QByteArray.
Variable updateNetworkRequest : QNetworkRequest -> string -> QNetworkRequest.

Abbreviation deliver'' := (deliver parse_network_reply readAll).
Abbreviation run'' := (run parse_network_reply readAll updateNetworkRequest).
Abbreviation authenticated'' := (authenticated updateNetworkRequest).

Lemma issue_request_explicit t nam trace :
  issue_request (t, nam, trace)
  = (with_reply
       (Some {| property_requestId := requests_created nam;
                operation :=
                  match request_payload t with
                  | None => GetOperation
                  | Some payload => PostOperation payload
                  end;
                request_of_reply := request t |}) t,
     {| redirectPolicy := redirectPolicy nam;
        finished_receivers := finished_receivers nam;
        requests_created := requests_created nam + 1 |},
     trace).
Proof.
  unfold issue_request, get, post, create_request.
  destruct (request_payload t); reflexivity.
Qed.

(** What [run] leaves of the shared manager and of the identity of the
    task, for a task whose slot is connected. *)
Lemma run_manager_after t nam queue :
  is_connected (self t) nam = true ->
  manager_after (run'' t nam queue)
  = {| redirectPolicy := redirectPolicy nam;
       finished_receivers :=
         List.filter (fun r => negb (Nat.eqb (self t) r))
                     (finished_receivers nam);
       requests_created := requests_created nam + 1 |}
  /\ self (task_after (run'' t nam queue)) = self t.
Proof.
  intros Hc. unfold run, wait_for_signal.
  destruct (authenticated_frame updateNetworkRequest t) as (Hself & _).
  rewrite issue_request_explicit.
  match goal with
  | |- context [exec_ _ _ _ (with_reply (Some ?r) _, ?m, _)] =>
      destruct (exec_deliver_cases parse_network_reply readAll
                  default_timeout queue
                  (with_reply (Some r) (authenticated'' t)) m [])
        as [->|(due & q & r' & _ & _ & _ & _ & _ & ->)]
  end.
  - unfold check_result, finished_disconnect, is_connected in *.
    cbn [parsed_reply with_reply _reply].
    destruct (parsed_reply (authenticated'' t)) as [pr|]; cbn;
      rewrite Hself, Hc; cbn; rewrite Hself; split; reflexivity.
  - unfold finished_disconnect, is_connected in *. cbn.
    rewrite Hself, Hc. cbn. rewrite Hself. split; reflexivity.
Qed.

(** X2.  [run] on a task whose slot is connected disconnects that slot and
    no other, and leaves the redirect policy of the shared manager as it
    found it. *)
Theorem run_disconnects_own_slot_only :
  forall (t : state) (nam : QgsNetworkAccessManager)
         (queue : list (Z * QgsNetworkReplyContent)) (other : nat),
    is_connected (self t) nam = true ->
    let o := run'' t nam queue in
    is_connected (self t) (manager_after o) = false
    /\ (other <> self t ->
        is_connected other (manager_after o) = is_connected other nam)
    /\ redirectPolicy (manager_after o) = redirectPolicy nam.
Proof.
  intros t nam queue other Hc o. subst o.
  destruct (run_manager_after t nam queue Hc) as [-> _].
  unfold is_connected; cbn. split; [apply existsb_eqb_filter_own|].
  split; [|reflexivity].
  intros Hne. apply existsb_eqb_filter_other. congruence.
Qed.

(** A task whose slot is not connected sees no completion; [run] waits
    until the timeout and raises when it disconnects. *)
Lemma run_not_connected t nam queue :
  is_connected (self t) nam = false ->
  returned (run'' t nam queue) = inl TypeError
  /\ emitted (run'' t nam queue) = []
  /\ left_loop (run'' t nam queue) = TimerExpired default_timeout.
Proof.
  intros Hnc. unfold run, wait_for_signal.
  destruct (authenticated_frame updateNetworkRequest t) as (Hself & _).
  rewrite issue_request_explicit.
  rewrite exec_not_connected by (cbn [self with_reply]; now rewrite Hself).
  unfold check_result, finished_disconnect.
  cbn [parsed_reply with_reply _reply].
  destruct (parsed_reply (authenticated'' t)) as [pr|]; cbn;
    rewrite Hself; unfold is_connected in Hnc |- *; cbn; rewrite Hnc;
    repeat split.
Qed.

(** X3.  A task is good for one [run]: a second [run] of the same task,
    on the manager as the first one left it, sees no completion, raises
    [TypeError] when it disconnects, and does not emit
    [request_finished]. *)
Theorem second_run_raises :
  forall (t : state) (nam : QgsNetworkAccessManager)
         (queue1 queue2 : list (Z * QgsNetworkReplyContent)),
    is_connected (self t) nam = true ->
    let o1 := run'' t nam queue1 in
    let o2 := run'' (task_after o1) (manager_after o1) queue2 in
    returned o2 = inl TypeError
    /\ emitted o2 = []
    /\ left_loop o2 = TimerExpired default_timeout.
Proof.
  intros t nam queue1 queue2 Hc o1 o2. subst o2. apply run_not_connected.
  subst o1. destruct (run_manager_after t nam queue1 Hc) as [-> ->].
  unfold is_connected; cbn. apply existsb_eqb_filter_own.
Qed.

(** The content and the parsed reply that [run] stores when the task's own
    completion ends the wait. *)
Lemma run_own_completion_content :
  forall (t : state) (nam : QgsNetworkAccessManager)
         (pre post : list (Z * QgsNetworkReplyContent)) (due : Z)
         (qgis_reply : QgsNetworkReplyContent),
    is_connected (self t) nam = true ->
    Forall (fun e => requestId (snd e) <> requests_created nam) pre ->
    due < default_timeout ->
    requestId qgis_reply = requests_created nam ->
    Forall (fun e => fst e < default_timeout) pre ->
    let o := run'' t nam (pre ++ (due, qgis_reply) :: post) in
    reply_content (task_after o)
    = Some (readAll
              {| property_requestId := requests_created nam;
                 operation :=
                   match request_payload t with
                   | None => GetOperation
                   | Some payload => PostOperation payload
                   end;
                 request_of_reply :=
                   match authcfg t with
                   | Some cfg => updateNetworkRequest (request t) cfg
                   | None => request t
                   end |})
    /\ parsed_reply (task_after o) = Some (parse_network_reply qgis_reply)
    /\ _reply (task_after o) = None.
Proof.
  intros t nam pre post due q Hc Hpre Hdue Hown Htimes o. subst o.
  unfold run, wait_for_signal.
  destruct (authenticated_frame updateNetworkRequest t)
    as (Hself & _ & _ & Hpayload).
  rewrite issue_request_explicit, Hpayload.
  rewrite exec_skips_foreign.
  2:{ apply Forall_forall. intros [d e] Hin. cbn.
      rewrite Forall_forall in Hpre, Htimes.
      split; [exact (Htimes _ Hin)|]. unfold foreign; cbn.
      exact (Hpre _ Hin). }
  cbn [exec_]. destruct (Z.leb_spec default_timeout due); [lia|].
  unfold deliver, is_connected in Hc |- *.
  cbn [self with_reply finished_receivers]. rewrite Hself, Hc.
  unfold _request_done, reply_matches. cbn [_reply with_reply].
  cbn [property_requestId]. rewrite Hown, Z.eqb_refl.
  unfold finished_disconnect, is_connected. cbn. rewrite Hself, Hc. cbn.
  unfold authenticated. destruct (authcfg t); repeat split.
Qed.

(** X7.  The request that [run] issues is the task's request as the
    authentication manager left it, sent with GET when the task has no
    payload and with POST and the payload otherwise; when the task's own
    completion ends the wait, [reply_content] is what [readAll] yields on
    the reply of that request. *)
Theorem run_reads_the_reply_of_its_request :
  forall (t : state) (nam : QgsNetworkAccessManager)
         (pre post : list (Z * QgsNetworkReplyContent)) (due : Z)
         (qgis_reply : QgsNetworkReplyContent),
    is_connected (self t) nam = true ->
    Forall (fun e => requestId (snd e) <> requests_created nam) pre ->
    due < default_timeout ->
    requestId qgis_reply = requests_created nam ->
    Forall (fun e => fst e < default_timeout) pre ->
    let o := run'' t nam (pre ++ (due, qgis_reply) :: post) in
    reply_content (task_after o)
    = Some (readAll
              {| property_requestId := requests_created nam;
                 operation :=
                   match request_payload t with
                   | None => GetOperation
                   | Some payload => PostOperation payload
                   end;
                 request_of_reply :=
                   match authcfg t with
                   | Some cfg => updateNetworkRequest (request t) cfg
                   | None => request t
                   end |})
    /\ parsed_reply (task_after o) = Some (parse_network_reply qgis_reply)
    /\ _reply (task_after o) = None.
Proof. exact run_own_completion_content. Qed.

End TaskFrame.

(** X1.  Constructing a task connects its slot to the shared [finished]
    signal and leaves the connections of the other tasks alone; the new
    task holds no reply, no content and no parsed reply. *)
Theorem construction_connects_own_slot_only :
  forall (a : Base.MyNetworkFetcherTask.arguments)
         (nam : Base.QgsNetworkAccessManager) (other : nat),
    let t := fst (Base.MyNetworkFetcherTask.construct a nam) in
    let nam' := snd (Base.MyNetworkFetcherTask.construct a nam) in
    Base.is_connected (Base.MyNetworkFetcherTask.self t) nam' = true
    /\ Base.is_connected other nam'
       = Base.is_connected other nam
         || Nat.eqb other (Base.MyNetworkFetcherTask.arg_self a)
    /\ Base.requests_created nam' = Base.requests_created nam
    /\ Base.MyNetworkFetcherTask._reply t = None
    /\ Base.MyNetworkFetcherTask.reply_content t = None
    /\ Base.MyNetworkFetcherTask.parsed_reply t = None.
Proof.
  intros a nam other t nam'. subst t nam'.
  unfold Base.MyNetworkFetcherTask.construct,
    Base.MyNetworkFetcherTask.__init__, Base.is_connected. cbn.
  rewrite !existsb_app. cbn. rewrite Nat.eqb_refl, !orb_false_r, orb_true_r.
  repeat split.
Qed.

(** ** The blocking task *)

Section Headers.

Variable same_header_name : string -> string -> bool.

(** The comparison of header names is an equivalence. *)
Hypothesis same_refl : forall a, same_header_name a a = true.
Hypothesis same_sym :
  forall a b, same_header_name a b = same_header_name b a.
Hypothesis same_trans :
  forall a b c,
    same_header_name a b = true -> same_header_name b c = true ->
    same_header_name a c = true.

Lemma rawHeader_setHeader_same (name name' value : string)
    (req : Base.QNetworkRequest) :
  same_header_name name' name = true ->
  Base.rawHeader same_header_name name'
    (Base.setHeader same_header_name name value req)
  = Some value.
Proof.
  intros Hsame. unfold Base.rawHeader, Base.setHeader; cbn.
  induction (Base.rawHeaders req) as [|[k v] l IH]; cbn.
  - now rewrite same_sym, Hsame.
  - destruct (same_header_name k name) eqn:Hk; cbn; [exact IH|].
    destruct (same_header_name k name') eqn:Hk'; [|exact IH].
    rewrite (same_trans k name' name Hk' Hsame) in Hk. discriminate.
Qed.

Lemma rawHeader_setHeader_other (name other value : string)
    (req : Base.QNetworkRequest) :
  same_header_name other name = false ->
  Base.rawHeader same_header_name other
    (Base.setHeader same_header_name name value req)
  = Base.rawHeader same_header_name other req.
Proof.
  intros Hne. unfold Base.rawHeader, Base.setHeader; cbn.
  induction (Base.rawHeaders req) as [|[k v] l IH]; cbn.
  - now rewrite same_sym, Hne.
  - destruct (same_header_name k name) eqn:Hk; cbn.
    + destruct (same_header_name k other) eqn:Hko; [|exact IH].
      rewrite same_sym in Hko.
      rewrite (same_trans other k name Hko Hk) in Hne. discriminate.
    + destruct (same_header_name k other); [reflexivity|exact IH].
Qed.

End Headers.

Section Blocking.

Import Base Base.NetworkFetcherTask.

Variable parse_network_reply : QgsNetworkReplyContent -> ParsedNetworkReply.
Variable same_header_name : string -> string -> bool.
Variable blockingGet :
  QNetworkRequest -> option string -> QgsNetworkReplyContent.
Variable blockingPost :
  QNetworkRequest -> QByteArray -> option string -> QgsNetworkReplyContent.
Variable content : QgsNetworkReplyContent -> QByteArray.

Abbreviation blocking_run :=
  (run parse_network_reply same_header_name blockingGet blockingPost content).
Abbreviation blocking_run_and_finish :=
  (run_and_finish parse_network_reply same_header_name blockingGet
                  blockingPost content).

(** X8.  The blocking task never raises.  After [run] and [finished], the
    reply handler has been called, once and with the content of the reply
    to the blocking call, exactly when the parsed reply has no transport
    error; otherwise the handler is not called and two lines are logged.
    The task then holds the status, reason and error of the parsed reply,
    and its progress is 100. *)
Theorem blocking_task_calls_handler_on_success :
  forall t : state,
    let reply :=
      match request_payload t with
      | None => blockingGet (request t) (authcfg t)
      | Some payload =>
          blockingPost
            (setHeader same_header_name ContentTypeHeader
                       "application/x-www-form-urlencoded" (request t))
            payload (authcfg t)
      end in
    let parsed := parse_network_reply reply in
    exists (t' : state) (effects : list effect),
      blocking_run_and_finish t
      = inr (no_transport_error parsed, t', effects)
      /\ reply_content t' = Some (content reply)
      /\ http_status_code t' = Base.http_status_code parsed
      /\ http_status_reason t' = Base.http_status_reason parsed
      /\ qt_error t' = Base.qt_error parsed
      /\ progress t' = 100
      /\ match Base.qt_error parsed with
         | None => effects = [reply_handler_called (Some (content reply))]
         | Some _ =>
             length effects = 2%nat
             /\ Forall (fun e => exists message, e = logged message) effects
         end.
Proof.
  intros t reply parsed. subst reply parsed.
  unfold run_and_finish, run, _perform_post_request, _perform_get_request,
    no_transport_error, finished.
  destruct (request_payload t) as [payload|] eqn:Hp; cbn; rewrite ?Hp; cbn.
  - destruct (Base.qt_error _) eqn:He; eexists; eexists;
      (split; [reflexivity|]); cbn; rewrite ?He; repeat split;
      repeat constructor; eexists; reflexivity.
  - destruct (Base.qt_error _) eqn:He; eexists; eexists;
      (split; [reflexivity|]); cbn; rewrite ?He; repeat split;
      repeat constructor; eexists; reflexivity.
Qed.

(** X9.  Qt's comparison of header names being an equivalence: with a
    payload, [run] leaves the task's request with the content type of a
    URL-encoded form, under every spelling of the header's name that Qt
    takes for the same name and whatever content type the request had,
    and with its URL and its headers of other names as they were;
    without a payload the request is left as it was. *)
Theorem blocking_post_sets_content_type :
  forall (t : state) (other : string),
    (forall a, same_header_name a a = true) ->
    (forall a b, same_header_name a b = same_header_name b a) ->
    (forall a b c,
        same_header_name a b = true -> same_header_name b c = true ->
        same_header_name a c = true) ->
    exists (result : bool) (t' : state),
      blocking_run t = inr (result, t')
      /\ request_payload t' = request_payload t
      /\ match request_payload t with
         | None => request t' = request t
         | Some _ =>
             url (request t') = url (request t)
             /\ if same_header_name other ContentTypeHeader
                then rawHeader same_header_name other (request t')
                     = Some "application/x-www-form-urlencoded"
                else rawHeader same_header_name other (request t')
                     = rawHeader same_header_name other (request t)
         end.
Proof.
  intros t other Hrefl Hsym Htrans.
  unfold run, _perform_post_request, _perform_get_request.
  destruct (request_payload t) as [payload|] eqn:Hp; cbn; rewrite ?Hp; cbn.
  - eexists; eexists. split; [reflexivity|]. cbn.
    split; [first [exact Hp | reflexivity | congruence]|].
    split; [reflexivity|].
    destruct (same_header_name other ContentTypeHeader) eqn:Hsame.
    + now apply rawHeader_setHeader_same.
    + now apply rawHeader_setHeader_other.
  - eexists; eexists. split; [reflexivity|]. cbn.
    split; [first [exact Hp | reflexivity | congruence]|].
    reflexivity.
Qed.

End Blocking.

(** ** The client's constructor, once more *)

Lemma append_empty_r (s : string) : s +:+ "" = s.
Proof.
  induction s as [|a s IH]; [reflexivity|].
  rewrite append_String. now rewrite IH.
Qed.

Lemma rstrip_fixed_iff (c : ascii) (s : string) :
  rstrip c s = s <-> last_char s <> Some c.
Proof.
  split.
  - intros <-. apply rstrip_last.
  - intros Hlast. apply (rstrip_unique c s s 0); [|exact Hlast].
    cbn. now rewrite append_empty_r.
Qed.

Lemma rstrip_idempotent (c : ascii) (s : string) :
  rstrip c (rstrip c s) = rstrip c s.
Proof. apply rstrip_fixed_iff, rstrip_last. Qed.

Lemma str_or_idempotent (x : option string) :
  str_or (Some (str_or x "")) "" = str_or x "".
Proof.
  destruct x as [s|]; cbn; [|reflexivity].
  destruct (String.eqb_spec s "") as [->|Hne]; cbn; [reflexivity|].
  destruct (String.eqb_spec s ""); [contradiction|reflexivity].
Qed.

(** X10.  A client made from the settings of a connection keeps the base
    URL as it is exactly when the URL does not end with ['/'].  Making a
    client from the base URL and the authentication configuration that a
    client holds gives that client again. *)
Theorem client_settings_are_normal_forms :
  forall connection_settings : Base.ConnectionSettings.t,
    let c := Base.Requests.from_connection_settings connection_settings in
    (Base.BaseGeonodeClient.base_url c
     = Base.ConnectionSettings.base_url connection_settings
     <-> last_char (Base.ConnectionSettings.base_url connection_settings)
         <> Some "/"%char)
    /\ Base.Requests.from_connection_settings
         {| Base.ConnectionSettings.id :=
              Base.ConnectionSettings.id connection_settings;
            Base.ConnectionSettings.name :=
              Base.ConnectionSettings.name connection_settings;
            Base.ConnectionSettings.base_url :=
              Base.BaseGeonodeClient.base_url c;
            Base.ConnectionSettings.auth_config :=
              Some (Base.BaseGeonodeClient.auth_config c) |}
       = c.
Proof.
  intros cs c. subst c.
  unfold Base.Requests.from_connection_settings,
    Base.BaseGeonodeClient.__init__; cbn.
  split; [apply rstrip_fixed_iff|].
  f_equal; [exact (str_or_idempotent _)|exact (rstrip_idempotent _ _)].
Qed.

(** ** The requests of the client *)

Lemma list_index_head {A : Type} (x : A) (l : list A) :
  list_index (x :: l) 0 = inr x.
Proof.
  unfold list_index. cbn [length].
  replace (0 <? 0) with false by reflexivity. cbn [Z.to_nat nth_error].
  destruct (Z.ltb_spec 0 0); [lia|].
  destruct (Z.leb_spec (Z.of_nat (S (length l))) 0); [lia|]. reflexivity.
Qed.

Lemma filter_first_match {A : Type} (p : A -> bool) (pre post : list A) (x : A) :
  Forall (fun y => p y = false) pre ->
  p x = true ->
  List.filter p (pre ++ x :: post) = x :: List.filter p post.
Proof.
  intros Hpre Hx. induction Hpre as [|y pre Hy _ IH]; cbn.
  - now rewrite Hx.
  - now rewrite Hy.
Qed.

Lemma filter_no_match {A : Type} (p : A -> bool) (l : list A) :
  Forall (fun y => p y = false) l -> List.filter p l = [].
Proof.
  intros Hl. induction Hl as [|y l Hy _ IH]; cbn; [reflexivity|].
  now rewrite Hy.
Qed.

Section ClientRequests.

Import Base Base.Requests.

Variable Parameters_ : Type.
Variable default_search_parameters : Parameters_.
Variable get_layers_url_endpoint : Parameters_ -> fallible string.
Variable get_layers_request_payload : Parameters_ -> fallible (option string).
Variable get_layer_detail_url_endpoint : Z -> fallible string.
Variable get_layer_styles_url_endpoint : Z -> fallible string.
Variable get_maps_url_endpoint : Parameters_ -> fallible string.
Variable get_maps_request_payload : Parameters_ -> fallible (option string).

Abbreviation app := (application Parameters_).

(** What [submit] leaves. *)
Lemma submit_leaves (new_task : nat) (req : QNetworkRequest)
    (payload : option string) (handler : slot Parameters_) (w : app) :
  let w' := @submit Parameters_ new_task req payload handler w in
  network_fetcher_task _ w' = Some new_task
  /\ (exists t,
        tasks _ w' !! new_task = Some t
        /\ MyNetworkFetcherTask.self t = new_task
        /\ MyNetworkFetcherTask.request t = req
        /\ MyNetworkFetcherTask.request_payload t = payload
        /\ MyNetworkFetcherTask.authcfg t = Some (auth_config _ w)
        /\ MyNetworkFetcherTask.redirect_policy t = NoLessSafeRedirectPolicy
        /\ MyNetworkFetcherTask.parsed_reply t = None
        /\ MyNetworkFetcherTask.reply_content t = None)
  /\ redirectPolicy (manager _ w') = NoLessSafeRedirectPolicy
  /\ is_connected new_task (manager _ w') = true
  /\ requests_created (manager _ w') = requests_created (manager _ w)
  /\ task_manager _ w' = (task_manager _ w ++ [new_task])%list
  /\ request_finished_slots _ w'
     = (request_finished_slots _ w ++ [(new_task, handler)])%list
  /\ auth_config _ w' = auth_config _ w
  /\ base_url _ w' = base_url _ w
  /\ forall other, other <> new_task ->
                   tasks _ w' !! other = tasks _ w !! other.
Proof.
  intros w'. subst w'. unfold submit, MyNetworkFetcherTask.__init__. cbn.
  split; [reflexivity|]. split.
  { eexists. split; [apply lookup_insert_eq|]. repeat split. }
  split; [reflexivity|]. split.
  { unfold is_connected; cbn. rewrite existsb_app. cbn.
    now rewrite Nat.eqb_refl, orb_true_r. }
  repeat split. intros other Hne. now apply lookup_insert_ne.
Qed.

(** X11.  Each of the five [get_] methods, when it returns, has
    constructed one task under the new identity, with the client's
    [auth_config] as its authentication configuration and the default
    redirect policy, which is then the policy of the shared manager; the
    client refers to that task, one slot is connected to its
    [request_finished], the task is the last one handed to the task
    manager, and the other task objects are as before. *)
Theorem every_request_submits_one_task :
  forall (new_task : nat) (w w' : app)
         (search_params : option Parameters_) (map_params : Parameters_)
         (id_ layer_id : Z) (layer : GeonodeResource.t)
         (style_name : option string),
    @get_layers Parameters_ default_search_parameters get_layers_url_endpoint
      get_layers_request_payload new_task search_params w = inr w'
    \/ @get_layer_detail Parameters_ get_layer_detail_url_endpoint
         new_task id_ w = inr w'
    \/ @get_layer_styles Parameters_ get_layer_styles_url_endpoint
         new_task layer_id w = inr w'
    \/ @get_layer_style Parameters_ new_task layer style_name w = inr w'
    \/ @get_maps Parameters_ get_maps_url_endpoint get_maps_request_payload
         new_task map_params w = inr w' ->
    network_fetcher_task _ w' = Some new_task
    /\ (exists t,
          tasks _ w' !! new_task = Some t
          /\ MyNetworkFetcherTask.self t = new_task
          /\ MyNetworkFetcherTask.authcfg t = Some (auth_config _ w)
          /\ MyNetworkFetcherTask.redirect_policy t = NoLessSafeRedirectPolicy
          /\ MyNetworkFetcherTask.parsed_reply t = None
          /\ MyNetworkFetcherTask.reply_content t = None)
    /\ redirectPolicy (manager _ w') = NoLessSafeRedirectPolicy
    /\ is_connected new_task (manager _ w') = true
    /\ task_manager _ w' = (task_manager _ w ++ [new_task])%list
    /\ (exists handler,
          request_finished_slots _ w'
          = (request_finished_slots _ w ++ [(new_task, handler)])%list)
    /\ auth_config _ w' = auth_config _ w
    /\ base_url _ w' = base_url _ w
    /\ forall other, other <> new_task ->
                     tasks _ w' !! other = tasks _ w !! other.
Proof.
  intros new_task w w' search_params map_params id_ layer_id layer style_name H.
  assert (Hsub : exists req payload handler,
             w' = @submit Parameters_ new_task req payload handler w).
  { destruct H as [H|[H|[H|[H|H]]]].
    - unfold get_layers, and_then in H.
      destruct (get_layers_url_endpoint _); [discriminate|].
      destruct (get_layers_request_payload _); [discriminate|].
      injection H as <-. eauto.
    - unfold get_layer_detail, and_then in H.
      destruct (get_layer_detail_url_endpoint _); [discriminate|].
      injection H as <-. eauto.
    - unfold get_layer_styles, and_then in H.
      destruct (get_layer_styles_url_endpoint _); [discriminate|].
      injection H as <-. eauto.
    - unfold get_layer_style, and_then in H.
      destruct style_name as [wanted|].
      + destruct (list_index _ 0); [discriminate|].
        injection H as <-. eauto.
      + injection H as <-. eauto.
    - unfold get_maps, and_then in H.
      destruct (get_maps_url_endpoint _); [discriminate|].
      destruct (get_maps_request_payload _); [discriminate|].
      injection H as <-. eauto. }
  destruct Hsub as (req & payload & handler & ->).
  destruct (submit_leaves new_task req payload handler w)
    as (H1 & (t & Ht & Hs & _ & _ & Ha & Hp & Hn & Hc) & H3 & H4 & _ & H5
        & H6 & H7 & H8 & H9).
  split; [exact H1|]. split; [exists t; repeat split; assumption|].
  split; [exact H3|]. split; [exact H4|]. split; [exact H5|].
  split; [exists handler; exact H6|]. repeat split; assumption.
Qed.


Lemma name_differs_eqb (wanted : string) (l : list Style.t) :
  Forall (fun i => Style.name i <> wanted) l ->
  Forall (fun i => String.eqb (Style.name i) wanted = false) l.
Proof.
  intros Hl. eapply Forall_impl; [exact Hl|]. intros i Hi.
  now apply String.eqb_neq.
Qed.

(** What [get_layer_style] does for a style it can choose. *)
Lemma get_layer_style_requests_chosen_style_aux
    (new_task : nat) (layer : GeonodeResource.t)
    (style_name : option string) (style : Style.t) (w : app) :
  chosen_style layer style_name style ->
  exists (w' : app) (t : MyNetworkFetcherTask.state),
    @get_layer_style Parameters_ new_task layer style_name w = inr w'
    /\ tasks _ w' !! new_task = Some t
    /\ MyNetworkFetcherTask.request t = request_for (Style.sld_url style)
    /\ MyNetworkFetcherTask.authcfg t = Some (auth_config _ w)
    /\ network_fetcher_task _ w' = Some new_task
    /\ MyNetworkFetcherTask.request_payload t = None
    /\ MyNetworkFetcherTask.self t = new_task
    /\ MyNetworkFetcherTask.reply_content t = None
    /\ request_finished_slots _ w'
       = (request_finished_slots _ w
          ++ [(new_task, on_layer_style_detail Parameters_)])%list
    /\ w' = @submit Parameters_ new_task
              (request_for (Style.sld_url style)) None
              (on_layer_style_detail Parameters_) w.
Proof.
  intros Hchosen. unfold get_layer_style.
  assert (Hurl :
    match style_name with
    | None => inr (Style.sld_url (GeonodeResource.default_style layer))
    | Some wanted =>
        and_then
          (list_index
             (List.filter (fun i => String.eqb (Style.name i) wanted)
                          (GeonodeResource.styles layer)) 0)
          (fun style_details => inr (Style.sld_url style_details))
    end = (inr (Style.sld_url style) : fallible string)).
  { destruct style_name as [wanted|]; cbn in Hchosen.
    - destruct Hchosen as (pre & post & -> & Hname & Hpre).
      rewrite filter_first_match;
        [|now apply name_differs_eqb|now apply String.eqb_eq].
      now rewrite list_index_head.
    - now subst style. }
  rewrite Hurl. cbn [and_then].
  destruct (submit_leaves new_task (request_for (Style.sld_url style)) None
              (on_layer_style_detail Parameters_) w)
    as (Hnft & (t & Ht & Hself & Hreq & Hpay & Hauth & _ & _ & Hcontent)
        & _ & _ & _ & _ & Hslots & _).
  eexists. exists t. split; [reflexivity|]. repeat split; assumption.
Qed.

(** X12.  [get_layer_style] asks for the SLD of the layer's default style
    when no name is given, and for the SLD of the first style with the
    wanted name otherwise; the request has no payload and the slot
    connected is [handle_layer_style_detail]. *)
Theorem get_layer_style_requests_chosen_style :
  forall (new_task : nat) (layer : GeonodeResource.t)
         (style_name : option string) (style : Style.t) (w : app),
    chosen_style layer style_name style ->
    exists (w' : app) (t : MyNetworkFetcherTask.state),
      @get_layer_style Parameters_ new_task layer style_name w = inr w'
      /\ tasks _ w' !! new_task = Some t
      /\ MyNetworkFetcherTask.request t = request_for (Style.sld_url style)
      /\ MyNetworkFetcherTask.request_payload t = None
      /\ request_finished_slots _ w'
         = (request_finished_slots _ w
            ++ [(new_task, on_layer_style_detail Parameters_)])%list.
Proof.
  intros new_task layer style_name style w Hchosen.
  destruct (get_layer_style_requests_chosen_style_aux new_task layer
              style_name style w Hchosen)
    as (w' & t & Hget & Ht & Hreq & _ & _ & Hpay & _ & _ & Hslots & _).
  exists w', t. repeat split; assumption.
Qed.

(** X13.  When the layer has no style of the wanted name,
    [get_layer_style] raises [IndexError], before any task is
    constructed. *)
Theorem get_layer_style_unknown_name :
  forall (new_task : nat) (layer : GeonodeResource.t) (wanted : string)
         (w : app),
    Forall (fun i => Style.name i <> wanted) (GeonodeResource.styles layer) ->
    @get_layer_style Parameters_ new_task layer (Some wanted) w
    = inl IndexError.
Proof.
  intros new_task layer wanted w Hnone. unfold get_layer_style.
  rewrite filter_no_match by now apply name_differs_eqb. reflexivity.
Qed.

Section ClientNetwork.

Variable parse_network_reply : QgsNetworkReplyContent -> ParsedNetworkReply.
Variable readAll : QNetworkReply -> QByteArray.
Variable updateNetworkRequest : QNetworkRequest -> string -> QNetworkRequest.
Variable setContent : option QByteArray -> bool -> bool * QDomDocument.

Abbreviation run_task' :=
  (@run_task Parameters_ parse_network_reply readAll updateNetworkRequest).

(** [run] keeps the request as the authentication manager left it. *)
Lemma run_keeps_authenticated_request t nam queue :
  MyNetworkFetcherTask.request
    (MyNetworkFetcherTask.task_after
       (MyNetworkFetcherTask.run parse_network_reply readAll
          updateNetworkRequest t nam queue))
  = MyNetworkFetcherTask.request
      (MyNetworkFetcherTask.authenticated updateNetworkRequest t).
Proof.
  unfold MyNetworkFetcherTask.run, wait_for_signal.
  rewrite issue_request_explicit.
  match goal with
  | |- context [exec_ _ _ _ (MyNetworkFetcherTask.with_reply (Some ?r) ?a, ?m, _)] =>
      destruct (exec_deliver_cases parse_network_reply readAll
                  default_timeout queue
                  (MyNetworkFetcherTask.with_reply (Some r) a) m [])
        as [->|(due & q & r' & _ & _ & _ & _ & _ & ->)]
  end.
  - unfold MyNetworkFetcherTask.check_result.
    cbn [MyNetworkFetcherTask.parsed_reply MyNetworkFetcherTask.with_reply
         MyNetworkFetcherTask._reply].
    destruct (MyNetworkFetcherTask.parsed_reply _) as [pr|]; cbn;
      destruct (finished_disconnect _ _); reflexivity.
  - cbn. destruct (finished_disconnect _ _); reflexivity.
Qed.

(** X14.  The tasks of the client always go through the authentication
    manager: whatever arrives while the task of [get_layer_style] runs,
    the task's request is afterwards the request for the style as
    [updateNetworkRequest] returned it for the client's [auth_config],
    which is the empty string for a client made without one. *)
Theorem client_tasks_are_always_authenticated :
  forall (new_task : nat) (layer : GeonodeResource.t)
         (style_name : option string) (style : Style.t) (w : app)
         (queue : list (Z * QgsNetworkReplyContent)),
    chosen_style layer style_name style ->
    exists (w1 w2 : app) (o : MyNetworkFetcherTask.outcome)
           (t' : MyNetworkFetcherTask.state),
      @get_layer_style Parameters_ new_task layer style_name w = inr w1
      /\ run_task' new_task queue w1 = Some (o, w2)
      /\ tasks _ w2 !! new_task = Some t'
      /\ MyNetworkFetcherTask.request t'
         = updateNetworkRequest (request_for (Style.sld_url style))
                                (auth_config _ w)
      /\ network_fetcher_task _ w2 = Some new_task.
Proof.
  intros new_task layer style_name style w queue Hchosen.
  destruct (get_layer_style_requests_chosen_style_aux new_task layer
              style_name style w Hchosen)
    as (w1 & t & Hget & Ht & Hreq & Hauth & Hnft & _).
  exists w1. unfold run_task. rewrite Ht.
  eexists. eexists. eexists. split; [exact Hget|]. split; [reflexivity|].
  cbn. split; [apply lookup_insert_eq|]. split; [|exact Hnft].
  rewrite run_keeps_authenticated_request.
  unfold MyNetworkFetcherTask.authenticated. rewrite Hauth. cbn.
  now rewrite Hreq.
Qed.

End ClientNetwork.

End ClientRequests.

Section ClientSlots.

Import Base Base.Requests.

Variable Parameters_ : Type.
Variable parse_network_reply : QgsNetworkReplyContent -> ParsedNetworkReply.
Variable readAll : QNetworkReply -> QByteArray.
Variable updateNetworkRequest : QNetworkRequest -> string -> QNetworkRequest.
Variable setContent : option QByteArray -> bool -> bool * QDomDocument.

(** X15.  [handle_layer_style_detail] emits at most one signal.  Without a
    task it raises [AttributeError].  With a task, it either raises and
    emits nothing, or it emits [style_detail_received] once, with an
    element that is not null: the first [NamedLayer] child of the root of
    the document loaded from the task's [reply_content]. *)
Theorem style_handler_emits_named_layer_or_nothing :
  forall c : BaseGeonodeClient.state,
    match BaseGeonodeClient.network_fetcher_task c with
    | None =>
        BaseGeonodeClient.handle_layer_style_detail setContent c
        = ([], inl AttributeError)
    | Some task =>
        let loaded :=
          setContent (MyNetworkFetcherTask.reply_content task) true in
        (exists e : exn,
            BaseGeonodeClient.handle_layer_style_detail setContent c
            = ([], inl e))
        \/ (exists (root named_layer : string * list QDomNode),
               fst loaded = true
               /\ documentElement (snd loaded) = Some root
               /\ first_element_named "NamedLayer" (snd root)
                  = Some named_layer
               /\ BaseGeonodeClient.handle_layer_style_detail setContent c
                  = ([BaseGeonodeClient.style_detail_received
                        (Some named_layer)],
                     inr tt))
    end.
Proof.
  intros c.
  unfold BaseGeonodeClient.handle_layer_style_detail,
    BaseGeonodeClient.deserialize_sld_style.
  destruct (BaseGeonodeClient.network_fetcher_task c) as [task|];
    [|reflexivity].
  cbn. destruct (setContent (MyNetworkFetcherTask.reply_content task) true)
    as [loaded doc]. cbn.
  destruct loaded; cbn; [|left; eexists; reflexivity].
  destruct (documentElement doc) as [[tag children]|] eqn:Hroot; cbn;
    [|left; eexists; reflexivity].
  destruct (first_element_named "NamedLayer" children) as [named|] eqn:Hchild;
    cbn; [|left; eexists; reflexivity].
  right. exists (tag, children), named. repeat split; assumption.
Qed.

Abbreviation run_task'' :=
  (@run_task Parameters_ parse_network_reply readAll updateNetworkRequest).

(** X16.  The slot reads the task that the client refers to when the slot
    runs.  When a second style request has been made before the task of
    the first one has run, then, whatever the first task receives, the
    client still refers to the second task, which has no content yet, and
    the slot called for the first task does what it would have done before
    the first task ran. *)
Theorem slot_reads_the_latest_task :
  forall (first second : nat) (layer1 layer2 : GeonodeResource.t)
         (name1 name2 : option string) (style1 style2 : Style.t)
         (w : application Parameters_)
         (queue : list (Z * QgsNetworkReplyContent)),
    first <> second ->
    chosen_style layer1 name1 style1 ->
    chosen_style layer2 name2 style2 ->
    exists (w1 w2 w3 : application Parameters_)
           (o : MyNetworkFetcherTask.outcome)
           (latest : MyNetworkFetcherTask.state),
      @get_layer_style Parameters_ first layer1 name1 w = inr w1
      /\ @get_layer_style Parameters_ second layer2 name2 w1 = inr w2
      /\ run_task'' first queue w2 = Some (o, w3)
      /\ BaseGeonodeClient.network_fetcher_task (client _ w3) = Some latest
      /\ MyNetworkFetcherTask.self latest = second
      /\ MyNetworkFetcherTask.request latest
         = request_for (Style.sld_url style2)
      /\ MyNetworkFetcherTask.reply_content latest = None
      /\ @style_request_finished Parameters_ setContent w3
         = @style_request_finished Parameters_ setContent w2.
Proof.
  intros first second layer1 layer2 name1 name2 style1 style2 w queue
         Hne Hc1 Hc2.
  destruct (get_layer_style_requests_chosen_style_aux Parameters_ first
              layer1 name1 style1 w Hc1)
    as (w1 & t1 & Hget1 & Ht1 & _ & _ & _ & _ & _ & _ & _ & Hw1).
  destruct (get_layer_style_requests_chosen_style_aux Parameters_ second
              layer2 name2 style2 w1 Hc2)
    as (w2 & t2 & Hget2 & Ht2 & Hreq2 & _ & Hnft2 & _ & Hself2 & Hcont2
        & _ & Hw2).
  assert (Hfirst : tasks _ w2 !! first = Some t1).
  { rewrite Hw2. unfold submit at 1. cbn.
    rewrite lookup_insert_ne by congruence. exact Ht1. }
  exists w1, w2. unfold run_task. rewrite Hfirst.
  eexists. eexists. exists t2.
  split; [exact Hget1|]. split; [exact Hget2|]. split; [reflexivity|].
  assert (Hclient :
    BaseGeonodeClient.network_fetcher_task
      (client _
         {| auth_config := auth_config _ w2;
            base_url := base_url _ w2;
            network_fetcher_task := network_fetcher_task _ w2;
            tasks :=
              <[first :=
                  MyNetworkFetcherTask.task_after
                    (MyNetworkFetcherTask.run parse_network_reply readAll
                       updateNetworkRequest t1 (manager _ w2) queue)]>
                (tasks _ w2);
            manager :=
              MyNetworkFetcherTask.manager_after
                (MyNetworkFetcherTask.run parse_network_reply readAll
                   updateNetworkRequest t1 (manager _ w2) queue);
            request_finished_slots := request_finished_slots _ w2;
            task_manager := task_manager _ w2 |})
    = Some t2).
  { unfold client; cbn. rewrite Hnft2.
    rewrite lookup_insert_ne by congruence. exact Ht2. }
  split; [exact Hclient|]. split; [exact Hself2|]. split; [exact Hreq2|].
  split; [exact Hcont2|].
  unfold style_request_finished. f_equal.
  unfold client; cbn. rewrite Hnft2.
  now rewrite lookup_insert_ne by congruence.
Qed.

(** X17.  When the task of a style request receives its own completion in
    time, the slot finds, as the task's content, what [readAll] yields on
    the reply to the GET request for the chosen style, as authenticated
    for the client's [auth_config]. *)
Theorem style_slot_reads_own_reply :
  forall (new_task : nat) (layer : GeonodeResource.t)
         (style_name : option string) (style : Style.t)
         (w : application Parameters_)
         (pre post : list (Z * QgsNetworkReplyContent)) (due : Z)
         (qgis_reply : QgsNetworkReplyContent),
    chosen_style layer style_name style ->
    Forall (fun e => requestId (snd e) <> requests_created (manager _ w)) pre ->
    due < default_timeout ->
    requestId qgis_reply = requests_created (manager _ w) ->
    Forall (fun e => fst e < default_timeout) pre ->
    exists (w1 w2 : application Parameters_)
           (o : MyNetworkFetcherTask.outcome)
           (t' : MyNetworkFetcherTask.state),
      @get_layer_style Parameters_ new_task layer style_name w = inr w1
      /\ run_task'' new_task (pre ++ (due, qgis_reply) :: post) w1
         = Some (o, w2)
      /\ BaseGeonodeClient.network_fetcher_task (client _ w2) = Some t'
      /\ MyNetworkFetcherTask.reply_content t'
         = Some (readAll
                   {| property_requestId := requests_created (manager _ w);
                      operation := GetOperation;
                      request_of_reply :=
                        updateNetworkRequest
                          (request_for (Style.sld_url style))
                          (auth_config _ w) |})
      /\ MyNetworkFetcherTask.parsed_reply t'
         = Some (parse_network_reply qgis_reply).
Proof.
  intros new_task layer style_name style w pre post due q
         Hchosen Hpre Hdue Hown Htimes.
  destruct (get_layer_style_requests_chosen_style_aux Parameters_ new_task
              layer style_name style w Hchosen)
    as (w1 & t & Hget & Ht & Hreq & Hauth & Hnft & Hpay & Hself & _ & _ & Hw1).
  destruct (submit_leaves Parameters_ new_task
              (request_for (Style.sld_url style)) None
              (on_layer_style_detail Parameters_) w)
    as (_ & _ & _ & Hconn & Hcreated & _).
  cbv zeta in Hconn, Hcreated. rewrite <- Hw1 in Hconn, Hcreated.
  exists w1. unfold run_task. rewrite Ht.
  eexists. eexists. eexists. split; [exact Hget|]. split; [reflexivity|].
  assert (Hc : is_connected (MyNetworkFetcherTask.self t) (manager _ w1) = true)
    by now rewrite Hself.
  destruct (run_own_completion_content parse_network_reply readAll
              updateNetworkRequest t (manager _ w1) pre post due q Hc)
    as (Hcontent & Hparsed & _).
  { now rewrite Hcreated. }
  { exact Hdue. }
  { now rewrite Hcreated. }
  { exact Htimes. }
  unfold client; cbn. rewrite Hnft, lookup_insert_eq.
  split; [reflexivity|]. cbv zeta in Hcontent, Hparsed.
  rewrite Hcontent, Hparsed, Hpay, Hauth, Hreq, Hcreated.
  split; reflexivity.
Qed.

End ClientSlots.

(** ** Paging, once more *)

Lemma below_ceiling_iff (page total size : Z) :
  0 < size ->
  page < Gui.ceil_div total size <-> page * size < total.
Proof.
  intros Hsize. pose proof (ceil_div_bounds total size Hsize) as Hb.
  split; intros H; nia.
Qed.

Section PagingMore.

Variable tr : string -> string.

Import Gui Gui.GeonodeDataSourceWidget.

(** X18.  For a payload whose page, total and page size are integers, the
    defaults 1, 0 and 10 standing in for missing entries, with a total of
    magnitude below 2^53 and a positive page size below 2^53,
    [handle_pagination] takes the page as it is, enables the previous-page
    button exactly from page 2 on and the next-page button exactly when
    results lie beyond the page, and reports no results when the total is
    not positive.  The search button, the message bar and the searches
    made are left alone. *)
Theorem pagination_buttons_follow_payload :
  forall (w : state) (layer_list_payload : gmap string pyvalue)
         (page total page_size : Z),
    dict_get layer_list_payload "page" (PyInt 1) = PyInt page ->
    dict_get layer_list_payload "total" (PyInt 0) = PyInt total ->
    dict_get layer_list_payload "page_size" (PyInt 10) = PyInt page_size ->
    - float_exact < total < float_exact ->
    0 < page_size < float_exact ->
    exists w' : state,
      handle_pagination tr w layer_list_payload = inr w'
      /\ current_page w' = page
      /\ (previous_btn_enabled w' = true <-> 1 < page)
      /\ (next_btn_enabled w' = true <-> page * page_size < total)
      /\ (total <= 0 -> resultsLabel w' = tr "No results found")
      /\ search_btn_enabled w' = search_btn_enabled w
      /\ message_bar w' = message_bar w
      /\ searches w' = searches w.
Proof.
  intros w payload page total size Hpage Htotal Hsize Htot [Hpos Hbelow].
  unfold handle_pagination. rewrite Hpage, Htotal, Hsize.
  unfold ceil_truediv; cbn [as_number bind ret].
  destruct (Z.eqb_spec size 0) as [->|Hsize0]; [lia|].
  destruct (ceil_of_float_quotient total size Htot ltac:(lia) Hsize0)
    as (x & -> & Hceil). cbn [bind ret]. rewrite Hceil.
  eexists. split; [reflexivity|]. cbn. split; [reflexivity|].
  split; [apply Z.ltb_lt|]. split.
  - rewrite Z.ltb_lt. now apply below_ceiling_iff.
  - split; [|repeat split]. intros Hnone. unfold results_text.
    destruct (Z.ltb_spec 0 total); [lia|reflexivity].
Qed.

(** X19.  A payload without the entries ["page"], ["total"] and
    ["page_size"] puts the widget on page 1 with both paging buttons
    disabled and reports no results. *)
Theorem pagination_defaults :
  forall (w : state) (layer_list_payload : gmap string pyvalue),
    layer_list_payload !! "page" = None ->
    layer_list_payload !! "total" = None ->
    layer_list_payload !! "page_size" = None ->
    exists w' : state,
      handle_pagination tr w layer_list_payload = inr w'
      /\ current_page w' = 1
      /\ previous_btn_enabled w' = false
      /\ next_btn_enabled w' = false
      /\ resultsLabel w' = tr "No results found".
Proof.
  intros w payload Hpage Htotal Hsize.
  unfold handle_pagination, dict_get. rewrite Hpage, Htotal, Hsize.
  eexists. split; [reflexivity|]. repeat split.
Qed.

(** X20.  With the defaults standing in for missing entries:
    [handle_pagination] raises [ZeroDivisionError] when the page size is
    zero and the total an integer, whatever the page is; it raises
    [TypeError] when the total or the page size is not a number; and it
    raises [TypeError] when the page is not a number while the total and
    the page size are integers of magnitude below 2^53, the page size not
    zero. *)
Theorem pagination_raises_on_bad_numbers :
  forall (w : state) (layer_list_payload : gmap string pyvalue),
    let page := dict_get layer_list_payload "page" (PyInt 1) in
    let total := dict_get layer_list_payload "total" (PyInt 0) in
    let page_size := dict_get layer_list_payload "page_size" (PyInt 10) in
    ((exists a, total = PyInt a) /\ page_size = PyInt 0 ->
     handle_pagination tr w layer_list_payload = inl ZeroDivisionError)
    /\ (as_number total = inl TypeError \/ as_number page_size = inl TypeError ->
        handle_pagination tr w layer_list_payload = inl TypeError)
    /\ (as_number page = inl TypeError
        /\ (exists a b,
               total = PyInt a /\ page_size = PyInt b
               /\ - float_exact < a < float_exact
               /\ - float_exact < b < float_exact /\ b <> 0) ->
        handle_pagination tr w layer_list_payload = inl TypeError).
Proof.
  intros w payload page total page_size.
  unfold handle_pagination. fold page total page_size.
  unfold ceil_truediv. split; [|split].
  - intros [[a ->] ->]. reflexivity.
  - intros [H|H].
    + destruct total as [|a|s|l]; cbn in H |- *; try reflexivity.
      discriminate.
    + destruct total as [|a|s|l]; cbn; try reflexivity.
      destruct page_size as [|b|s|l]; cbn in H |- *; try reflexivity.
      discriminate.
  - intros (Hpage & a & b & -> & -> & Ha & Hb & Hb0).
    cbn [as_number bind ret].
    destruct (Z.eqb_spec b 0); [contradiction|].
    destruct (ceil_of_float_quotient a b Ha Hb Hb0) as (x & -> & _).
    cbn [bind ret].
    destruct page as [|p|s|l]; cbn in Hpage |- *; try reflexivity.
    discriminate.
Qed.

Lemma clicks_snoc (w : state) (cs : list paging) (c : paging) :
  clicks tr w (cs ++ [c]) = click tr (clicks tr w cs) c.
Proof. unfold clicks. now rewrite fold_left_app. Qed.

(** X21.  From page 1 on, a click on next followed by a click on previous
    leads back to the page; a click on previous followed by a click on
    next leads back to the page from page 2 on, and from page 1 to
    page 2. *)
Theorem next_and_previous_undo_each_other :
  forall w : state,
    1 <= current_page w ->
    current_page (request_previous_page tr (request_next_page tr w))
    = current_page w
    /\ current_page (request_next_page tr (request_previous_page tr w))
       = Z.max (current_page w) 2.
Proof.
  intros w Hw. cbn. split; lia.
Qed.

(** X22.  The next-page button is not held back by the number of pages:
    [n] clicks on it lead [n] pages further, and each click asks the
    client for the page it leads to. *)
Theorem next_page_is_unbounded :
  forall (w : state) (n : nat),
    current_page (clicks tr w (repeat NextPage n))
    = current_page w + Z.of_nat n
    /\ searches (clicks tr w (repeat NextPage n))
       = (searches w
          ++ map (fun k => current_page w + Z.of_nat k) (seq 1 n))%list.
Proof.
  intros w n. revert w. induction n as [|n IH]; intros w.
  - cbn. split; [lia|]. now rewrite app_nil_r.
  - cbn [repeat clicks fold_left]. fold (clicks tr (click tr w NextPage)
                                           (repeat NextPage n)).
    destruct (IH (click tr w NextPage)) as [Hp Hs]. rewrite Hp, Hs.
    cbn [click request_next_page search_geonode with_current_page
         current_page searches].
    split; [lia|]. rewrite <- app_assoc. f_equal. cbn [app seq map].
    f_equal.
    rewrite <- (seq_shift n 1), map_map. apply map_ext. intros k. lia.
Qed.

(** X23.  Every click on a paging button makes one search, for the page
    that the widget is on afterwards, and leaves the search button and
    both paging buttons disabled. *)
Theorem every_click_searches_current_page :
  forall (w : state) (cs : list paging) (c : paging),
    let w' := clicks tr w (cs ++ [c]) in
    length (searches w') = (length (searches w) + length cs + 1)%nat
    /\ last (searches w') = Some (current_page w')
    /\ search_btn_enabled w' = false
    /\ next_btn_enabled w' = false
    /\ previous_btn_enabled w' = false
    /\ resultsLabel w' = resultsLabel w.
Proof.
  intros w cs c w'. subst w'. rewrite clicks_snoc.
  assert (Hlen : forall cs w,
             length (searches (clicks tr w cs))
             = (length (searches w) + length cs)%nat
             /\ resultsLabel (clicks tr w cs) = resultsLabel w).
  { clear. induction cs as [|c cs IH]; intros w; cbn.
    - split; [lia|reflexivity].
    - fold (clicks tr (click tr w c) cs).
      destruct (IH (click tr w c)) as [Hl Hr]. rewrite Hl, Hr.
      destruct c; cbn; rewrite length_app; cbn; split; (lia || reflexivity). }
  destruct (Hlen cs w) as [Hl Hr].
  destruct c; cbn; rewrite length_app, Hl, last_snoc, Hr; cbn;
    repeat split; lia.
Qed.

End PagingMore.

(** ** Deleting a connection *)

Lemma nth_error_is_lookup {A : Type} (l : list A) :
  forall i : nat, nth_error l i = l !! i.
Proof.
  induction l as [|a l IH]; intros [|i]; cbn; auto.
Qed.

Lemma list_index_lookup {A : Type} (l : list A) (i : nat) (x : A) :
  l !! i = Some x -> list_index l (Z.of_nat i) = inr x.
Proof.
  intros Hx. pose proof (lookup_lt_Some _ _ _ Hx) as Hlt.
  unfold list_index.
  destruct (Z.ltb_spec (Z.of_nat i) 0); [lia|].
  destruct (Z.ltb_spec (Z.of_nat i) 0); [lia|].
  destruct (Z.leb_spec (Z.of_nat (length l)) (Z.of_nat i)); [lia|].
  cbn [orb]. now rewrite Nat2Z.id, nth_error_is_lookup, Hx.
Qed.

Lemma list_index_beyond {A : Type} (l : list A) (i : Z) :
  Z.of_nat (length l) <= i -> list_index l i = inl IndexError.
Proof.
  intros Hi. unfold list_index.
  destruct (Z.ltb_spec i 0); [lia|].
  destruct (Z.ltb_spec i 0); [lia|].
  destruct (Z.leb_spec (Z.of_nat (length l)) i); [reflexivity|lia].
Qed.

Section DeletingConnections.

Import Base Gui.Connections.

(** X24.  When the deletion is confirmed for the connection shown at the
    index of the combo box, the connection is deleted and then a
    neighbour is made the current connection: the one before it, or the
    second one when the first is deleted.  No connection is made current
    exactly when the deleted one was the only one; with distinct ids, the
    connection made current is never the deleted one. *)
Theorem delete_connection_selects_neighbour :
  forall (existing_connections : list ConnectionSettings.t) (i : nat)
         (current : ConnectionSettings.t),
    existing_connections !! i = Some current ->
    NoDup (ConnectionSettings.id <$> existing_connections) ->
    let neighbour :=
      match i with
      | O => existing_connections !! 1%nat
      | S before => existing_connections !! before
      end in
    delete_connection (Some current) true existing_connections (Z.of_nat i)
    = inr (delete_connection_called (ConnectionSettings.id current)
           :: match neighbour with
              | Some c =>
                  [set_current_connection_called (ConnectionSettings.id c)]
              | None => []
              end)
    /\ (neighbour = None <-> length existing_connections = 1%nat)
    /\ match neighbour with
       | Some c => ConnectionSettings.id c <> ConnectionSettings.id current
       | None => True
       end.
Proof.
  intros existing i current Hcur Hnodup neighbour.
  pose proof (lookup_lt_Some _ _ _ Hcur) as Hlen.
  assert (Hdiff : forall j c, existing !! j = Some c -> j <> i ->
                              ConnectionSettings.id c
                              <> ConnectionSettings.id current).
  { intros j c Hj Hji Heq. apply Hji.
    apply (NoDup_lookup _ j i (ConnectionSettings.id current) Hnodup).
    - rewrite list_lookup_fmap, Hj. cbn. now rewrite Heq.
    - now rewrite list_lookup_fmap, Hcur. }
  unfold delete_connection, next_current_connection.
  destruct i as [|before]; subst neighbour.
  - change (Z.of_nat 0) with 0. change (0 <? 0) with false.
    change (0 =? 0) with true. cbn [andb].
    destruct (existing !! 1%nat) as [c|] eqn:Hsecond.
    + pose proof (lookup_lt_Some _ _ _ Hsecond) as Hlen2.
      destruct (Z.ltb_spec 1 (Z.of_nat (length existing))); [|lia].
      pose proof (list_index_lookup _ _ _ Hsecond) as Hidx.
      change (Z.of_nat 1) with (0 + 1) in Hidx. rewrite Hidx. cbn.
      split; [reflexivity|]. split.
      * split; [discriminate|lia].
      * apply (Hdiff 1%nat); [exact Hsecond|lia].
    + apply lookup_ge_None in Hsecond.
      destruct (Z.ltb_spec 1 (Z.of_nat (length existing))); [lia|]. cbn.
      split; [reflexivity|]. split; [|exact I]. split; [lia|reflexivity].
  - destruct (Z.ltb_spec 0 (Z.of_nat (S before))); [|lia].
    replace (Z.of_nat (S before) - 1) with (Z.of_nat before) by lia.
    destruct (existing !! before) as [c|] eqn:Hbefore.
    + rewrite (list_index_lookup _ _ _ Hbefore). cbn.
      split; [reflexivity|]. split.
      * split; [discriminate|lia].
      * apply (Hdiff before); [exact Hbefore|lia].
    + apply lookup_ge_None in Hbefore. lia.
Qed.

(** X25.  When the deletion is declined, nothing is asked of the
    connections manager, whatever the combo box shows.  When it is
    confirmed: with an index greater than the number of connections,
    [IndexError] is raised before anything is deleted; with an index
    equal to the number of connections, one past the last, nothing is
    raised, the connection found is deleted and the last connection of the
    list is made current, which is the deleted one if that is the last;
    with a negative index the connection found is deleted and none is made
    current. *)
Theorem delete_connection_declined_or_out_of_range :
  forall (current_connection : option ConnectionSettings.t)
         (existing_connections : list ConnectionSettings.t)
         (current_index : Z),
    delete_connection current_connection false existing_connections
                      current_index
    = inr []
    /\ (Z.of_nat (length existing_connections) < current_index ->
        delete_connection current_connection true existing_connections
                          current_index
        = inl IndexError)
    /\ (forall current final : ConnectionSettings.t,
           current_connection = Some current ->
           current_index = Z.of_nat (length existing_connections) ->
           last existing_connections = Some final ->
           delete_connection current_connection true existing_connections
                             current_index
           = inr [delete_connection_called (ConnectionSettings.id current);
                  set_current_connection_called (ConnectionSettings.id final)])
    /\ (forall current : ConnectionSettings.t,
           current_connection = Some current ->
           current_index < 0 ->
           delete_connection current_connection true existing_connections
                             current_index
           = inr [delete_connection_called (ConnectionSettings.id current)]).
Proof.
  intros current existing index. split; [reflexivity|]. split; [|split].
  - intros Hbeyond. unfold delete_connection, next_current_connection.
    destruct (Z.ltb_spec 0 index); [|lia].
    rewrite list_index_beyond by lia. reflexivity.
  - intros c final -> -> Hlast.
    unfold delete_connection, next_current_connection.
    assert (Hlen : (0 < length existing)%nat).
    { destruct existing; [discriminate|cbn; lia]. }
    destruct (Z.ltb_spec 0 (Z.of_nat (length existing))); [|lia].
    replace (Z.of_nat (length existing) - 1)
      with (Z.of_nat (length existing - 1)) by lia.
    rewrite last_lookup in Hlast.
    replace (Init.Nat.pred (length existing)) with (length existing - 1)%nat
      in Hlast by lia.
    rewrite (list_index_lookup _ _ _ Hlast). reflexivity.
  - intros c -> Hneg. unfold delete_connection, next_current_connection.
    destruct (Z.ltb_spec 0 index); [lia|].
    destruct (Z.eqb_spec index 0); [lia|]. reflexivity.
Qed.

End DeletingConnections.

(** ** Loading a search result *)

Section Loading.

Import SearchResult.

Variable tr : string -> string.
Variable isValid : layer -> bool.

(** X26.  Each of the three loaders leaves the other two buttons alone.
    When the resource has no URL for the service, the loader raises
    [KeyError] with its button left disabled, and neither reports nor
    requests anything.  Otherwise it returns with its button enabled, and
    has either reported an invalid layer on the message bar or asked for
    the details of the resource, never both. *)
Theorem loaders_report_or_request :
  forall (b : button) (service : string)
         (load : state -> state * option error) (w : state) (other : button),
    In (b, service, load) (loaders tr isValid) ->
    let w' := fst (load w) in
    let raised := snd (load w) in
    (other = b \/ isEnabled other w' = isEnabled other w)
    /\ match service_urls (geonode_resource w) !! service with
       | None =>
           raised = Some (KeyError service)
           /\ isEnabled b w' = false
           /\ message_bar w' = message_bar w
           /\ layer_details_requested w' = layer_details_requested w
       | Some _ =>
           raised = None
           /\ isEnabled b w' = true
           /\ ((message_bar w' = message_bar w
                /\ layer_details_requested w'
                   = (layer_details_requested w
                      ++ [pk (geonode_resource w)])%list)
               \/ (message_bar w'
                   = (message_bar w
                      ++ [tr "Problem loading layer, couldn't add an invalid layer"])%list
                   /\ layer_details_requested w'
                      = layer_details_requested w))
       end.
Proof.
  intros b service load w other Hin w' raised. subst w' raised.
  cbn in Hin.
  destruct Hin as [[= <- <- <-]|[[= <- <- <-]|[[= <- <- <-]|[]]]];
    unfold load_map_resource, load_raster_layer, load_vector_layer,
      load_with, dict_item, load_layer, get_layer; cbn;
    (destruct (service_urls (geonode_resource w) !! _) as [uri|]; cbn;
     [destruct (isValid _); cbn|]);
    (split; [destruct other; auto|]); repeat split; auto.
Qed.

End Loading.

(** ** The further properties at concrete inputs *)

Lemma run_disconnects_own_slot_only_witness :
  Base.is_connected (Base.MyNetworkFetcherTask.self Sample.task)
    Sample.manager1 = true
  /\ Base.is_connected (Base.MyNetworkFetcherTask.self Sample.task)
       (Base.MyNetworkFetcherTask.manager_after
          (Base.MyNetworkFetcherTask.run Base.parse_network_reply_spec
             Sample.readAll Sample.updateNetworkRequest Sample.task
             Sample.manager1 [(120, Sample.not_found)]))
     = false.
Proof.
  split; [reflexivity|].
  exact (proj1 (run_disconnects_own_slot_only Base.parse_network_reply_spec
                  Sample.readAll Sample.updateNetworkRequest Sample.task
                  Sample.manager1 [(120, Sample.not_found)] 2%nat eq_refl)).
Defined.

Lemma second_run_raises_witness :
  Base.is_connected (Base.MyNetworkFetcherTask.self Sample.task)
    Sample.manager1 = true
  /\ let o1 :=
       Base.MyNetworkFetcherTask.run Base.parse_network_reply_spec
         Sample.readAll Sample.updateNetworkRequest Sample.task
         Sample.manager1 [(120, Sample.not_found)] in
     Base.MyNetworkFetcherTask.returned
       (Base.MyNetworkFetcherTask.run Base.parse_network_reply_spec
          Sample.readAll Sample.updateNetworkRequest
          (Base.MyNetworkFetcherTask.task_after o1)
          (Base.MyNetworkFetcherTask.manager_after o1)
          [(130, Sample.not_found)])
     = inl TypeError.
Proof.
  split; [reflexivity|].
  exact (proj1 (second_run_raises Base.parse_network_reply_spec
                  Sample.readAll Sample.updateNetworkRequest Sample.task
                  Sample.manager1 [(120, Sample.not_found)]
                  [(130, Sample.not_found)] eq_refl)).
Defined.

Lemma run_stops_at_own_completion_witness :
  Base.is_connected (Base.MyNetworkFetcherTask.self Sample.task)
    Sample.manager1 = true
  /\ Base.requestId Sample.not_found = Base.requests_created Sample.manager1
  /\ Base.MyNetworkFetcherTask.run Base.parse_network_reply_spec
       Sample.readAll Sample.updateNetworkRequest Sample.task Sample.manager1
       ([(50, Sample.other_completion)] ++ (120, Sample.not_found)
          :: [(200, Sample.other_completion)])
     = Base.MyNetworkFetcherTask.run Base.parse_network_reply_spec
         Sample.readAll Sample.updateNetworkRequest Sample.task
         Sample.manager1
         ([(50, Sample.other_completion)] ++ [(120, Sample.not_found)]).
Proof.
  split; [reflexivity|]. split; [reflexivity|].
  exact (run_stops_at_own_completion Base.parse_network_reply_spec
           Sample.readAll Sample.updateNetworkRequest Sample.task
           Sample.manager1 [(50, Sample.other_completion)]
           [(200, Sample.other_completion)] 120 Sample.not_found
           eq_refl eq_refl).
Defined.

Lemma run_with_foreign_completions_only_witness :
  Base.MyNetworkFetcherTask.left_loop
    (Base.MyNetworkFetcherTask.run Base.parse_network_reply_spec
       Sample.readAll Sample.updateNetworkRequest Sample.task Sample.manager1
       [(50, Sample.other_completion)])
  = TimerExpired default_timeout.
Proof.
  refine (proj2 (run_with_foreign_completions_only
                   Base.parse_network_reply_spec Sample.readAll
                   Sample.updateNetworkRequest Sample.task Sample.manager1
                   [(50, Sample.other_completion)] _)).
  constructor; [cbn; lia|constructor].
Defined.

Lemma run_leaves_late_completions_witness :
  default_timeout <= 10000
  /\ Base.MyNetworkFetcherTask.run Base.parse_network_reply_spec
       Sample.readAll Sample.updateNetworkRequest Sample.task Sample.manager1
       ([(50, Sample.other_completion)] ++ (10000, Sample.not_found) :: [])
     = Base.MyNetworkFetcherTask.run Base.parse_network_reply_spec
         Sample.readAll Sample.updateNetworkRequest Sample.task
         Sample.manager1 [(50, Sample.other_completion)].
Proof.
  assert (Hlate : default_timeout <= 10000) by (unfold default_timeout; lia).
  split; [exact Hlate|].
  exact (run_leaves_late_completions Base.parse_network_reply_spec
           Sample.readAll Sample.updateNetworkRequest Sample.task
           Sample.manager1 [(50, Sample.other_completion)] [] 10000
           Sample.not_found Hlate).
Defined.

Lemma run_reads_the_reply_of_its_request_witness :
  Base.MyNetworkFetcherTask.parsed_reply
    (Base.MyNetworkFetcherTask.task_after
       (Base.MyNetworkFetcherTask.run Base.parse_network_reply_spec
          Sample.readAll Sample.updateNetworkRequest Sample.task
          Sample.manager1
          ([(50, Sample.other_completion)] ++ (120, Sample.not_found) :: [])))
  = Some (Base.parse_network_reply_spec Sample.not_found).
Proof.
  refine (proj1 (proj2 (run_reads_the_reply_of_its_request
                          Base.parse_network_reply_spec Sample.readAll
                          Sample.updateNetworkRequest Sample.task
                          Sample.manager1 [(50, Sample.other_completion)] []
                          120 Sample.not_found eq_refl _ _ eq_refl _))).
  - constructor; [cbn; lia|constructor].
  - unfold default_timeout; lia.
  - constructor; [cbn; unfold default_timeout; lia|constructor].
Defined.

Lemma every_request_submits_one_task_witness :
  Base.Requests.get_layer_style unit 1%nat Scenario.roads None
    Scenario.application
  = inr (@Base.Requests.submit unit 1%nat
           (Base.Requests.request_for (Base.Style.sld_url Scenario.day)) None
           (Base.Requests.on_layer_style_detail unit) Scenario.application)
  /\ Base.Requests.network_fetcher_task unit
       (@Base.Requests.submit unit 1%nat
          (Base.Requests.request_for (Base.Style.sld_url Scenario.day)) None
          (Base.Requests.on_layer_style_detail unit) Scenario.application)
     = Some 1%nat.
Proof.
  split; [reflexivity|].
  refine (proj1 (every_request_submits_one_task unit tt
                   Base.Requests.base_url_endpoint
                   Base.Requests.base_request_payload
                   Base.Requests.base_url_endpoint
                   Base.Requests.base_url_endpoint
                   Base.Requests.base_url_endpoint
                   Base.Requests.base_request_payload
                   1%nat Scenario.application _ None tt 0 0 Scenario.roads
                   None _)).
  right. right. right. left. reflexivity.
Defined.

Lemma get_layer_style_requests_chosen_style_witness :
  Base.Requests.chosen_style Scenario.roads (Some "roads_night")
    Scenario.night
  /\ exists (w' : Base.Requests.application unit)
            (t : Base.MyNetworkFetcherTask.state),
      Base.Requests.get_layer_style unit 1%nat Scenario.roads
        (Some "roads_night") Scenario.application = inr w'
      /\ Base.Requests.tasks unit w' !! 1%nat = Some t
      /\ Base.MyNetworkFetcherTask.request t
         = Base.Requests.request_for (Base.Style.sld_url Scenario.night)
      /\ Base.MyNetworkFetcherTask.request_payload t = None
      /\ Base.Requests.request_finished_slots unit w'
         = (Base.Requests.request_finished_slots unit Scenario.application
            ++ [(1%nat, Base.Requests.on_layer_style_detail unit)])%list.
Proof.
  assert (Hchosen : Base.Requests.chosen_style Scenario.roads
                      (Some "roads_night") Scenario.night).
  { exists [Scenario.day], []. split; [reflexivity|]. split; [reflexivity|].
    constructor; [cbn; discriminate|constructor]. }
  split; [exact Hchosen|].
  exact (get_layer_style_requests_chosen_style unit 1%nat Scenario.roads
           (Some "roads_night") Scenario.night Scenario.application Hchosen).
Defined.

Lemma get_layer_style_unknown_name_witness :
  Base.Requests.get_layer_style unit 1%nat Scenario.roads (Some "contours")
    Scenario.application
  = inl IndexError.
Proof.
  apply (get_layer_style_unknown_name unit 1%nat Scenario.roads "contours"
           Scenario.application).
  constructor; [cbn; discriminate|].
  constructor; [cbn; discriminate|constructor].
Defined.

Lemma client_tasks_are_always_authenticated_witness :
  Base.Requests.chosen_style Scenario.roads None Scenario.day
  /\ exists (w1 w2 : Base.Requests.application unit)
            (o : Base.MyNetworkFetcherTask.outcome)
            (t' : Base.MyNetworkFetcherTask.state),
      Base.Requests.get_layer_style unit 1%nat Scenario.roads None
        Scenario.application = inr w1
      /\ @Base.Requests.run_task unit Base.parse_network_reply_spec
           Sample.readAll Sample.updateNetworkRequest 1%nat
           [(120, Sample.not_found)] w1 = Some (o, w2)
      /\ Base.Requests.tasks unit w2 !! 1%nat = Some t'
      /\ Base.MyNetworkFetcherTask.request t'
         = Sample.updateNetworkRequest
             (Base.Requests.request_for (Base.Style.sld_url Scenario.day))
             (Base.Requests.auth_config unit Scenario.application)
      /\ Base.Requests.network_fetcher_task unit w2 = Some 1%nat.
Proof.
  split; [reflexivity|].
  exact (client_tasks_are_always_authenticated unit
           Base.parse_network_reply_spec Sample.readAll
           Sample.updateNetworkRequest 1%nat Scenario.roads None Scenario.day
           Scenario.application [(120, Sample.not_found)] eq_refl).
Defined.

Lemma slot_reads_the_latest_task_witness :
  1%nat <> 2%nat
  /\ exists (w1 w2 w3 : Base.Requests.application unit)
            (o : Base.MyNetworkFetcherTask.outcome)
            (latest : Base.MyNetworkFetcherTask.state),
      Base.Requests.get_layer_style unit 1%nat Scenario.roads None
        Scenario.application = inr w1
      /\ Base.Requests.get_layer_style unit 2%nat Scenario.rivers None w1
         = inr w2
      /\ @Base.Requests.run_task unit Base.parse_network_reply_spec
           Sample.readAll Sample.updateNetworkRequest 1%nat
           [(120, Sample.not_found)] w2 = Some (o, w3)
      /\ Base.BaseGeonodeClient.network_fetcher_task
           (Base.Requests.client unit w3) = Some latest
      /\ Base.MyNetworkFetcherTask.self latest = 2%nat
      /\ Base.MyNetworkFetcherTask.request latest
         = Base.Requests.request_for (Base.Style.sld_url Scenario.night)
      /\ Base.MyNetworkFetcherTask.reply_content latest = None
      /\ Base.Requests.style_request_finished unit Sample.setContent w3
         = Base.Requests.style_request_finished unit Sample.setContent w2.
Proof.
  assert (Hne : 1%nat <> 2%nat) by lia.
  split; [exact Hne|].
  exact (slot_reads_the_latest_task unit Base.parse_network_reply_spec
           Sample.readAll Sample.updateNetworkRequest Sample.setContent
           1%nat 2%nat Scenario.roads Scenario.rivers None None Scenario.day
           Scenario.night Scenario.application [(120, Sample.not_found)]
           Hne eq_refl eq_refl).
Defined.

Lemma style_slot_reads_own_reply_witness :
  Base.requestId Sample.not_found
  = Base.requests_created
      (Base.Requests.manager unit Scenario.application)
  /\ exists (w1 w2 : Base.Requests.application unit)
            (o : Base.MyNetworkFetcherTask.outcome)
            (t' : Base.MyNetworkFetcherTask.state),
      Base.Requests.get_layer_style unit 1%nat Scenario.roads None
        Scenario.application = inr w1
      /\ @Base.Requests.run_task unit Base.parse_network_reply_spec
           Sample.readAll Sample.updateNetworkRequest 1%nat
           ([(50, Sample.other_completion)] ++ (120, Sample.not_found) :: [])
           w1 = Some (o, w2)
      /\ Base.BaseGeonodeClient.network_fetcher_task
           (Base.Requests.client unit w2) = Some t'
      /\ Base.MyNetworkFetcherTask.reply_content t'
         = Some (Sample.readAll
                   {| Base.property_requestId :=
                        Base.requests_created
                          (Base.Requests.manager unit Scenario.application);
                      Base.operation := Base.GetOperation;
                      Base.request_of_reply :=
                        Sample.updateNetworkRequest
                          (Base.Requests.request_for
                             (Base.Style.sld_url Scenario.day))
                          (Base.Requests.auth_config unit
                             Scenario.application) |})
      /\ Base.MyNetworkFetcherTask.parsed_reply t'
         = Some (Base.parse_network_reply_spec Sample.not_found).
Proof.
  split; [reflexivity|].
  refine (style_slot_reads_own_reply unit Base.parse_network_reply_spec
            Sample.readAll Sample.updateNetworkRequest 1%nat Scenario.roads
            None Scenario.day Scenario.application
            [(50, Sample.other_completion)] [] 120 Sample.not_found
            eq_refl _ _ eq_refl _).
  - constructor; [cbn; lia|constructor].
  - unfold default_timeout; lia.
  - constructor; [cbn; unfold default_timeout; lia|constructor].
Defined.

Lemma pagination_buttons_follow_payload_witness :
  - Gui.float_exact < 25 < Gui.float_exact
  /\ 0 < 10 < Gui.float_exact
  /\ exists w' : Gui.GeonodeDataSourceWidget.state,
      Gui.GeonodeDataSourceWidget.handle_pagination (fun s => s)
        (Gui.GeonodeDataSourceWidget.__init__ true) Sample.payload = inr w'
      /\ Gui.GeonodeDataSourceWidget.current_page w' = 2
      /\ (Gui.GeonodeDataSourceWidget.previous_btn_enabled w' = true
          <-> 1 < 2)
      /\ (Gui.GeonodeDataSourceWidget.next_btn_enabled w' = true
          <-> 2 * 10 < 25)
      /\ (25 <= 0 ->
          Gui.GeonodeDataSourceWidget.resultsLabel w' = "No results found")
      /\ Gui.GeonodeDataSourceWidget.search_btn_enabled w'
         = Gui.GeonodeDataSourceWidget.search_btn_enabled
             (Gui.GeonodeDataSourceWidget.__init__ true)
      /\ Gui.GeonodeDataSourceWidget.message_bar w'
         = Gui.GeonodeDataSourceWidget.message_bar
             (Gui.GeonodeDataSourceWidget.__init__ true)
      /\ Gui.GeonodeDataSourceWidget.searches w'
         = Gui.GeonodeDataSourceWidget.searches
             (Gui.GeonodeDataSourceWidget.__init__ true).
Proof.
  assert (Htotal : - Gui.float_exact < 25 < Gui.float_exact)
    by (unfold Gui.float_exact; lia).
  assert (Hsize : 0 < 10 < Gui.float_exact)
    by (unfold Gui.float_exact; lia).
  split; [exact Htotal|]. split; [exact Hsize|].
  refine (pagination_buttons_follow_payload (fun s => s)
            (Gui.GeonodeDataSourceWidget.__init__ true) Sample.payload
            2 25 10 _ _ _ Htotal Hsize); vm_compute; reflexivity.
Defined.

Lemma pagination_defaults_witness :
  exists w' : Gui.GeonodeDataSourceWidget.state,
    Gui.GeonodeDataSourceWidget.handle_pagination (fun s => s)
      (Gui.GeonodeDataSourceWidget.__init__ true) ∅ = inr w'
    /\ Gui.GeonodeDataSourceWidget.current_page w' = 1
    /\ Gui.GeonodeDataSourceWidget.previous_btn_enabled w' = false
    /\ Gui.GeonodeDataSourceWidget.next_btn_enabled w' = false
    /\ Gui.GeonodeDataSourceWidget.resultsLabel w' = "No results found".
Proof.
  refine (pagination_defaults (fun s => s)
            (Gui.GeonodeDataSourceWidget.__init__ true) ∅ _ _ _);
    vm_compute; reflexivity.
Defined.

Lemma next_and_previous_undo_each_other_witness :
  1 <= Gui.GeonodeDataSourceWidget.current_page
         (Gui.GeonodeDataSourceWidget.__init__ true)
  /\ Gui.GeonodeDataSourceWidget.current_page
       (Gui.GeonodeDataSourceWidget.request_previous_page (fun s => s)
          (Gui.GeonodeDataSourceWidget.request_next_page (fun s => s)
             (Gui.GeonodeDataSourceWidget.__init__ true)))
     = Gui.GeonodeDataSourceWidget.current_page
         (Gui.GeonodeDataSourceWidget.__init__ true).
Proof.
  assert (Hpage : 1 <= Gui.GeonodeDataSourceWidget.current_page
                         (Gui.GeonodeDataSourceWidget.__init__ true))
    by (cbn; lia).
  split; [exact Hpage|].
  exact (proj1 (next_and_previous_undo_each_other (fun s => s)
                  (Gui.GeonodeDataSourceWidget.__init__ true) Hpage)).
Defined.

Lemma delete_connection_selects_neighbour_witness :
  Scenario.connections !! 1%nat = Some (Scenario.connection 12 "staging")
  /\ Gui.Connections.delete_connection
       (Some (Scenario.connection 12 "staging")) true Scenario.connections 1
     = inr [Gui.Connections.delete_connection_called 12;
            Gui.Connections.set_current_connection_called 11].
Proof.
  split; [reflexivity|].
  refine (proj1 (delete_connection_selects_neighbour Scenario.connections
                   1%nat (Scenario.connection 12 "staging") eq_refl _)).
  apply (@bool_decide_unpack
           (NoDup (Base.ConnectionSettings.id <$> Scenario.connections)) _).
  vm_compute. exact I.
Defined.

Lemma loaders_report_or_request_witness :
  In (SearchResult.wms_btn, "wms",
      SearchResult.load_map_resource (fun s => s) Scenario.isValid)
     (SearchResult.loaders (fun s => s) Scenario.isValid)
  /\ (SearchResult.wcs_btn = SearchResult.wms_btn
      \/ SearchResult.isEnabled SearchResult.wcs_btn
           (fst (SearchResult.load_map_resource (fun s => s) Scenario.isValid
                   Scenario.result_widget))
         = SearchResult.isEnabled SearchResult.wcs_btn Scenario.result_widget).
Proof.
  assert (Hin : In (SearchResult.wms_btn, "wms",
                    SearchResult.load_map_resource (fun s => s)
                      Scenario.isValid)
                   (SearchResult.loaders (fun s => s) Scenario.isValid))
    by (left; reflexivity).
  split; [exact Hin|].
  exact (proj1 (loaders_report_or_request (fun s => s) Scenario.isValid
                  SearchResult.wms_btn "wms"
                  (SearchResult.load_map_resource (fun s => s)
                     Scenario.isValid)
                  Scenario.result_widget SearchResult.wcs_btn Hin)).
Defined.

Lemma same_header_name_refl (a : string) : Scenario.same_header_name a a = true.
Proof. apply String.eqb_refl. Qed.

Lemma same_header_name_sym (a b : string) :
  Scenario.same_header_name a b = Scenario.same_header_name b a.
Proof. apply String.eqb_sym. Qed.

Lemma same_header_name_trans (a b c : string) :
  Scenario.same_header_name a b = true ->
  Scenario.same_header_name b c = true ->
  Scenario.same_header_name a c = true.
Proof.
  unfold Scenario.same_header_name. rewrite !String.eqb_eq. congruence.
Qed.

Lemma blocking_post_sets_content_type_witness :
  Scenario.same_header_name "content-type" Base.ContentTypeHeader = true
  /\ exists (result : bool) (t' : Base.NetworkFetcherTask.state),
      Base.NetworkFetcherTask.run Base.parse_network_reply_spec
        Scenario.same_header_name (fun _ _ => Sample.not_found)
        (fun _ _ _ => Sample.not_found) (fun _ => "Not Found")
        (Base.NetworkFetcherTask.__init__ Scenario.json_request
           (Some "name=roads") None)
      = inr (result, t')
      /\ Base.rawHeader Scenario.same_header_name "content-type"
           (Base.NetworkFetcherTask.request t')
         = Some "application/x-www-form-urlencoded".
Proof.
  split; [reflexivity|].
  destruct (blocking_post_sets_content_type Base.parse_network_reply_spec
              Scenario.same_header_name (fun _ _ => Sample.not_found)
              (fun _ _ _ => Sample.not_found) (fun _ => "Not Found")
              (Base.NetworkFetcherTask.__init__ Scenario.json_request
                 (Some "name=roads") None)
              "content-type" same_header_name_refl same_header_name_sym
              same_header_name_trans)
    as (result & t' & Hrun & _ & _ & Hheader).
  exists result, t'. split; [exact Hrun|]. exact Hheader.
Defined.

(** ** Style documents that cannot be used *)

Section StyleFailures.

Import Base Base.Requests.

Variable Parameters_ : Type.
Variable parse_network_reply : QgsNetworkReplyContent -> ParsedNetworkReply.
Variable readAll : QNetworkReply -> QByteArray.
Variable updateNetworkRequest : QNetworkRequest -> string -> QNetworkRequest.
Variable setContent : option QByteArray -> bool -> bool * QDomDocument.

Abbreviation run_task_ :=
  (@run_task Parameters_ parse_network_reply readAll updateNetworkRequest).

(** C6, as amended.  When the document loaded from the content of the
    task that the client refers to has no root element, or a root without
    a [NamedLayer] child, [handle_layer_style_detail] raises a
    [RuntimeError] and does not emit [style_detail_received]; when the
    test of what [setContent] returned lets the handler go on, the message
    is the one of the handler.  The failure is that of the task the client
    refers to when the slot runs, which is the task of the latest request:
    when a second style request was made before the first task ran and the
    second task has run, the slot called as the first task finishes reads
    the second task, and raises without emitting if the document of the
    second task cannot be used, whatever the first task received. *)
Theorem malformed_sld_raises_without_emitting :
  (forall (c : BaseGeonodeClient.state) (task : MyNetworkFetcherTask.state),
      BaseGeonodeClient.network_fetcher_task c = Some task ->
      BaseGeonodeClient.unusable setContent task ->
      (exists message : string,
          BaseGeonodeClient.handle_layer_style_detail setContent c
          = ([], inl (RuntimeError message)))
      /\ (fst (setContent (MyNetworkFetcherTask.reply_content task) true)
          = true ->
          BaseGeonodeClient.handle_layer_style_detail setContent c
          = ([], inl (RuntimeError
                        "Could not parse downloaded SLD document"))))
  /\ forall (first second : nat) (layer1 layer2 : GeonodeResource.t)
            (name1 name2 : option string) (style1 style2 : Style.t)
            (w : application Parameters_)
            (queue1 queue2 : list (Z * QgsNetworkReplyContent)),
      first <> second ->
      chosen_style layer1 name1 style1 ->
      chosen_style layer2 name2 style2 ->
      exists (w1 w2 w3 w4 : application Parameters_)
             (o1 o2 : MyNetworkFetcherTask.outcome),
        @get_layer_style Parameters_ first layer1 name1 w = inr w1
        /\ @get_layer_style Parameters_ second layer2 name2 w1 = inr w2
        /\ run_task_ second queue2 w2 = Some (o2, w3)
        /\ run_task_ first queue1 w3 = Some (o1, w4)
        /\ BaseGeonodeClient.network_fetcher_task (client _ w4)
           = Some (MyNetworkFetcherTask.task_after o2)
        /\ (BaseGeonodeClient.unusable setContent
              (MyNetworkFetcherTask.task_after o2) ->
            exists message : string,
              @style_request_finished Parameters_ setContent w4
              = ([], inl (RuntimeError message))).
Proof.
  split.
  - intros c task Htask Hbad.
    exact (style_handler_fails_on_malformed setContent c task Htask Hbad).
  - intros first second layer1 layer2 name1 name2 style1 style2 w
           queue1 queue2 Hne Hc1 Hc2.
    destruct (get_layer_style_requests_chosen_style_aux Parameters_ first
                layer1 name1 style1 w Hc1)
      as (w1 & t1 & Hget1 & Ht1 & _ & _ & _ & _ & _ & _ & _ & Hw1).
    destruct (get_layer_style_requests_chosen_style_aux Parameters_ second
                layer2 name2 style2 w1 Hc2)
      as (w2 & t2 & Hget2 & Ht2 & _ & _ & Hnft2 & _ & _ & _ & _ & Hw2).
    assert (Hfirst : tasks _ w2 !! first = Some t1).
    { rewrite Hw2. unfold submit at 1. cbn.
      rewrite lookup_insert_ne by congruence. exact Ht1. }
    set (o2 := MyNetworkFetcherTask.run parse_network_reply readAll
                 updateNetworkRequest t2 (manager _ w2) queue2).
    set (w3 :=
      {| auth_config := auth_config _ w2;
         base_url := base_url _ w2;
         network_fetcher_task := network_fetcher_task _ w2;
         tasks := <[second := MyNetworkFetcherTask.task_after o2]>
                    (tasks _ w2);
         manager := MyNetworkFetcherTask.manager_after o2;
         request_finished_slots := request_finished_slots _ w2;
         task_manager := task_manager _ w2 |}).
    assert (Hrun2 : run_task_ second queue2 w2 = Some (o2, w3)).
    { unfold run_task. rewrite Ht2. reflexivity. }
    assert (Hfirst3 : tasks _ w3 !! first = Some t1).
    { unfold w3; cbn [tasks].
      rewrite lookup_insert_ne by congruence. exact Hfirst. }
    set (o1 := MyNetworkFetcherTask.run parse_network_reply readAll
                 updateNetworkRequest t1 (manager _ w3) queue1).
    set (w4 :=
      {| auth_config := auth_config _ w3;
         base_url := base_url _ w3;
         network_fetcher_task := network_fetcher_task _ w3;
         tasks := <[first := MyNetworkFetcherTask.task_after o1]>
                    (tasks _ w3);
         manager := MyNetworkFetcherTask.manager_after o1;
         request_finished_slots := request_finished_slots _ w3;
         task_manager := task_manager _ w3 |}).
    assert (Hrun1 : run_task_ first queue1 w3 = Some (o1, w4)).
    { unfold run_task. rewrite Hfirst3. reflexivity. }
    assert (Hclient :
      BaseGeonodeClient.network_fetcher_task (client _ w4)
      = Some (MyNetworkFetcherTask.task_after o2)).
    { unfold client, w4, w3; cbn [network_fetcher_task tasks
        BaseGeonodeClient.network_fetcher_task].
      rewrite Hnft2.
      rewrite lookup_insert_ne by congruence. apply lookup_insert_eq. }
    exists w1, w2, w3, w4, o1, o2.
    split; [exact Hget1|]. split; [exact Hget2|]. split; [exact Hrun2|].
    split; [exact Hrun1|]. split; [exact Hclient|].
    intros Hbad. unfold style_request_finished.
    exact (proj1 (style_handler_fails_on_malformed setContent _ _
                    Hclient Hbad)).
Qed.

End StyleFailures.

Lemma malformed_sld_raises_without_emitting_witness :
  Base.BaseGeonodeClient.network_fetcher_task
    (Sample.client_with_body Scenario.sld_without_named_layer)
  = Some (Base.MyNetworkFetcherTask.with_parsed
            Scenario.sld_without_named_layer
            {| Base.http_status_code := Some 200;
               Base.http_status_reason := Some "OK";
               Base.qt_error := None |}
            Sample.task)
  /\ Base.BaseGeonodeClient.handle_layer_style_detail Sample.setContent
       (Sample.client_with_body Scenario.sld_without_named_layer)
     = ([], inl (RuntimeError "Could not parse downloaded SLD document")).
Proof.
  split; [reflexivity|].
  refine (proj2 (proj1 (malformed_sld_raises_without_emitting unit
                          Base.parse_network_reply_spec Scenario.readAll
                          Sample.updateNetworkRequest Sample.setContent)
                   (Sample.client_with_body Scenario.sld_without_named_layer)
                   _ eq_refl _) eq_refl).
  right. reflexivity.
Defined.

(** C6, the claim as stated fails: a failure is not confined to its
    request.  Two style requests are made; the task of the second runs
    first and receives a document without a [NamedLayer]; the task of the
    first then receives a document that the handler can use.  The slot
    called as the first task finishes raises a [RuntimeError] and does not
    emit [style_detail_received]. *)
Lemma malformed_later_request_fails_earlier_one :
  match Base.Requests.get_layer_style unit 1%nat Scenario.roads None
          Scenario.application with
  | inl _ => False
  | inr w1 =>
      match Base.Requests.get_layer_style unit 2%nat Scenario.rivers None w1
      with
      | inl _ => False
      | inr w2 =>
          match @Base.Requests.run_task unit Base.parse_network_reply_spec
                  Scenario.readAll Sample.updateNetworkRequest 2%nat
                  [(100, Scenario.completed 0)] w2 with
          | None => False
          | Some (_, w3) =>
              match @Base.Requests.run_task unit
                      Base.parse_network_reply_spec Scenario.readAll
                      Sample.updateNetworkRequest 1%nat
                      [(100, Scenario.completed 1)] w3 with
              | None => False
              | Some (o1, w4) =>
                  Base.MyNetworkFetcherTask.reply_content
                    (Base.MyNetworkFetcherTask.task_after o1)
                  = Some Scenario.sld_with_named_layer
                  /\ Base.BaseGeonodeClient.handle_layer_style_detail
                       Sample.setContent
                       (Scenario.client_referring_to
                          (Base.MyNetworkFetcherTask.task_after o1))
                     = ([Base.BaseGeonodeClient.style_detail_received
                           (Some ("NamedLayer", []))],
                        inr tt)
                  /\ Base.Requests.style_request_finished unit
                       Sample.setContent w4
                     = ([], inl (RuntimeError
                                   "Could not parse downloaded SLD document"))
              end
          end
      end
  end.
Proof. vm_compute. repeat split. Qed.

Lemma delete_connection_declined_or_out_of_range_witness :
  last Scenario.connections = Some (Scenario.connection 13 "production")
  /\ Gui.Connections.delete_connection
       (Some (Scenario.connection 13 "production")) true Scenario.connections
       (Z.of_nat (length Scenario.connections))
     = inr [Gui.Connections.delete_connection_called 13;
            Gui.Connections.set_current_connection_called 13].
Proof.
  split; [reflexivity|].
  exact (proj1 (proj2 (proj2 (delete_connection_declined_or_out_of_range
                                (Some (Scenario.connection 13 "production"))
                                Scenario.connections
                                (Z.of_nat (length Scenario.connections)))))
           (Scenario.connection 13 "production")
           (Scenario.connection 13 "production") eq_refl eq_refl eq_refl).
Defined.
